(* ===== verification/_CoqProject ===== *)
-Q . S2P
Prelude.v
PyDict.v
PyValue.v
JsonText.v
Json.v
Helpers.v
Dto.v
Paged.v
PagedResult.v
PagedSteps.v
Fixtures.v
Tools.v
Server.v
JsonTools.v
JsonServer.v
PagedTools.v
Tests.v
