(* ===== verification/Prelude.v ===== *)
(** * A verification development for the Semantic Scholar tool server

    The repository is a thin tool-server adapter over a scholarly-paper
    client library.  Its sources are

    - [src/semanticscholar/mcp_server.py]: three helpers ([_truncate],
      [_paper_to_dict], [_author_to_dict]) and nine tool handlers
      ([search_papers], [get_paper], [get_paper_citations],
      [get_paper_references], [search_snippets], [search_authors],
      [get_author], [get_author_papers], [get_recommendations]), each
      registered with [@mcp.tool()].  A handler forwards its arguments to
      one method of the client object [_sch], consumes the result object
      (slicing, iteration, [len], [total]) and serialises a dictionary
      with [json.dumps(_, indent=2)].  The client is built once from the
      key [S2_API_KEY] of the environment; [main] runs the server.
    - [src/semanticscholar/SnippetSearchResult.py]: the data objects
      [Snippet] and [SnippetSearchResult], built from a JSON mapping by
      [_init_attributes].
    - [src/tests/test_mcp_server.py]: the test suite, with the fixtures
      [_make_paper] and [_make_author], the mock result object
      [_make_paginated] and the patched client; it reads the answers of
      the handlers with [json.loads].

    ** Files of the development, in dependency order

    - [Prelude] (this file): the semantics of the Python fragments the
      code uses.  A call either returns or raises ([res]); code that
      mutates an object or the client is a state-and-exception
      computation ([M], with [run]; the state is kept when an exception
      is raised); [x[:stop]] is [slice_stop], [list_slice_to] and
      [str_slice_to]; the [if x:] test is the class [Truthy]; [min] is
      [Z.min]; [s.split(sep)] is [str_split].  The tactics [run_step],
      [run_steps], [case_run], [ascii_cases] and the hint databases [py],
      [run] and [py_rw] are here.
    - [PyDict]: a Python [dict] with string keys as an insertion-ordered
      association list ([dict_set], [dict_get], [dict_in], [dict_keys]):
      an assignment keeps the place of a key that is present and puts a
      new key last ([dict_keys_set]).  Its invariant [dict_wf] (keys
      without duplicates) and its refinement of the finite map
      [gmap string V] ([dict_to_map]); the equivalence [dict_equiv]
      (equal as maps, whatever the order) with its [Proper] instances.
    - [PyValue]: the JSON-shaped values the handlers build ([value]), the
      injection [to_value] of typed attributes, [key in data] and
      [data[key]] on an arbitrary value ([py_contains], [py_getitem],
      [init_attr]) and the well-formedness invariant [value_wf].
    - [JsonText]: the lexical level of JSON as the standard library
      writes and reads it: string literals with [ensure_ascii]
      ([py_encode_basestring_ascii], [scanstring]), integers ([int_repr],
      [parse_int]), the number pattern of the decoder ([lex_number]) and
      the interface [FloatFormat] for the text of a float
      ([float.__repr__] and [float(...)]), with its instance by table
      ([repr_table], [test_format] for the floats of the tests).
    - [Json]: [json.dumps(v, indent=2)] ([encode], [dumps]) and
      [json.loads] ([scan_once] with the loops [JSONArray] and
      [JSONObject], [decode], [loads]).
    - [Helpers]: the attribute records [Paper.t], [Author.t], [Tldr.t],
      [datetime], [Citation.t], [Reference.t], and [_truncate],
      [_paper_to_dict], [_author_to_dict].
    - [Dto]: the modules [Snippet] and [SnippetSearchResult]: the
      attributes as a record, [_init_attributes] as a computation on the
      object, [__init__] and the property getters.
    - [Paged]: the interface the handlers use on a result object (class
      [Paged]: [total], [len], [results[:stop]], [list(results)]), the
      part of it that [search_snippets] and [get_recommendations] use
      (class [Listing]: [for r in results], [results[:stop]], with the
      Python list as an instance) and the test suite's mock
      [_make_paginated] with its shared iterator.
    - [PagedResult]: the lazily paged result of the specification
      (module [PagedResult]: the object, [make], [query], [fetch_page],
      [get], [iterate_from], [iterate_all], [slice]), modelled from the
      specification because its class is not under [src/]; the instance
      [paged_result_paged] of [Paged], whose [results[:stop]] is the
      ordinary, clipped slice ([paged_slice_to]); the listing an object
      stands for ([represents]) and the example sources of the
      specification.
    - [PagedSteps]: the lifecycle of a result object as step relations:
      [paged_step], one operation of a handler on any implementation of
      [Paged], and [fetch_step], one call of the fetch capability.
    - [Fixtures]: [_make_paper], [_make_author] and the overrides the
      tests use.
    - [Tools]: the client interface (class [Client]), the nine handlers
      (section [Handlers], with [json.dumps] a parameter) and the patched
      client of the test suite ([MockSch], [mock_client], which records
      every call).
    - [Server]: the table of the registered tools ([tools], [mcp]) with
      their signatures, the binding of the arguments of a call to a
      signature ([bind]), the client built from the environment
      ([_api_key], [_sch]) and [main]; the class [Host] is what the
      module is loaded with.  Of the framework, which is not under
      [src/], the call by name ([call_tool]) and the loop that answers
      the requests one after the other ([serve]), as much as the
      specification says of it.
    - [JsonTools]: the handlers with the encoder of [Json]: the contract
      [returns_json] and the documents the data objects are built from.
    - [JsonServer]: the server loaded with that encoder ([json_host]) in
      front of a client that delivers documents ([delivers_documents]).
    - [PagedTools]: the handlers on the paged result of the
      specification, with a patched client that returns paged results,
      and the mock of the test suite as a double of it ([doubles]).
    - [Tests]: every test function of the suite as an [Example], on the
      answers decoded with [loads].

    ** What the theorems show

    - Helpers: [_truncate] on both branches, its length bound and
      idempotence; [_paper_to_dict] and [_author_to_dict] equal a table
      of optional rows ([paper_fields], [author_fields]), keep the order
      of the source, never repeat a key and return well-formed JSON; the
      two kinds of guard ([if x:], [if x is not None:]) differ on zero.
    - Data objects: the constructors succeed on every dictionary and
      compute [of_dict]; they raise [TypeError] only, and only on a value
      that is not a dictionary; the order in which the paper and the
      snippet are decoded.
    - Handlers: for every client and every result object, a handler makes
      one call with the clamped limit and leaves the client as the call
      left it; it raises what the call or the result object raises; the
      number of entries it returns is bounded by a non-negative limit;
      the fields of study are split at the commas, an empty string being
      no fields; the dictionary of a snippet result has its keys in the
      order of the assignments.  On the patched client the outputs and
      the recorded calls are computed, and each test of the suite is
      checked by evaluation.
    - JSON: [loads (dumps v) = Ok v] for every document without a
      repeated key whose floats the format covers, so [dumps] is
      injective; the text is printable ASCII and new lines; [loads]
      returns on every text (its fuel, the length of the text, is never
      used up, and more fuel changes no answer); what [loads] returns is
      well formed.  With this encoder every handler returns JSON
      ([returns_json]): four of them whatever the client delivers, the
      others when the dictionaries the papers carry are documents.
    - Server: under each of the nine names the function of that name is
      registered with the parameter names and the defaults of its
      signature, and the order of the keywords of a call does not matter
      ([call_tool_by_keyword]); the loop answers every request and calls
      the client once for every accepted one.  Composed with the
      encoder: every answer of the loop is an error or JSON
      ([serve_answers_json]).
    - Paged result: an object that stands for a listing refines the
      Python list of the listing (total, every slice, iteration); [get]
      returns with fuel for the remaining pages and fetches the least
      number of pages, and fails at and beyond the total; nothing loaded
      is ever lost, whatever the outcome; a failed fetch changes nothing
      but the log; the examples of section 8 of the specification are
      evaluated.  As a transition system: the operations change an object
      by fetches only, every sequence of fetches ends within the number
      of pages that remain, and where it ends the listing is loaded.
    - Handlers on the paged result: what [search_papers] and
      [get_paper_citations] return, and that every handler returns on
      the mock of the test suite what it returns on a paged result that
      stands for the items of the mock ([handlers_paged_as_mock]).

    ** Modelling choices

    - Strings are [string]; [len] is [String.length], so a character of
      the model is one code point of the Python string, below 256.  The
      encoder escapes every character outside printable ASCII; the
      decoder answers [Unrepresentable] to an escape of a code point from
      256 on, which no text of the encoder holds.
    - Integers are [Z]: Python integers are unbounded, nothing wraps.
    - A float is a [spec_float] (IEEE 754 binary64 as data); the code only
      passes floats through.  Its text is given by an instance of
      [FloatFormat], whose two laws (the text is a number token, and it
      reads back as the float) are what the theorems on JSON use; the
      instance of the tests is a table of the floats that occur there.
    - An attribute typed [Optional[T]] is an [option]; the two guards of
      the code, [if x:] and [if x is not None:], are [when_truthy] and
      [when_not_none].  The attributes of a paper and of an author have
      the types the fixtures of the tests give them; an object (a paper,
      a snippet, a [tldr], a date) is true, as an instance of a class
      without [__bool__] and [__len__] is.
    - A [dict] is an association list in insertion order, because
      [json.dumps] prints keys in that order.
    - The exception type [E] of the handlers is a parameter: the handlers
      catch nothing, so their theorems hold for all exception types.  The
      data objects raise Python's own exceptions, the type [exn].  A call
      by name adds the outcomes [UnknownTool], [BadCall] and [IllTyped]
      ([call_error]).
    - The state [W] of the client is a parameter; for the patched client
      it is the list of calls made so far.  A result object is a value
      of its own, with its own state: the fetch capability is a field of
      the object and its fetches are recorded in the object
      ([PagedResult.fetch_log]), as the specification has it ("only
      network-level item fetches via the fetch capability; no other
      component state is touched").  So an operation on a result object
      ([on_obj]) changes the object and not [W]: [W] is what the methods
      of the client change, and "the client is left as the call left it"
      is a statement about [W].
    - [results[:stop]] on a paged result is the ordinary slice of a
      sequence of [total] items, clipped at the total, as section 6 of
      the specification asks and as the handlers and the tests need it
      (a default limit of 10 on a single result); [PagedResult.slice],
      the operation of section 4.1, fails beyond the total.
    - Fuel is used in two places.  [PagedResult.get]: the loop that
      fetches pages until the index is loaded runs for as long as the
      source returns pages, so it takes the number of fetches it may make
      and ends with the outcome [OutOfFuel] beyond it.  A source that has
      [n] pages left needs fuel [n] ([paged_get_returns], [represents]):
      every theorem on the paged result holds for all fuel at least the
      number of remaining pages.  [Json.scan_once]: the decoder recurses
      into the values of an array or an object, which is not structural
      on the text; [decode] gives it the length of the text plus one,
      which is enough because every value read leaves a shorter text
      ([scan_once_progress], [loads_terminates]).  Every other function
      is structurally recursive.

    ** What is not modelled

    The HTTP client behind [_sch] and what it does with the API key, and
    the [Paper] and [Author] constructors of the client library are
    outside [src/]; they appear as parameters (the class [Client], the
    field [SemanticScholar] of [Host], the decoder [mkPaper]).  A paper
    or an author that lacks an attribute, or holds a value of another
    type in it, is outside the model.  Of the framework [FastMCP], which
    is outside [src/] as well, the call by name and the loop on the
    requests are modelled as far as the specification describes them;
    its transport (JSON-RPC over standard input and output), the schemas
    it derives from the signatures and what it does with an argument
    that is not of the annotated type are not: such a call has the
    outcome [IllTyped], of which no theorem says more than that the
    model does not run the function.  [json.dumps] and [json.loads] are
    modelled from the behaviour of the standard library for the values
    the handlers build: strings of code points below 256, unbounded
    integers, no limit on the depth of a document; floats are covered
    through [FloatFormat], not by an implementation of [repr].  The
    class of the result objects of the client library is outside
    [src/]: the handlers are verified against the interfaces [Paged] and
    [Listing], whose instances are the mock of the test suite and the
    Python list (from the code of the tests) and the paged result of the
    specification (from its words).  A method of the patched client
    returns its [return_value] as configured at every call; that the
    Python mock hands out the same object, whose iterator an earlier
    call may have consumed, is not modelled: no test calls a method
    twice. *)

From Stdlib Require Import ZArith String Ascii List Lia.
From stdpp Require Import base tactics option list strings numbers.

Open Scope Z_scope.

(** ** Results of calls: return or raise *)

Inductive res (E A : Type) : Type :=
| Ok (a : A)
| Raise (e : E).
Arguments Ok {E A} a.
Arguments Raise {E A} e.

#[export] Instance res_ret {E} : MRet (res E) := fun A a => Ok a.
#[export] Instance res_bind {E} : MBind (res E) := fun A B f m =>
  match m with Ok a => f a | Raise e => Raise e end.
#[export] Instance res_fmap {E} : FMap (res E) := fun A B f m =>
  match m with Ok a => Ok (f a) | Raise e => Raise e end.

(** The exceptions the modelled code can raise: those of the language
    that the sources can trigger, and the four of the specification of
    the paged result. *)
Inductive exn : Type :=
| TypeError
| KeyError (key : string)
| IndexError
| ValueError
| InvalidResponseError
| RemoteFetchError
| IndexOutOfRangeError
| DecodingError.

#[export] Instance exn_eq_dec : EqDecision exn.
Proof. solve_decision. Defined.

Definition is_Ok {E A} (r : res E A) : bool :=
  match r with Ok _ => true | Raise _ => false end.

Definition res_to_option {E A} (r : res E A) : option A :=
  match r with Ok a => Some a | Raise _ => None end.

(** ** Computations over a mutable object: state and exceptions.
    The state after a raise is kept: what a call mutated before it
    raised stays mutated. *)

Record M (E S A : Type) : Type := MkM { run : S -> res E A * S }.
Arguments MkM {E S A} run.
Arguments run {E S A} m s.

#[export] Instance M_ret {E S} : MRet (M E S) :=
  fun A a => MkM (fun s => (Ok a, s)).
#[export] Instance M_bind {E S} : MBind (M E S) := fun A B f m =>
  MkM (fun s => match run m s with
                | (Ok a, s') => run (f a) s'
                | (Raise e, s') => (Raise e, s')
                end).
#[export] Instance M_fmap {E S} : FMap (M E S) := fun A B f m =>
  MkM (fun s => match run m s with
                | (Ok a, s') => (Ok (f a), s')
                | (Raise e, s') => (Raise e, s')
                end).

Definition raise {E S A} (e : E) : M E S A := MkM (fun s => (Raise e, s)).
Definition get_st {E S} : M E S S := MkM (fun s => (Ok s, s)).
Definition put_st {E S} (s : S) : M E S unit := MkM (fun _ => (Ok tt, s)).
Definition modify_st {E S} (f : S -> S) : M E S unit :=
  MkM (fun s => (Ok tt, f s)).
Definition lift_res {E S A} (r : res E A) : M E S A := MkM (fun s => (r, s)).

(** [on_obj f o] runs a method [f] of a local object [o] inside a
    computation over another state; the caller gets the result and the
    object as the method left it. *)
Definition on_obj {E W R A} (f : M E R A) (o : R) : M E W (A * R) :=
  MkM (fun w => match run f o with
                | (Ok a, o') => (Ok (a, o'), w)
                | (Raise e, _) => (Raise e, w)
                end).

(** ** Slices [x[:stop]]
    [slice_stop n stop] is the number of elements [x[:stop]] keeps of a
    sequence of length [n]: a negative [stop] counts from the end, and
    both ends are clipped. *)

Definition slice_stop (n : nat) (stop : Z) : nat :=
  if stop <? 0 then Z.to_nat (Z.max (stop + Z.of_nat n) 0)
  else Nat.min (Z.to_nat stop) n.

Definition list_slice_to {A} (stop : Z) (l : list A) : list A :=
  take (slice_stop (length l) stop) l.

Fixpoint str_take (n : nat) (s : string) : string :=
  match n, s with
  | S n', String c s' => String c (str_take n' s')
  | _, _ => EmptyString
  end.

Fixpoint str_drop (n : nat) (s : string) : string :=
  match n, s with
  | S n', String _ s' => str_drop n' s'
  | _, _ => s
  end.

(** [s.endswith(suffix)] *)
Definition str_endswith (suffix s : string) : bool :=
  (String.length suffix <=? String.length s)%nat &&
  bool_decide (str_drop (String.length s - String.length suffix) s = suffix).

Definition str_slice_to (stop : Z) (s : string) : string :=
  str_take (slice_stop (String.length s) stop) s.

Definition py_len (s : string) : Z := Z.of_nat (String.length s).

(** ** [s.split(sep)] for a one-character separator: the pieces between
    the separators, empty pieces included; never the empty list. *)

Fixpoint str_split (sep : ascii) (s : string) : list string :=
  match s with
  | EmptyString => [EmptyString]
  | String c s' =>
      if decide (c = sep) then EmptyString :: str_split sep s'
      else match str_split sep s' with
           | p :: ps => String c p :: ps
           | [] => [String c EmptyString]
           end
  end.

Fixpoint str_join (sep : ascii) (ps : list string) : string :=
  match ps with
  | [] => EmptyString
  | [p] => p
  | p :: ps' => (p ++ String sep (str_join sep ps'))%string
  end.

(** [needle in hay] on strings: [needle] occurs in [hay]. *)
Fixpoint str_contains (needle hay : string) : bool :=
  String.prefix needle hay ||
  match hay with
  | EmptyString => false
  | String _ hay' => str_contains needle hay'
  end.

Fixpoint str_count (c : ascii) (s : string) : nat :=
  match s with
  | EmptyString => 0%nat
  | String c' s' => ((if decide (c' = c) then 1 else 0) + str_count c s')%nat
  end.

(** ** Truth value testing: what [if x:] tests *)

Class Truthy (A : Type) := truthy : A -> bool.
#[global] Hint Mode Truthy ! : typeclass_instances.

#[export] Instance truthy_bool : Truthy bool := fun b => b.
#[export] Instance truthy_Z : Truthy Z := fun n => negb (n =? 0).
#[export] Instance truthy_string : Truthy string := fun s =>
  match s with EmptyString => false | String _ _ => true end.
#[export] Instance truthy_list {A} : Truthy (list A) := fun l =>
  match l with [] => false | _ :: _ => true end.
#[export] Instance truthy_option {A} `{Truthy A} : Truthy (option A) :=
  fun o => match o with None => false | Some a => truthy a end.

(** The two guards of the code: [if x: d = f(x, d)] and
    [if x is not None: d = f(x, d)]. *)
Definition when_truthy {A D} `{Truthy A} (x : option A) (f : A -> D -> D)
    (d : D) : D :=
  match x with
  | Some a => if truthy a then f a d else d
  | None => d
  end.

Definition when_not_none {A D} (x : option A) (f : A -> D -> D) (d : D) : D :=
  match x with
  | Some a => f a d
  | None => d
  end.

(** ** Automation *)

Create HintDb py discriminated.
Create HintDb run discriminated.
Create Rewrite HintDb py_rw.

Ltac run_simpl :=
  repeat (cbn [run mbind mret fmap M_bind M_ret M_fmap res_bind res_ret
                 res_fmap raise get_st put_st modify_st lift_res on_obj] in *).

(** Case analysis on a character, for facts checked on each of the 256. *)
Ltac ascii_cases c := destruct c as [[] [] [] [] [] [] [] []].

Ltac case_run :=
  match goal with
  | |- context [run ?m ?s] =>
      let r := fresh "r" in let s' := fresh "s" in let H := fresh "Hrun" in
      destruct (run m s) as [[r|r] s'] eqn:H
  end.

(** ** Lemmas on results and computations *)

Section Monad.
Context {E S : Type}.

Lemma res_bind_Ok {A B} (f : A -> res E B) (m : res E A) (b : B) :
  m ≫= f = Ok b <-> exists a, m = Ok a /\ f a = Ok b.
Proof.
  destruct m as [a|e0]; cbn; split.
  - intros Hf. by exists a.
  - intros (a0 & Hm & Hf); congruence.
  - done.
  - intros (a0 & Hm & Hf); congruence.
Qed.

Lemma res_bind_Raise {A B} (f : A -> res E B) (m : res E A) (e : E) :
  m ≫= f = Raise e <-> m = Raise e \/ exists a, m = Ok a /\ f a = Raise e.
Proof.
  destruct m as [a|e0]; cbn; split.
  - intros Hf. right. by exists a.
  - intros [Hm | (a0 & Hm & Hf)]; congruence.
  - intros [= ->]. by left.
  - intros [Hm | (a0 & Hm & Hf)]; congruence.
Qed.

Lemma run_ret {A} (a : A) (s : S) : run (mret a : M E S A) s = (Ok a, s).
Proof. reflexivity. Qed.

Lemma run_bind {A B} (m : M E S A) (f : A -> M E S B) (s : S) :
  run (m ≫= f) s =
  match run m s with
  | (Ok a, s') => run (f a) s'
  | (Raise e, s') => (Raise e, s')
  end.
Proof. reflexivity. Qed.

Lemma run_bind_Ok {A B} (m : M E S A) (f : A -> M E S B) s a s' :
  run m s = (Ok a, s') -> run (m ≫= f) s = run (f a) s'.
Proof. intros H. rewrite run_bind, H. reflexivity. Qed.

Lemma run_bind_Raise {A B} (m : M E S A) (f : A -> M E S B) s e s' :
  run m s = (Raise e, s') -> run (m ≫= f) s = (Raise e, s').
Proof. intros H. rewrite run_bind, H. reflexivity. Qed.

Lemma run_bind_ret_l {A B} (a : A) (f : A -> M E S B) s :
  run (mret a ≫= f) s = run (f a) s.
Proof. reflexivity. Qed.

Lemma run_bind_ret_r {A} (m : M E S A) s : run (m ≫= mret) s = run m s.
Proof. rewrite run_bind. by destruct (run m s) as [[?|?] ?]. Qed.

Lemma run_bind_assoc {A B C} (m : M E S A) (f : A -> M E S B)
    (g : B -> M E S C) s :
  run ((m ≫= f) ≫= g) s = run (m ≫= (fun a => f a ≫= g)) s.
Proof. rewrite !run_bind. by destruct (run m s) as [[?|?] ?]. Qed.

Lemma run_raise {A} (e : E) (s : S) : run (raise e : M E S A) s = (Raise e, s).
Proof. reflexivity. Qed.

Lemma run_modify_st (f : S -> S) (s : S) :
  run (modify_st f : M E S unit) s = (Ok tt, f s).
Proof. reflexivity. Qed.

Lemma run_get_st (s : S) : run (get_st : M E S S) s = (Ok s, s).
Proof. reflexivity. Qed.

Lemma run_put_st (s' s : S) : run (put_st s' : M E S unit) s = (Ok tt, s').
Proof. reflexivity. Qed.

Lemma run_lift_res {A} (r : res E A) (s : S) :
  run (lift_res r : M E S A) s = (r, s).
Proof. reflexivity. Qed.

End Monad.

#[export] Hint Rewrite @run_ret @run_bind_ret_l @run_bind_ret_r @run_raise : py_rw.
#[export] Hint Resolve run_ret run_raise run_modify_st run_get_st run_put_st
  run_lift_res : run.

(** [run_step] runs the first computation of a sequence with a fact of
    the database [run], [run_steps] a whole sequence. *)
Ltac run_step :=
  first
    [ erewrite run_bind_Ok by (solve [eauto with run])
    | erewrite run_bind_Raise by (solve [eauto with run]) ].
Ltac run_steps := repeat run_step.

Lemma run_bind_on_obj {E W R A B} (f : M E R A) (o : R)
    (k : A * R -> M E W B) (w : W) :
  run (on_obj f o ≫= k) w =
  match run f o with
  | (Ok a, o') => run (k (a, o')) w
  | (Raise e, _) => (Raise e, w)
  end.
Proof. rewrite run_bind. simpl. by destruct (run f o) as [[a|e] o']. Qed.

(** A loop that appends to a list the elements a test keeps is a
    filter-map. *)
Lemma fold_left_append_omap {A B} (f : A -> option B) (xs : list A)
    (acc : list B) :
  fold_left (fun acc x => match f x with Some b => acc ++ [b] | None => acc end)
    xs acc
  = acc ++ omap f xs.
Proof.
  revert acc. induction xs as [|x xs IH]; intros acc; csimpl.
  - by rewrite app_nil_r.
  - rewrite IH. destruct (f x); [by rewrite <- app_assoc | done].
Qed.

Lemma fold_left_append_fmap {A B} (f : A -> B) (xs : list A) (acc : list B) :
  fold_left (fun acc x => acc ++ [f x]) xs acc = acc ++ (f <$> xs).
Proof.
  revert acc. induction xs as [|x xs IH]; intros acc; csimpl.
  - by rewrite app_nil_r.
  - by rewrite IH, <- app_assoc.
Qed.

Lemma length_omap_le {A B} (f : A -> option B) (xs : list A) :
  (length (omap f xs) <= length xs)%nat.
Proof. induction xs as [|x xs IH]; csimpl; [done|]. destruct (f x); csimpl; lia. Qed.

Lemma run_on_obj_Ok {E W R A} (f : M E R A) (o o' : R) (a : A) (w : W) :
  run f o = (Ok a, o') -> run (on_obj f o : M E W _) w = (Ok (a, o'), w).
Proof. intros H. cbn. by rewrite H. Qed.

Lemma run_on_obj_Raise {E W R A} (f : M E R A) (o o' : R) (e : E) (w : W) :
  run f o = (Raise e, o') -> run (on_obj f o : M E W _) w = (Raise e, w).
Proof. intros H. cbn. by rewrite H. Qed.

(** ** Lemmas on slices *)

Lemma slice_stop_le (n : nat) (stop : Z) : (slice_stop n stop <= n)%nat.
Proof. unfold slice_stop. destruct (Z.ltb_spec stop 0); lia. Qed.

Lemma slice_stop_nonneg (n : nat) (stop : Z) :
  0 <= stop -> slice_stop n stop = Nat.min (Z.to_nat stop) n.
Proof. unfold slice_stop. destruct (Z.ltb_spec stop 0); [lia | done]. Qed.

Lemma slice_stop_neg (n : nat) (stop : Z) :
  stop < 0 -> slice_stop n stop = (n - Z.to_nat (- stop))%nat.
Proof. unfold slice_stop. destruct (Z.ltb_spec stop 0); lia. Qed.

Lemma slice_stop_bound (n : nat) (stop : Z) :
  0 <= stop -> Z.of_nat (slice_stop n stop) <= stop.
Proof. intros. rewrite slice_stop_nonneg by done. lia. Qed.

Lemma slice_stop_all (n : nat) (stop : Z) :
  Z.of_nat n <= stop -> slice_stop n stop = n.
Proof. intros. rewrite slice_stop_nonneg by lia. lia. Qed.

Section ListSlice.
Context {A : Type}.
Implicit Types (l : list A) (stop : Z).

Lemma list_slice_to_length l stop :
  length (list_slice_to stop l) = slice_stop (length l) stop.
Proof.
  unfold list_slice_to. rewrite length_take.
  pose proof (slice_stop_le (length l) stop). lia.
Qed.

Lemma list_slice_to_prefix l stop : list_slice_to stop l `prefix_of` l.
Proof. apply prefix_take. Qed.

Lemma list_slice_to_bound l stop :
  0 <= stop -> Z.of_nat (length (list_slice_to stop l)) <= stop.
Proof. intros. rewrite list_slice_to_length. by apply slice_stop_bound. Qed.

Lemma list_slice_to_all l stop :
  Z.of_nat (length l) <= stop -> list_slice_to stop l = l.
Proof.
  intros. unfold list_slice_to. rewrite slice_stop_all by done.
  apply firstn_all.
Qed.

Lemma list_slice_to_0 l : list_slice_to 0 l = [].
Proof. unfold list_slice_to. by rewrite slice_stop_nonneg. Qed.

Lemma list_slice_to_lookup l stop (i : nat) :
  (i < slice_stop (length l) stop)%nat -> list_slice_to stop l !! i = l !! i.
Proof. intros. unfold list_slice_to. by rewrite lookup_take_lt. Qed.

Lemma list_slice_to_fmap {B} (f : A -> B) l stop :
  list_slice_to stop (f <$> l) = f <$> list_slice_to stop l.
Proof. unfold list_slice_to. by rewrite length_fmap, fmap_take. Qed.

End ListSlice.

(** ** Lemmas on strings *)

Lemma str_app_nil_l (s : string) : ("" ++ s)%string = s.
Proof. reflexivity. Qed.

Lemma str_app_cons (c : ascii) (s1 s2 : string) :
  (String c s1 ++ s2)%string = String c (s1 ++ s2).
Proof. reflexivity. Qed.

Lemma str_app_nil_r (s : string) : (s ++ "")%string = s.
Proof. induction s as [|c s IH]; [done|]. by rewrite str_app_cons, IH. Qed.

Lemma str_app_assoc (s1 s2 s3 : string) :
  ((s1 ++ s2) ++ s3)%string = (s1 ++ (s2 ++ s3))%string.
Proof. induction s1 as [|c s1 IH]; [done|]. by rewrite !str_app_cons, IH. Qed.

Lemma str_length_app (s1 s2 : string) :
  String.length (s1 ++ s2) = (String.length s1 + String.length s2)%nat.
Proof.
  induction s1 as [|c s1 IH]; [done|]. rewrite str_app_cons. simpl. by rewrite IH.
Qed.

Lemma str_take_length (n : nat) (s : string) :
  String.length (str_take n s) = Nat.min n (String.length s).
Proof. revert s. induction n; intros [|c s]; simpl; auto. Qed.

Lemma str_take_all (n : nat) (s : string) :
  (String.length s <= n)%nat -> str_take n s = s.
Proof.
  revert s. induction n; intros [|c s]; simpl; intros; try done; [lia|].
  f_equal. apply IHn. lia.
Qed.

Lemma str_take_app (n : nat) (s1 s2 : string) :
  n = String.length s1 -> str_take n (s1 ++ s2) = s1.
Proof.
  intros ->. induction s1 as [|c s1 IH]; [by destruct s2|].
  rewrite str_app_cons. simpl. by rewrite IH.
Qed.

Lemma str_take_take (n m : nat) (s : string) :
  str_take n (str_take m s) = str_take (Nat.min n m) s.
Proof.
  revert m s. induction n; intros [|m] [|c s]; simpl; try done.
  by rewrite IHn.
Qed.

Lemma str_drop_app (n : nat) (s1 s2 : string) :
  n = String.length s1 -> str_drop n (s1 ++ s2) = s2.
Proof.
  intros ->. induction s1 as [|c s1 IH]; [by destruct s2|].
  rewrite str_app_cons. simpl. by rewrite IH.
Qed.

Lemma str_endswith_app (s1 s2 : string) : str_endswith s2 (s1 ++ s2) = true.
Proof.
  unfold str_endswith. rewrite str_length_app, andb_true_iff. split.
  - apply Nat.leb_le. lia.
  - apply bool_decide_eq_true. apply str_drop_app. lia.
Qed.

Lemma str_slice_to_length (stop : Z) (s : string) :
  String.length (str_slice_to stop s) = slice_stop (String.length s) stop.
Proof.
  unfold str_slice_to. rewrite str_take_length.
  pose proof (slice_stop_le (String.length s) stop). lia.
Qed.

#[export] Hint Rewrite str_length_app str_take_length str_slice_to_length
  @list_slice_to_length : py_rw.

(** ** Lemmas on [split] *)

Lemma str_split_nonempty (sep : ascii) (s : string) : str_split sep s <> [].
Proof.
  induction s as [|c s IH]; simpl; [done|].
  case_decide; [done|]. by destruct (str_split sep s).
Qed.

Lemma str_join_split (sep : ascii) (s : string) :
  str_join sep (str_split sep s) = s.
Proof.
  induction s as [|c s IH]; simpl; [done|].
  pose proof (str_split_nonempty sep s) as Hne.
  case_decide as Hc.
  - subst c. destruct (str_split sep s) as [|p ps] eqn:Hs; [done|].
    simpl. by rewrite <- IH.
  - destruct (str_split sep s) as [|p ps] eqn:Hs; [done|].
    rewrite <- IH. by destruct ps.
Qed.

Lemma str_split_length (sep : ascii) (s : string) :
  length (str_split sep s) = S (str_count sep s).
Proof.
  induction s as [|c s IH]; simpl; [done|].
  pose proof (str_split_nonempty sep s) as Hne.
  case_decide; simpl; [by rewrite IH|].
  destruct (str_split sep s); [done|]. simpl in *. lia.
Qed.

Lemma str_split_no_sep (sep : ascii) (s : string) :
  Forall (fun p => str_count sep p = 0%nat) (str_split sep s).
Proof.
  induction s as [|c s IH]; simpl; [by repeat constructor|].
  case_decide as Hc; [by constructor|].
  destruct (str_split sep s) as [|p ps]; [repeat constructor|].
  - simpl. by case_decide.
  - inversion IH; subst. constructor; [|done]. simpl. case_decide; [done|lia].
Qed.

(** ** Lemmas on the guards *)

Lemma when_truthy_None {A D} `{Truthy A} (f : A -> D -> D) (d : D) :
  when_truthy None f d = d.
Proof. reflexivity. Qed.

Lemma when_truthy_true {A D} `{Truthy A} (x : option A) (a : A)
    (f : A -> D -> D) (d : D) :
  x = Some a -> truthy a = true -> when_truthy x f d = f a d.
Proof. intros -> Ht. simpl. by rewrite Ht. Qed.

Lemma when_truthy_false {A D} `{Truthy A} (x : option A) (f : A -> D -> D)
    (d : D) :
  truthy x = false -> when_truthy x f d = d.
Proof. destruct x as [a|]; simpl; [|done]. unfold truthy at 1. simpl. by intros ->. Qed.

Lemma when_truthy_cases {A D} `{Truthy A} (x : option A) (f : A -> D -> D)
    (d : D) :
  (exists a, x = Some a /\ truthy a = true /\ when_truthy x f d = f a d) \/
  (truthy x = false /\ when_truthy x f d = d).
Proof.
  destruct x as [a|]; [|by right].
  destruct (truthy a) eqn:Ht.
  - left. exists a. simpl. by rewrite Ht.
  - right. simpl. unfold truthy at 1. simpl. by rewrite Ht.
Qed.

Lemma truthy_string_length (s : string) :
  truthy s = true <-> (0 < String.length s)%nat.
Proof. destruct s; simpl; split; (done || lia). Qed.
