(* ===== verification/PyDict.v ===== *)
(** * Python dictionaries with string keys

    A [dict] keeps its keys in insertion order, and [json.dumps] prints
    them in that order, so the model is an association list: [d[k] = v]
    ([dict_set]) overwrites the value of a key that is present, in place,
    and appends a key that is not.  [d[k]] is [dict_get], [k in d] is
    [dict_in].

    The invariant [dict_wf] says that no key occurs twice.  The abstract
    specification is the finite map [gmap string V]: [dict_to_map] is the
    abstraction function, and [dict_set] and [dict_get] refine insertion
    and lookup.  Two dictionaries that are equal as maps are [dict_equiv];
    the operations respect the equivalence ([Proper] instances), so a
    statement about the content of a dictionary can be rewritten whatever
    the order of the keys. *)

From Stdlib Require Import String List.
From stdpp Require Import base tactics option list strings gmap.
From S2P Require Import Prelude.

Abbreviation dict V := (list (string * V)).

Section Dict.
Context {V : Type}.
Implicit Types (d : dict V) (k : string) (v : V).

Fixpoint dict_get k d : option V :=
  match d with
  | [] => None
  | (k', v') :: d' => if decide (k = k') then Some v' else dict_get k d'
  end.

Fixpoint dict_set k v d : dict V :=
  match d with
  | [] => [(k, v)]
  | (k', v') :: d' =>
      if decide (k = k') then (k, v) :: d' else (k', v') :: dict_set k v d'
  end.

Definition dict_keys d : list string := d.*1.

Definition dict_values d : list V := d.*2.

Definition dict_in k d : bool := bool_decide (k ∈ dict_keys d).

Definition dict_wf d : Prop := NoDup (dict_keys d).

Definition dict_to_map d : gmap string V := list_to_map d.

Definition dict_equiv d1 d2 : Prop := dict_to_map d1 = dict_to_map d2.

(** ** Lookup after update *)

Lemma dict_get_set_eq k v d : dict_get k (dict_set k v d) = Some v.
Proof.
  induction d as [|[k' v'] d IH]; simpl; repeat (case_decide; simpl); done.
Qed.

Lemma dict_get_set_ne k k' v d :
  k <> k' -> dict_get k' (dict_set k v d) = dict_get k' d.
Proof.
  intros Hne. induction d as [|[k0 v0] d IH]; simpl;
    repeat (case_decide; simpl); congruence.
Qed.

Lemma dict_get_set k k' v d :
  dict_get k' (dict_set k v d) = if decide (k = k') then Some v else dict_get k' d.
Proof.
  case_decide as Hk; [subst; apply dict_get_set_eq | by apply dict_get_set_ne].
Qed.

Lemma dict_get_Some_in k v d : dict_get k d = Some v -> (k, v) ∈ d.
Proof.
  induction d as [|[k' v'] d IH]; simpl; [done|].
  case_decide; [intros [= ->]; subst; left | right; auto].
Qed.

Lemma dict_get_None k d : dict_get k d = None <-> k ∉ dict_keys d.
Proof.
  unfold dict_keys. induction d as [|[k' v'] d IH]; simpl.
  - split; [intros _; apply not_elem_of_nil | done].
  - rewrite not_elem_of_cons. case_decide as Hk.
    + split; [done | by intros [? _]].
    + rewrite IH. split; [done | by intros [_ ?]].
Qed.

Lemma dict_get_is_Some k d : is_Some (dict_get k d) <-> k ∈ dict_keys d.
Proof.
  rewrite <- not_eq_None_Some, dict_get_None.
  split; [apply dec_stable | auto].
Qed.

Lemma dict_in_spec k d : dict_in k d = true <-> is_Some (dict_get k d).
Proof. unfold dict_in. by rewrite bool_decide_eq_true, dict_get_is_Some. Qed.

Lemma dict_in_false k d : dict_in k d = false <-> dict_get k d = None.
Proof. unfold dict_in. by rewrite bool_decide_eq_false, dict_get_None. Qed.

(** ** Shape of an update: in place or appended *)

Lemma dict_set_fresh k v d : k ∉ dict_keys d -> dict_set k v d = d ++ [(k, v)].
Proof.
  unfold dict_keys. induction d as [|[k' v'] d IH]; simpl; [done|].
  rewrite not_elem_of_cons. intros [Hne Hd].
  case_decide; [done|]. by rewrite IH.
Qed.

Lemma dict_keys_set_in k v d :
  k ∈ dict_keys d -> dict_keys (dict_set k v d) = dict_keys d.
Proof.
  unfold dict_keys. induction d as [|[k' v'] d IH]; simpl.
  - by intros ?%elem_of_nil.
  - case_decide; [by subst|]. intros [?|?]%elem_of_cons; [done|].
    simpl. f_equal. by apply IH.
Qed.

Lemma dict_keys_set k v d :
  dict_keys (dict_set k v d) =
  if decide (k ∈ dict_keys d) then dict_keys d else dict_keys d ++ [k].
Proof.
  case_decide as Hk; [by apply dict_keys_set_in|].
  rewrite dict_set_fresh by done. unfold dict_keys. by rewrite fmap_app.
Qed.

Lemma dict_set_length k v d :
  length (dict_set k v d) =
  if decide (k ∈ dict_keys d) then length d else S (length d).
Proof.
  pose proof (dict_keys_set k v d) as H. apply (f_equal length) in H.
  unfold dict_keys in *. rewrite length_fmap in H. rewrite H.
  case_decide; rewrite ?length_app, length_fmap; simpl; lia.
Qed.

Lemma dict_keys_app d1 d2 : dict_keys (d1 ++ d2) = dict_keys d1 ++ dict_keys d2.
Proof. unfold dict_keys. apply fmap_app. Qed.

(** ** The invariant *)

Lemma dict_wf_nil : dict_wf [].
Proof. constructor. Qed.

Lemma dict_wf_set k v d : dict_wf d -> dict_wf (dict_set k v d).
Proof.
  unfold dict_wf. rewrite dict_keys_set. case_decide as Hk; [done|].
  intros Hd. apply NoDup_app. split_and!; [done | | apply NoDup_singleton].
  intros x Hx ->%list_elem_of_singleton. done.
Qed.

Lemma dict_wf_snoc k v d : dict_wf d -> k ∉ dict_keys d -> dict_wf (d ++ [(k, v)]).
Proof. intros Hd Hk. rewrite <- dict_set_fresh by done. by apply dict_wf_set. Qed.

Lemma dict_wf_get_in k v d : dict_wf d -> (k, v) ∈ d -> dict_get k d = Some v.
Proof.
  unfold dict_wf, dict_keys. induction d as [|[k' v'] d IH]; simpl.
  - by intros _ ?%elem_of_nil.
  - intros [Hk' Hd]%NoDup_cons [[= -> ->]|Hin]%elem_of_cons.
    + by rewrite decide_True.
    + case_decide as Hk; [|by apply IH]. subst k'. destruct Hk'.
      apply list_elem_of_fmap. by exists (k, v).
Qed.

(** ** Refinement of the finite map *)

Lemma dict_to_map_get k d : dict_to_map d !! k = dict_get k d.
Proof.
  unfold dict_to_map. induction d as [|[k' v'] d IH]; simpl; [done|].
  case_decide; [subst; apply lookup_insert_eq | by rewrite lookup_insert_ne].
Qed.

Lemma dict_to_map_set k v d :
  dict_to_map (dict_set k v d) = <[k:=v]> (dict_to_map d).
Proof.
  apply map_eq. intros k'. rewrite dict_to_map_get, dict_get_set, lookup_insert.
  case_decide; [done | apply eq_sym, dict_to_map_get].
Qed.

Lemma dict_to_map_nil : dict_to_map [] = ∅.
Proof. reflexivity. Qed.

Lemma dict_to_map_dom d : dom (dict_to_map d) = list_to_set (dict_keys d).
Proof. unfold dict_to_map, dict_keys. apply dom_list_to_map_L. Qed.

Lemma dict_to_map_size d : dict_wf d -> size (dict_to_map d) = length d.
Proof.
  intros Hd. unfold dict_to_map.
  rewrite <- (length_map_to_list (list_to_map d)).
  apply Permutation_length, map_to_list_to_map. exact Hd.
Qed.

(** ** Equality as maps *)

#[export] Instance dict_equiv_equivalence : Equivalence dict_equiv.
Proof.
  unfold dict_equiv. split; [by intros ? | by intros ?? | intros ???; congruence].
Qed.

Lemma dict_equiv_get d1 d2 :
  dict_equiv d1 d2 <-> forall k, dict_get k d1 = dict_get k d2.
Proof.
  unfold dict_equiv. split.
  - intros H k. by rewrite <- !dict_to_map_get, H.
  - intros H. apply map_eq. intros k. by rewrite !dict_to_map_get.
Qed.

#[export] Instance dict_get_proper k : Proper (dict_equiv ==> eq) (dict_get k).
Proof. intros d1 d2 H. by apply dict_equiv_get. Qed.

#[export] Instance dict_set_proper k v :
  Proper (dict_equiv ==> dict_equiv) (dict_set k v).
Proof.
  intros d1 d2 H. unfold dict_equiv in *. by rewrite !dict_to_map_set, H.
Qed.

#[export] Instance dict_in_proper k : Proper (dict_equiv ==> eq) (dict_in k).
Proof.
  intros d1 d2 H. destruct (dict_in k d2) eqn:H2.
  - apply dict_in_spec. rewrite H. by apply dict_in_spec.
  - apply dict_in_false. rewrite H. by apply dict_in_false.
Qed.

Lemma dict_set_set_eq k v1 v2 d :
  dict_set k v2 (dict_set k v1 d) = dict_set k v2 d.
Proof.
  induction d as [|[k' v'] d IH]; simpl; repeat (case_decide; simpl);
    congruence.
Qed.

Lemma dict_set_comm k1 k2 v1 v2 d :
  k1 <> k2 ->
  dict_equiv (dict_set k1 v1 (dict_set k2 v2 d)) (dict_set k2 v2 (dict_set k1 v1 d)).
Proof.
  intros Hne. unfold dict_equiv. rewrite !dict_to_map_set.
  by apply insert_insert_ne.
Qed.

End Dict.

#[export] Hint Resolve dict_wf_nil dict_wf_set : py.
#[export] Hint Rewrite @dict_get_set_eq : py_rw.

(** [dict_get] through a value map: [{k: f(v) for k, v in d.items()}]. *)
Lemma dict_get_fmap {V W} (f : V -> W) (k : string) (d : dict V) :
  dict_get k (prod_map id f <$> d) = f <$> dict_get k d.
Proof.
  induction d as [|[k' v'] d IH]; simpl; [done|]. by case_decide.
Qed.

(** The association list implements the finite map and keeps the
    insertion order: through the abstraction [dict_to_map], the
    assignment [d[k] = v] is the insertion of the map and the
    subscription [d[k]] is its lookup; the assignment leaves the keys
    where they are and puts a new key last; the invariant "no key twice"
    is kept. *)
Lemma dict_refines_gmap {V} (k k' : string) (v : V) (d : dict V) :
  dict_to_map (dict_set k v d) = <[k:=v]> (dict_to_map d) /\
  dict_get k' d = dict_to_map d !! k' /\
  dict_keys (dict_set k v d)
  = (if decide (k ∈ dict_keys d) then dict_keys d else dict_keys d ++ [k]) /\
  (dict_wf d -> dict_wf (dict_set k v d)).
Proof.
  split_and!; [apply dict_to_map_set | by rewrite dict_to_map_get
              | apply dict_keys_set | apply dict_wf_set].
Qed.
