(* ===== verification/PyValue.v ===== *)
(** * JSON-shaped Python values

    [value] is the universe of the objects that the handlers put in the
    dictionaries they serialise, and that [_init_attributes] reads from a
    decoded JSON mapping: [None], booleans, integers, floats, strings,
    lists and dictionaries with string keys.

    - [truthy] on a [value] is Python's truth value testing.
    - [to_value] injects a typed attribute (an [option string], a list of
      strings, ...) into [value]; [None] becomes [VNone].  The class
      [TruthyValue] says that the typed test and the dynamic test agree.
    - [value_wf] is the invariant "no dictionary, at any depth, has a key
      twice"; it is what makes a [value] a JSON document. *)

From Stdlib Require Import ZArith String List SpecFloat.
From stdpp Require Import base tactics option list strings numbers.
From S2P Require Import Prelude PyDict.

Open Scope Z_scope.

#[local] Unset Elimination Schemes.

Inductive value : Type :=
| VNone
| VBool (b : bool)
| VInt (n : Z)
| VFloat (f : spec_float)
| VStr (s : string)
| VList (xs : list value)
| VDict (kvs : list (string * value)).

#[local] Set Elimination Schemes.

(** The induction principle with hypotheses for the elements of a list
    and the values of a dictionary. *)
Definition value_ind (P : value -> Prop)
    (HNone : P VNone) (HBool : forall b, P (VBool b))
    (HInt : forall n, P (VInt n)) (HFloat : forall f, P (VFloat f))
    (HStr : forall s, P (VStr s))
    (HList : forall xs, Forall P xs -> P (VList xs))
    (HDict : forall kvs, Forall (fun kv => P kv.2) kvs -> P (VDict kvs)) :
  forall v, P v :=
  fix go (v : value) : P v :=
    match v with
    | VNone => HNone
    | VBool b => HBool b
    | VInt n => HInt n
    | VFloat f => HFloat f
    | VStr s => HStr s
    | VList xs =>
        HList xs ((fix all (l : list value) : Forall P l :=
                     match l with
                     | [] => Forall_nil P
                     | x :: l' => Forall_cons P x l' (go x) (all l')
                     end) xs)
    | VDict kvs =>
        HDict kvs ((fix all (l : list (string * value)) :
                      Forall (fun kv => P kv.2) l :=
                      match l with
                      | [] => Forall_nil _
                      | kv :: l' => Forall_cons _ kv l' (go kv.2) (all l')
                      end) kvs)
    end.

#[export] Instance spec_float_eq_dec : EqDecision spec_float.
Proof. solve_decision. Defined.

#[export] Instance value_eq_dec : EqDecision value.
Proof.
  refine (fix go (x y : value) {struct x} : Decision (x = y) :=
    let _ : EqDecision value := go in
    match x, y with
    | VNone, VNone => left _
    | VBool a, VBool b => cast_if (decide (a = b))
    | VInt a, VInt b => cast_if (decide (a = b))
    | VFloat a, VFloat b => cast_if (decide (a = b))
    | VStr a, VStr b => cast_if (decide (a = b))
    | VList a, VList b => cast_if (decide (a = b))
    | VDict a, VDict b => cast_if (decide (a = b))
    | _, _ => right _
    end); abstract congruence.
Defined.

(** ** Truth value testing *)

Definition float_is_zero (f : spec_float) : bool :=
  match f with S754_zero _ => true | _ => false end.

#[export] Instance truthy_float : Truthy spec_float :=
  fun f => negb (float_is_zero f).

#[export] Instance truthy_value : Truthy value := fun v =>
  match v with
  | VNone => false
  | VBool b => truthy b
  | VInt n => truthy n
  | VFloat f => truthy f
  | VStr s => truthy s
  | VList xs => truthy xs
  | VDict kvs => truthy kvs
  end.

(** ** Typed attributes as values *)

Class ToValue (A : Type) := to_value : A -> value.
#[global] Hint Mode ToValue ! : typeclass_instances.

#[export] Instance to_value_value : ToValue value := fun v => v.
#[export] Instance to_value_bool : ToValue bool := VBool.
#[export] Instance to_value_Z : ToValue Z := VInt.
#[export] Instance to_value_float : ToValue spec_float := VFloat.
#[export] Instance to_value_string : ToValue string := VStr.
#[export] Instance to_value_option {A} `{ToValue A} : ToValue (option A) :=
  fun o => match o with Some a => to_value a | None => VNone end.
#[export] Instance to_value_list {A} `{ToValue A} : ToValue (list A) :=
  fun l => VList (to_value <$> l).
#[export] Instance to_value_dict {A} `{ToValue A} : ToValue (dict A) :=
  fun d => VDict (prod_map id to_value <$> d).

(** The typed test [if x:] agrees with the test on the value. *)
Class TruthyValue (A : Type) `{Truthy A, ToValue A} : Prop :=
  truthy_to_value : forall a : A, truthy (to_value a) = truthy a.

(** ** Membership and subscription on a value
    [key in data] and [data[key]] for a string [key], on whatever [data]
    is: a dictionary tests and reads its keys; a list tests its elements
    and cannot be subscripted by a string; a string tests for a substring
    and cannot be subscripted by a string either; anything else is not a
    container. *)

Definition py_contains (key : string) (data : value) : res exn bool :=
  match data with
  | VDict d => Ok (dict_in key d)
  | VList l => Ok (bool_decide (VStr key ∈ l))
  | VStr s => Ok (str_contains key s)
  | _ => Raise TypeError
  end.

Definition py_getitem (key : string) (data : value) : res exn value :=
  match data with
  | VDict d =>
      match dict_get key d with Some v => Ok v | None => Raise (KeyError key) end
  | _ => Raise TypeError
  end.

(** [if key in data: self.attr = data[key]], the statement that
    [_init_attributes] is made of, as a computation on the object. *)
Definition init_attr {T} (key : string) (data : value)
    (set : value -> T -> T) : M exn T unit :=
  b ← lift_res (py_contains key data);
  if b : bool then v ← lift_res (py_getitem key data); modify_st (set v)
  else mret tt.

(** ** Well-formed values *)

Fixpoint value_wf (v : value) : bool :=
  match v with
  | VList xs => forallb value_wf xs
  | VDict kvs =>
      bool_decide (NoDup kvs.*1) && forallb (fun kv => value_wf kv.2) kvs
  | _ => true
  end.

Fixpoint value_size (v : value) : nat :=
  match v with
  | VList xs => S (list_sum (value_size <$> xs))
  | VDict kvs => S (list_sum ((fun kv => value_size kv.2) <$> kvs))
  | _ => 1%nat
  end.

(** ** Lemmas *)

#[export] Instance truthy_value_value : TruthyValue value.
Proof. by intros v. Qed.
#[export] Instance truthy_value_bool : TruthyValue bool.
Proof. by intros b. Qed.
#[export] Instance truthy_value_Z : TruthyValue Z.
Proof. by intros n. Qed.
#[export] Instance truthy_value_float : TruthyValue spec_float.
Proof. by intros f. Qed.
#[export] Instance truthy_value_string : TruthyValue string.
Proof. by intros s. Qed.
#[export] Instance truthy_value_option {A} `{TruthyValue A} :
  TruthyValue (option A).
Proof. intros [a|]; [exact (truthy_to_value a) | done]. Qed.
#[export] Instance truthy_value_list {A} `{ToValue A} : TruthyValue (list A).
Proof. by intros [|a l]. Qed.
#[export] Instance truthy_value_dict {A} `{ToValue A} : TruthyValue (dict A).
Proof. by intros [|a l]. Qed.

Lemma value_wf_VList xs :
  value_wf (VList xs) = true <-> Forall (fun x => value_wf x = true) xs.
Proof. simpl. rewrite forallb_forall, Forall_forall. done. Qed.

Lemma value_wf_VDict kvs :
  value_wf (VDict kvs) = true <->
  dict_wf kvs /\ Forall (fun kv => value_wf kv.2 = true) kvs.
Proof.
  simpl. rewrite andb_true_iff, bool_decide_eq_true, forallb_forall,
    Forall_forall. done.
Qed.

Lemma value_wf_dict_get k v kvs :
  value_wf (VDict kvs) = true -> dict_get k kvs = Some v -> value_wf v = true.
Proof.
  rewrite value_wf_VDict, Forall_forall. intros [_ Hall] Hget.
  apply dict_get_Some_in, list_elem_of_In in Hget. exact (Hall _ Hget).
Qed.

Lemma value_wf_dict_set k v kvs :
  value_wf (VDict kvs) = true -> value_wf v = true ->
  value_wf (VDict (dict_set k v kvs)) = true.
Proof.
  rewrite !value_wf_VDict. intros [Hwf Hall] Hv. split; [by apply dict_wf_set|].
  clear Hwf. induction kvs as [|[k' v'] kvs IH]; simpl.
  - by repeat constructor.
  - inversion Hall; subst. case_decide; constructor; auto.
Qed.

Lemma value_wf_nil_dict : value_wf (VDict []) = true.
Proof. reflexivity. Qed.

Lemma value_wf_to_value_list_string (l : list string) :
  value_wf (to_value l) = true.
Proof. apply value_wf_VList, Forall_fmap, Forall_forall. done. Qed.

Lemma value_size_pos v : (0 < value_size v)%nat.
Proof. destruct v; simpl; lia. Qed.

#[export] Hint Resolve value_wf_dict_set value_wf_nil_dict : py.

(** ** Lemmas on membership and subscription *)

Lemma py_getitem_contains key d v :
  py_getitem key (VDict d) = Ok v -> py_contains key (VDict d) = Ok true.
Proof.
  simpl. destruct (dict_get key d) eqn:Hget; [|done]. intros _. f_equal.
  apply dict_in_spec. by rewrite Hget.
Qed.

Lemma run_init_attr_dict {T} key d (set : value -> T -> T) self :
  run (init_attr key (VDict d) set) self =
  (Ok tt, match dict_get key d with Some v => set v self | None => self end).
Proof.
  unfold init_attr. simpl. destruct (dict_in key d) eqn:Hin; simpl.
  - apply dict_in_spec in Hin as [v ->]. done.
  - apply dict_in_false in Hin as ->. done.
Qed.

Lemma run_init_attr_not_container {T} key data (set : value -> T -> T) self :
  py_contains key data = Raise TypeError ->
  run (init_attr key data set) self = (Raise TypeError, self).
Proof. unfold init_attr. simpl. by intros ->. Qed.

Lemma run_init_attr_absent {T} key data (set : value -> T -> T) self :
  py_contains key data = Ok false ->
  run (init_attr key data set) self = (Ok tt, self).
Proof. unfold init_attr. simpl. by intros ->. Qed.

Lemma run_init_attr_present_not_dict {T} key data (set : value -> T -> T) self :
  py_contains key data = Ok true -> (forall d, data <> VDict d) ->
  run (init_attr key data set) self = (Raise TypeError, self).
Proof.
  unfold init_attr. simpl. intros -> Hd. simpl.
  destruct data; try done. by destruct (Hd kvs).
Qed.

#[export] Hint Resolve run_init_attr_dict run_init_attr_not_container
  run_init_attr_absent : run.
