(* ===== verification/JsonText.v ===== *)
(** * JSON text: characters, string literals and numbers

    The lexical layer of [json.dumps] and [json.loads], the two library
    calls through which the handlers return their result and the tests
    read it back.

    - A text is a list of characters ([text]); [chars] and [str] convert
      from and to [string].
    - [py_encode_basestring_ascii] writes a string literal the way
      [json.dumps] does with [ensure_ascii] left at its default: the
      quote and the backslash are escaped, the five control characters
      that have a short escape use it, and every other character outside
      [' '..'~'] becomes a [\u00XX] escape.  [scanstring] reads a string
      literal back, in strict mode.
    - [int_repr] is [pretty] of stdpp; [lex_number] is the regular
      expression that [json.loads] matches a number with, as three
      groups: integer, fraction, exponent.
    - [FloatFormat] is what the development assumes of [float.__repr__]
      and [float(...)]: on the floats of its domain the printed text is a
      number with a fraction or an exponent, and it reads back as the
      same float.  [repr_table] is the instance given by a finite table
      of floats with their printed text. *)

From Stdlib Require Import ZArith NArith String Ascii List SpecFloat Lia.
From stdpp Require Import base tactics option list strings numbers pretty.
From S2P Require Import Prelude PyValue.

Open Scope Z_scope.
#[local] Open Scope char_scope.

(** ** Texts *)

Definition text : Type := list ascii.

Definition chars (s : string) : text := list_ascii_of_string s.
Definition str (l : text) : string := string_of_list_ascii l.

(** What a decoder can end with, besides a value: the input is not JSON
    ([JSONDecodeError]); the input has an escape for a code point that
    the strings of the model do not have ([Unrepresentable], a code point
    above 255); the decoder was given too little fuel. *)
Inductive jerr : Type :=
| JSONDecodeError
| Unrepresentable
| OutOfFuel.

#[export] Instance jerr_eq_dec : EqDecision jerr.
Proof. solve_decision. Defined.

(** ** Characters *)

Definition dquote : ascii := Eval cbv in ascii_of_nat 34.
Definition backslash : ascii := Eval cbv in ascii_of_nat 92.

Definition code (c : ascii) : N := N_of_ascii c.

(** [' \t\n\r'] *)
Definition is_ws (c : ascii) : bool :=
  match c with " " | "009" | "010" | "013" => true | _ => false end.

Definition is_digit (c : ascii) : bool :=
  (48 <=? code c)%N && (code c <=? 57)%N.

Definition digit_val (c : ascii) : N := (code c - 48)%N.

(** The characters [' '] to ['~'], which [json.dumps] copies. *)
Definition printable (c : ascii) : bool :=
  (32 <=? code c)%N && (code c <=? 126)%N.

Definition hex_digit (n : N) : ascii :=
  match n with
  | 0 => "0" | 1 => "1" | 2 => "2" | 3 => "3" | 4 => "4" | 5 => "5"
  | 6 => "6" | 7 => "7" | 8 => "8" | 9 => "9" | 10 => "a" | 11 => "b"
  | 12 => "c" | 13 => "d" | 14 => "e" | _ => "f"
  end%N.

Definition hex_val (c : ascii) : option N :=
  if is_digit c then Some (digit_val c)
  else if (97 <=? code c)%N && (code c <=? 102)%N then Some (code c - 87)%N
  else if (65 <=? code c)%N && (code c <=? 70)%N then Some (code c - 55)%N
  else None.

(** ** String literals *)

(** The replacement of one character: [ESCAPE_DCT], and the [\uXXXX] form
    for what is left outside [' '..'~']. *)
Definition escape_char (c : ascii) : text :=
  if decide (c = dquote) then [backslash; dquote]
  else if decide (c = backslash) then [backslash; backslash]
  else match c with
       | "008" => [backslash; "b"]
       | "012" => [backslash; "f"]
       | "010" => [backslash; "n"]
       | "013" => [backslash; "r"]
       | "009" => [backslash; "t"]
       | _ =>
           if printable c then [c]
           else [backslash; "u"; "0"; "0";
                 hex_digit (code c / 16); hex_digit (code c mod 16)]
       end.

Definition escape (s : string) : text := concat (escape_char <$> chars s).

Definition py_encode_basestring_ascii (s : string) : text :=
  dquote :: escape s ++ [dquote].

(** The table [BACKSLASH] of the decoder. *)
Definition unescape (c : ascii) : option ascii :=
  if decide (c = dquote) then Some dquote
  else if decide (c = backslash) then Some backslash
  else match c with
       | "/" => Some "/"
       | "b" => Some "008"
       | "f" => Some "012"
       | "n" => Some "010"
       | "r" => Some "013"
       | "t" => Some "009"
       | _ => None
       end.

(** The four hexadecimal digits of a [\u] escape. *)
Definition hex4 (h1 h2 h3 h4 : ascii) : option N :=
  a ← hex_val h1; b ← hex_val h2; c ← hex_val h3; d ← hex_val h4;
  Some (((a * 16 + b) * 16 + c) * 16 + d)%N.

Definition push (c : ascii) (p : string * text) : string * text :=
  (String c p.1, p.2).

(** [scanstring(s, end, strict=True)]: the text after the opening quote,
    up to the closing one; the string and the text that follows. *)
Fixpoint scanstring (l : text) : res jerr (string * text) :=
  match l with
  | [] => Raise JSONDecodeError
  | c :: l' =>
      if decide (c = dquote) then Ok (EmptyString, l')
      else if decide (c = backslash) then
        match l' with
        | [] => Raise JSONDecodeError
        | e :: l'' =>
            if decide (e = "u") then
              match l'' with
              | h1 :: h2 :: h3 :: h4 :: r =>
                  match hex4 h1 h2 h3 h4 with
                  | Some n =>
                      if (n <? 256)%N then push (ascii_of_N n) <$> scanstring r
                      else Raise Unrepresentable
                  | None => Raise JSONDecodeError
                  end
              | _ => Raise JSONDecodeError
              end
            else
              match unescape e with
              | Some c' => push c' <$> scanstring l''
              | None => Raise JSONDecodeError
              end
        end
      else if (code c <? 32)%N then Raise JSONDecodeError
      else push c <$> scanstring l'
  end.

(** ** Numbers *)

Definition int_repr (n : Z) : string := pretty n.

Fixpoint span_digits (l : text) : text * text :=
  match l with
  | c :: l' =>
      if is_digit c then (c :: (span_digits l').1, (span_digits l').2)
      else ([], l)
  | [] => ([], [])
  end.

Definition lex_sign (minus_only : bool) (l : text) : text * text :=
  match l with
  | c :: l' =>
      if decide (c = "-") then ([c], l')
      else if negb minus_only && bool_decide (c = "+") then ([c], l')
      else ([], l)
  | [] => ([], l)
  end.

(** The integer group: an optional minus sign, then either a single
    zero or a digit other than zero followed by digits. *)
Definition lex_integer (l : text) : option (text * text) :=
  let (sg, l1) := lex_sign true l in
  match l1 with
  | c :: l2 =>
      if decide (c = "0") then Some (sg ++ [c], l2)
      else if is_digit c then
        Some (sg ++ (span_digits l1).1, (span_digits l1).2)
      else None
  | [] => None
  end.

(** The fraction group, which may be absent: a dot and one digit or
    more. *)
Definition lex_frac (l : text) : text * text :=
  match l with
  | c :: l1 =>
      if decide (c = ".") then
        match span_digits l1 with
        | ([], _) => ([], l)
        | (ds, r) => (c :: ds, r)
        end
      else ([], l)
  | [] => ([], l)
  end.

(** The exponent group, which may be absent: [e] or [E], an optional
    sign, and one digit or more. *)
Definition lex_exp (l : text) : text * text :=
  match l with
  | c :: l1 =>
      if bool_decide (c = "e" \/ c = "E") then
        let (sg, l2) := lex_sign false l1 in
        match span_digits l2 with
        | ([], _) => ([], l)
        | (ds, r) => (c :: sg ++ ds, r)
        end
      else ([], l)
  | [] => ([], l)
  end.

(** [NUMBER_RE.match]: the integer group, the fraction and exponent
    groups together, and the text after the match. *)
Definition lex_number (l : text) : option (text * text * text) :=
  '(i, l1) ← lex_integer l;
  let (f, l2) := lex_frac l1 in
  let (e, l3) := lex_exp l2 in
  Some (i, f ++ e, l3).

Definition int_of_digits (ds : text) : N :=
  fold_left (fun a c => a * 10 + digit_val c)%N ds 0%N.

(** [int(integer)] on the integer group of a number. *)
Definition parse_int (t : text) : Z :=
  match t with
  | c :: ds =>
      if decide (c = "-") then - Z.of_N (int_of_digits ds)
      else Z.of_N (int_of_digits t)
  | [] => 0
  end.

(** A text that is a number with a fraction or an exponent, and nothing
    else. *)
Definition float_token (t : text) : bool :=
  match lex_number t with
  | Some (_, _ :: _, []) => true
  | _ => false
  end.

(** A text that cannot continue a number. *)
Definition number_char (c : ascii) : bool :=
  is_digit c ||
  match c with "." | "e" | "E" | "+" | "-" => true | _ => false end.

Definition delimited (k : text) : bool :=
  match k with
  | [] => true
  | c :: _ => negb (number_char c)
  end.

(** ** Floats
    [float_repr] is [float.__repr__] and [float_of_str] is [float(...)]
    on the text of a number; [float_dom] says on which finite floats the
    two are specified. *)
Class FloatFormat : Type := {
  float_repr : spec_float -> string;
  float_of_str : string -> spec_float;
  float_dom : spec_float -> bool;
  float_repr_token f :
    float_dom f = true -> float_token (chars (float_repr f)) = true;
  float_of_repr f :
    float_dom f = true -> float_of_str (float_repr f) = f
}.

(** The text of a float in a document: [floatstr] of the encoder. *)
Definition floatstr `{FloatFormat} (f : spec_float) : text :=
  match f with
  | S754_nan => chars "NaN"
  | S754_infinity false => chars "Infinity"
  | S754_infinity true => chars "-Infinity"
  | _ => chars (float_repr f)
  end.

(** The floats that a document can hold and give back. *)
Definition float_ok `{FloatFormat} (f : spec_float) : bool :=
  match f with
  | S754_nan | S754_infinity _ => true
  | _ => float_dom f
  end.

(** A format given by a table of finite floats with their text. *)
Section ReprTable.
Context (table : list (spec_float * string)).

Definition table_repr (f : spec_float) : string :=
  default EmptyString (snd <$> find (fun p => bool_decide (p.1 = f)) table).

Definition table_of_str (s : string) : spec_float :=
  default S754_nan (fst <$> find (fun p => bool_decide (p.2 = s)) table).

Definition table_dom (f : spec_float) : bool :=
  match f with
  | S754_nan | S754_infinity _ => false
  | _ =>
      float_token (chars (table_repr f)) &&
      bool_decide (table_of_str (table_repr f) = f)
  end.
End ReprTable.

Definition repr_table (table : list (spec_float * string)) : FloatFormat.
Proof.
  refine {| float_repr := table_repr table;
            float_of_str := table_of_str table;
            float_dom := table_dom table |};
    intros f; unfold table_dom; destruct f; try done;
    by intros [? ?%bool_decide_eq_true]%andb_true_iff.
Defined.

(** The floats of the test suite, the scores [0.95] and [0.5], with what
    [repr] prints for them. *)
Definition float_0_95 : spec_float := S754_finite false 8556839292003942 (-53).
Definition float_0_5 : spec_float := S754_finite false 4503599627370496 (-53).

Definition test_floats : list (spec_float * string) :=
  [(float_0_95, "0.95"%string); (float_0_5, "0.5"%string)].

Definition test_format : FloatFormat := repr_table test_floats.

(** ** Notions used in the statements *)

(** A result of a lexer, with [k] appended to the text it leaves. *)
Definition rest_app {A} (k : text) (p : A * text) : A * text := (p.1, p.2 ++ k).

Definition all_digits (ds : text) : Prop :=
  Forall (fun c => is_digit c = true) ds.

Definition sign_text (minus : bool) : text := if minus then ["-"] else [].

(** Texts made of the characters [' '] to ['~'] only. *)
Definition ascii_text (l : text) : Prop := Forall (fun c => printable c = true) l.

(** Texts made of characters that can occur in a number. *)
Definition number_text (l : text) : Prop :=
  Forall (fun c => number_char c = true) l.

(** ** Lemmas on texts and string literals *)

Lemma scanstring_escape_char c l :
  scanstring (escape_char c ++ l) = push c <$> scanstring l.
Proof. ascii_cases c; reflexivity. Qed.

Lemma scanstring_escape s k :
  scanstring (escape s ++ dquote :: k) = Ok (s, k).
Proof.
  unfold escape. induction s as [|c s IH]; [done|].
  cbn [chars list_ascii_of_string fmap list_fmap concat].
  rewrite <- app_assoc, scanstring_escape_char.
  unfold chars in IH. by rewrite IH.
Qed.

Lemma is_ws_not_number c : is_ws c = true -> number_char c = false.
Proof. ascii_cases c; done. Qed.

Lemma chars_app (s1 s2 : string) : chars (s1 ++ s2) = chars s1 ++ chars s2.
Proof. induction s1 as [|c s1 IH]; [done|]. rewrite str_app_cons. simpl. by rewrite IH. Qed.

Lemma str_chars (s : string) : str (chars s) = s.
Proof. apply string_of_list_ascii_of_string. Qed.

Lemma chars_str (l : text) : chars (str l) = l.
Proof. apply list_ascii_of_string_of_list_ascii. Qed.

Lemma delimited_not_digit c k : delimited (c :: k) = true -> is_digit c = false.
Proof. simpl. unfold number_char. by destruct (is_digit c). Qed.

Lemma delimited_not_sign b k : delimited k = true -> lex_sign b k = ([], k).
Proof. destruct k as [|c k]; [done|]. ascii_cases c; destruct b; done. Qed.

Lemma span_digits_app l k :
  delimited k = true ->
  span_digits (l ++ k) = ((span_digits l).1, (span_digits l).2 ++ k).
Proof.
  intros Hk. induction l as [|c l IH]; simpl.
  - destruct k as [|c k]; [done|]. simpl. by rewrite (delimited_not_digit c k).
  - destruct (is_digit c); [by rewrite IH|done].
Qed.

Lemma span_digits_whole l : (span_digits l).1 ++ (span_digits l).2 = l.
Proof. induction l as [|c l IH]; [done|]. simpl. destruct (is_digit c); simpl; [by rewrite IH|done]. Qed.

Lemma span_digits_all ds :
  Forall (fun c => is_digit c = true) ds -> span_digits ds = (ds, []).
Proof. induction 1 as [|c ds Hc _ IH]; [done|]. simpl. by rewrite Hc, IH. Qed.

Lemma lex_sign_app b l k :
  delimited k = true ->
  lex_sign b (l ++ k) = ((lex_sign b l).1, (lex_sign b l).2 ++ k).
Proof.
  intros Hk. destruct l as [|c l]; [by rewrite delimited_not_sign|].
  unfold lex_sign. simpl. repeat case_match; done.
Qed.

Lemma lex_sign_whole b l : (lex_sign b l).1 ++ (lex_sign b l).2 = l.
Proof. destruct l as [|c l]; [done|]. unfold lex_sign. repeat case_match; done. Qed.

Lemma lex_integer_app l k :
  delimited k = true -> lex_integer (l ++ k) = rest_app k <$> lex_integer l.
Proof.
  intros Hk. unfold lex_integer. rewrite lex_sign_app by done.
  destruct (lex_sign true l) as [sg [|c l2]]; simpl.
  - destruct k as [|c k]; [done|]. apply delimited_not_digit in Hk as Hd.
    rewrite Hd. case_decide; [by subst|done].
  - case_decide; [done|]. destruct (is_digit c) eqn:Hc; [|done]. simpl.
    by rewrite span_digits_app.
Qed.

Lemma lex_frac_app l k :
  delimited k = true -> lex_frac (l ++ k) = rest_app k (lex_frac l).
Proof.
  intros Hk. destruct l as [|c l]; simpl.
  - destruct k as [|c k]; [done|]. simpl. case_decide; [by subst|done].
  - case_decide; [|done]. rewrite span_digits_app by done.
    by destruct (span_digits l) as [[|d ds] r].
Qed.

Lemma lex_exp_app l k :
  delimited k = true -> lex_exp (l ++ k) = rest_app k (lex_exp l).
Proof.
  intros Hk. destruct l as [|c l]; simpl.
  - destruct k as [|c k]; [done|]. simpl. case_bool_decide as Hc; [|done].
    by destruct Hc; subst.
  - case_bool_decide; [|done]. rewrite lex_sign_app by done.
    destruct (lex_sign false l) as [sg l2]. simpl.
    rewrite span_digits_app by done.
    by destruct (span_digits l2) as [[|d ds] r].
Qed.

Lemma lex_number_app l k :
  delimited k = true -> lex_number (l ++ k) = rest_app k <$> lex_number l.
Proof.
  intros Hk. unfold lex_number. rewrite lex_integer_app by done.
  destruct (lex_integer l) as [[i l1]|]; [|done]. simpl.
  rewrite lex_frac_app by done. destruct (lex_frac l1) as [f l2]. simpl.
  rewrite lex_exp_app by done. by destruct (lex_exp l2) as [e l3].
Qed.

Lemma lex_integer_whole l i r : lex_integer l = Some (i, r) -> i ++ r = l.
Proof.
  unfold lex_integer. pose proof (lex_sign_whole true l) as Hs.
  destruct (lex_sign true l) as [sg [|c l2]]; [done|]. simpl in Hs.
  case_decide; [intros [= <- <-]; by rewrite <- app_assoc|].
  destruct (is_digit c) eqn:Hc; [|done]. intros [= <- <-].
  rewrite <- Hs, <- app_assoc. f_equal. exact (span_digits_whole (c :: l2)).
Qed.

Lemma lex_frac_whole l : (lex_frac l).1 ++ (lex_frac l).2 = l.
Proof.
  destruct l as [|c l]; [done|]. simpl. case_decide; [|done].
  pose proof (span_digits_whole l) as Hs.
  destruct (span_digits l) as [[|d ds] r]; [done|]. simpl in *. by rewrite Hs.
Qed.

Lemma lex_exp_whole l : (lex_exp l).1 ++ (lex_exp l).2 = l.
Proof.
  destruct l as [|c l]; [done|]. simpl. case_bool_decide; [|done].
  pose proof (lex_sign_whole false l) as Hs.
  destruct (lex_sign false l) as [sg l2]. simpl in Hs.
  pose proof (span_digits_whole l2) as Hd.
  destruct (span_digits l2) as [[|d ds] r]; [done|]. simpl in *.
  by rewrite <- Hs, <- Hd, <- app_assoc.
Qed.

Lemma lex_number_whole l i fe r :
  lex_number l = Some (i, fe, r) -> i ++ fe ++ r = l.
Proof.
  unfold lex_number. destruct (lex_integer l) as [[i' l1]|] eqn:Hi; [|done].
  simpl. pose proof (lex_frac_whole l1) as Hf. destruct (lex_frac l1) as [f l2].
  pose proof (lex_exp_whole l2) as He. destruct (lex_exp l2) as [e l3].
  intros [= <- <- <-]. apply lex_integer_whole in Hi. simpl in *.
  by rewrite <- app_assoc, He, Hf.
Qed.

(** A float token followed by a delimiter is read as that token. *)
Lemma lex_number_float_token t k :
  float_token t = true -> delimited k = true ->
  exists i fe, lex_number (t ++ k) = Some (i, fe, k) /\ fe <> [] /\ i ++ fe = t.
Proof.
  unfold float_token. intros Ht Hk. rewrite lex_number_app by done.
  destruct (lex_number t) as [[[i [|c fe]] [|? ?]]|] eqn:Hl; try done.
  exists i, (c :: fe). apply lex_number_whole in Hl.
  rewrite app_nil_r in Hl. done.
Qed.

Lemma pretty_N_char_digit d :
  (d < 10)%N ->
  is_digit (pretty_N_char d) = true /\ digit_val (pretty_N_char d) = d /\
  (pretty_N_char d = "0" -> d = 0%N).
Proof.
  intros Hd.
  assert (d = 0 \/ d = 1 \/ d = 2 \/ d = 3 \/ d = 4 \/ d = 5 \/ d = 6 \/
          d = 7 \/ d = 8 \/ d = 9)%N as Hc by lia.
  repeat destruct Hc as [->|Hc]; try subst d; done.
Qed.

Lemma int_of_digits_snoc ds c :
  int_of_digits (ds ++ [c]) = (int_of_digits ds * 10 + digit_val c)%N.
Proof. unfold int_of_digits. by rewrite fold_left_app. Qed.

(** The digits that [pretty_N_go] puts in front of its accumulator. *)
Lemma pretty_N_go_chars x s :
  exists ds, chars (pretty_N_go x s) = ds ++ chars s /\ all_digits ds /\
    int_of_digits ds = x /\ (x = 0%N -> ds = []) /\
    (0 < x -> exists d ds', ds = d :: ds' /\ d <> "0")%N.
Proof.
  revert s. induction (N.lt_wf_0 x) as [x _ IH]. intros s.
  destruct (decide (x = 0%N)) as [->|Hx].
  { exists []. rewrite pretty_N_go_0. repeat split; [constructor|lia]. }
  rewrite pretty_N_go_step by lia.
  destruct (IH (x `div` 10)%N) with (s := String (pretty_N_char (x `mod` 10)) s)
    as (ds & Hds & Hall & Hval & H0 & Hpos); [apply N.div_lt; lia|].
  destruct (pretty_N_char_digit (x `mod` 10)) as (Hd & Hv & Hz);
    [apply N.mod_lt; lia|].
  exists (ds ++ [pretty_N_char (x `mod` 10)]). split_and!.
  - by rewrite Hds, <- app_assoc.
  - apply Forall_app; split; [done|by constructor].
  - rewrite int_of_digits_snoc, Hval, Hv.
    pose proof (N.div_mod x 10). lia.
  - done.
  - intros _. destruct (decide (x `div` 10 = 0)%N) as [Hq|Hq].
    + rewrite (H0 Hq). eexists _, []. split; [done|]. intros Hc.
      apply Hz in Hc. pose proof (N.div_mod x 10). lia.
    + destruct Hpos as (d & ds' & -> & Hd0); [lia|]. by exists d, (ds' ++ [pretty_N_char (x `mod` 10)]).
Qed.

Lemma chars_pretty_pos (p : positive) :
  exists d ds, chars (pretty p) = d :: ds /\ all_digits (d :: ds) /\
    d <> "0" /\ int_of_digits (d :: ds) = Npos p.
Proof.
  change (pretty p) with (pretty (Npos p)). unfold pretty, pretty_N. rewrite decide_False by done.
  destruct (pretty_N_go_chars (Npos p) EmptyString)
    as (ds & Hds & Hall & Hval & _ & Hpos).
  destruct Hpos as (d & ds' & -> & Hd); [lia|]. exists d, ds'.
  simpl in Hds. by rewrite app_nil_r in Hds.
Qed.

Lemma is_digit_not_minus c : is_digit c = true -> c <> "-".
Proof. by intros Hc ->. Qed.

Lemma lex_integer_digits (minus : bool) d ds :
  all_digits (d :: ds) -> d <> "0" ->
  lex_integer (sign_text minus ++ d :: ds) = Some (sign_text minus ++ d :: ds, []).
Proof.
  intros Hall Hd. pose proof (Forall_inv Hall) as Hc.
  assert (lex_sign true (sign_text minus ++ d :: ds) = (sign_text minus, d :: ds))
    as Hs.
  { destruct minus; [done|]. unfold lex_sign. simpl.
    by rewrite decide_False by by apply is_digit_not_minus. }
  unfold lex_integer. rewrite Hs, decide_False, Hc by done.
  by rewrite (span_digits_all _ Hall).
Qed.

Lemma lex_number_digits (minus : bool) d ds :
  all_digits (d :: ds) -> d <> "0" ->
  lex_number (sign_text minus ++ d :: ds) = Some (sign_text minus ++ d :: ds, [], []).
Proof. intros. unfold lex_number. by rewrite lex_integer_digits. Qed.

Lemma lex_number_int_repr z :
  lex_number (chars (int_repr z)) = Some (chars (int_repr z), [], []).
Proof.
  destruct z as [|p|p]; [reflexivity|..]; unfold int_repr, pretty, pretty_Z;
    destruct (chars_pretty_pos p) as (d & ds & Hc & Hall & Hd & _).
  - rewrite Hc. by apply (lex_number_digits false).
  - rewrite chars_app, Hc. by apply (lex_number_digits true).
Qed.

Lemma parse_int_repr z : parse_int (chars (int_repr z)) = z.
Proof.
  destruct z as [|p|p]; [reflexivity|..]; unfold int_repr, pretty, pretty_Z;
    destruct (chars_pretty_pos p) as (d & ds & Hc & Hall & Hd & Hv).
  - rewrite Hc. unfold parse_int.
    rewrite decide_False by (apply is_digit_not_minus, (Forall_inv Hall)).
    by rewrite Hv.
  - rewrite chars_app, Hc. simpl. by rewrite Hv.
Qed.

Lemma lex_number_int_repr_app z k :
  delimited k = true ->
  lex_number (chars (int_repr z) ++ k) = Some (chars (int_repr z), [], k).
Proof. intros Hk. by rewrite lex_number_app, lex_number_int_repr. Qed.

(** ** Lemmas: the characters of the output *)

Lemma escape_char_printable c : ascii_text (escape_char c).
Proof. ascii_cases c; by repeat constructor. Qed.

Lemma escape_printable s : ascii_text (escape s).
Proof.
  unfold escape, ascii_text. apply Forall_concat, Forall_fmap, list.Forall_forall.
  intros c _. apply escape_char_printable.
Qed.

Lemma number_char_printable c : number_char c = true -> printable c = true.
Proof. ascii_cases c; done. Qed.

Lemma number_text_ascii l : number_text l -> ascii_text l.
Proof. intros Hl. eapply list.Forall_impl; [exact Hl|apply number_char_printable]. Qed.

Lemma is_digit_number_char c : is_digit c = true -> number_char c = true.
Proof. unfold number_char. by intros ->. Qed.

Lemma span_digits_number l : number_text (span_digits l).1.
Proof.
  induction l as [|c l IH]; simpl; [constructor|].
  destruct (is_digit c) eqn:Hc; simpl; [|constructor].
  constructor; [by apply is_digit_number_char|done].
Qed.

Lemma lex_sign_number b l : number_text (lex_sign b l).1.
Proof.
  destruct l as [|c l]; [constructor|]. unfold lex_sign.
  case_decide; [subst; by repeat constructor|].
  destruct (negb b && bool_decide (c = "+")) eqn:Hc; [|constructor].
  apply andb_true_iff in Hc as [_ ->%bool_decide_eq_true]. by repeat constructor.
Qed.

Lemma lex_integer_number l i r : lex_integer l = Some (i, r) -> number_text i.
Proof.
  unfold lex_integer. pose proof (lex_sign_number true l) as Hs.
  destruct (lex_sign true l) as [sg [|c l2]]; [done|].
  case_decide; [subst; intros [= <- _]; apply Forall_app; by repeat constructor|].
  destruct (is_digit c) eqn:Hc; [|done]. intros [= <- _].
  apply Forall_app. split; [done|exact (span_digits_number (c :: l2))].
Qed.

Lemma lex_frac_number l : number_text (lex_frac l).1.
Proof.
  destruct l as [|c l]; [constructor|]. simpl. case_decide; [|constructor].
  pose proof (span_digits_number l) as Hd.
  destruct (span_digits l) as [[|d ds] r]; [constructor|]. subst.
  by constructor.
Qed.

Lemma lex_exp_number l : number_text (lex_exp l).1.
Proof.
  destruct l as [|c l]; [constructor|]. simpl.
  case_bool_decide as Hc; [|constructor].
  pose proof (lex_sign_number false l) as Hs.
  destruct (lex_sign false l) as [sg l2].
  pose proof (span_digits_number l2) as Hd.
  destruct (span_digits l2) as [[|d ds] r]; [constructor|].
  constructor; [by destruct Hc; subst|]. by apply Forall_app.
Qed.

Lemma lex_number_text l i fe r :
  lex_number l = Some (i, fe, r) -> number_text (i ++ fe).
Proof.
  unfold lex_number. destruct (lex_integer l) as [[i' l1]|] eqn:Hi; [|done].
  simpl. pose proof (lex_frac_number l1) as Hf. destruct (lex_frac l1) as [f l2].
  pose proof (lex_exp_number l2) as He. destruct (lex_exp l2) as [e l3].
  intros [= <- <- <-]. apply lex_integer_number in Hi.
  by repeat (apply Forall_app; split).
Qed.

Lemma float_token_text t : float_token t = true -> number_text t.
Proof.
  unfold float_token.
  destruct (lex_number t) as [[[i [|c fe]] [|? ?]]|] eqn:Hl; try done.
  intros _. pose proof (lex_number_whole _ _ _ _ Hl) as Hw.
  rewrite app_nil_r in Hw. rewrite <- Hw. by eapply lex_number_text.
Qed.

Lemma int_repr_text z : number_text (chars (int_repr z)).
Proof.
  pose proof (lex_number_int_repr z) as Hl. apply lex_number_text in Hl.
  by rewrite app_nil_r in Hl.
Qed.

(** With [ensure_ascii] a string literal holds characters from [' '] to
    ['~'] only, whatever the string holds. *)
Lemma string_literal_printable s : ascii_text (py_encode_basestring_ascii s).
Proof.
  unfold py_encode_basestring_ascii. constructor; [done|].
  apply Forall_app. split; [apply escape_printable|by repeat constructor].
Qed.

(** ** The lexical round trips *)

(** A string literal written by [json.dumps] is read
    back by [scanstring] as the string it was written from, whatever the
    characters of the string and whatever follows the literal. *)
Theorem string_literal_roundtrip s k :
  py_encode_basestring_ascii s ++ k = dquote :: escape s ++ dquote :: k /\
  scanstring (escape s ++ dquote :: k) = Ok (s, k).
Proof.
  split; [|apply scanstring_escape].
  unfold py_encode_basestring_ascii. simpl. by rewrite <- app_assoc.
Qed.

(** The decimal text of an integer, followed by a text
    that cannot continue a number, matches the number pattern as an
    integer without fraction or exponent, and [int] of the match is the
    integer. *)
Theorem int_repr_roundtrip z k :
  delimited k = true ->
  lex_number (chars (int_repr z) ++ k) = Some (chars (int_repr z), [], k) /\
  parse_int (chars (int_repr z)) = z.
Proof. intros Hk. split; [by apply lex_number_int_repr_app|apply parse_int_repr]. Qed.

Lemma int_repr_roundtrip_witness :
  lex_number (chars (int_repr (-120)) ++ chars ", 7") =
    Some (chars (int_repr (-120)), [], chars ", 7") /\
  parse_int (chars (int_repr (-120))) = -120.
Proof. apply int_repr_roundtrip. reflexivity. Defined.
