(* ===== verification/Json.v ===== *)
(** * [json.dumps(obj, indent=2)] and [json.loads]

    Every handler ends with [json.dumps(..., indent=2)] and every test
    starts from [json.loads] of what the handler returned.

    - [encode] is the encoder with [indent=2] and every other option at
      its default: [null], [true], [false], integers in decimal, floats
      by [floatstr], strings by [py_encode_basestring_ascii]; an empty
      list or dictionary is written closed; otherwise each entry stands on
      a line of its own, two spaces deeper than its container, with [","]
      at the end of the line and [": "] after a key.  Keys are written in
      the order of the dictionary.  [dumps] is the result as a string.
    - [scan_once] is the decoder: after the first character it reads a
      string, an object ([JSONObject]), an array ([JSONArray]), one of the
      words [null], [true], [false], a number, or one of [NaN],
      [Infinity], [-Infinity].  An object becomes [dict(pairs)]: of two
      entries with the same key the first keeps its place and the second
      gives the value.  [loads] skips white space, reads one value and
      accepts nothing but white space after it.

    The decoder recurses on the nesting of the document and loops over
    the entries of a container; [scan_once] takes fuel that bounds both,
    and [loads] gives it the length of the text, which is enough
    ([scan_once_fuel]). *)

From Stdlib Require Import ZArith NArith String Ascii List SpecFloat Lia.
From stdpp Require Import base tactics option list strings numbers.
From S2P Require Import Prelude PyDict PyValue JsonText.

Open Scope Z_scope.
#[local] Open Scope char_scope.

(** ** The encoder *)

(** ['\n' + ' ' * (2 * level)] *)
Definition newline_indent (level : nat) : text :=
  "010" :: replicate (2 * level) " ".

(** The later entries of a container, each after its separator. *)
Definition later_chunks (level : nat) (chunks : list text) : text :=
  concat ((fun x => "," :: newline_indent (S level) ++ x) <$> chunks).

(** A container at nesting [level] whose entries are already written:
    closed at once when it has none; otherwise the first entry after a
    new line, each later one after [","] and a new line, and the closing
    bracket on a line of its own at the level of the container. *)
Definition block (opening closing : ascii) (level : nat) (chunks : list text) :
    text :=
  match chunks with
  | [] => [opening; closing]
  | c :: cs =>
      opening :: newline_indent (S level) ++ c ++ later_chunks level cs ++
      newline_indent level ++ [closing]
  end.

Section Json.
Context `{FloatFormat}.

Fixpoint encode (level : nat) (v : value) : text :=
  match v with
  | VNone => chars "null"
  | VBool true => chars "true"
  | VBool false => chars "false"
  | VInt n => chars (int_repr n)
  | VFloat f => floatstr f
  | VStr s => py_encode_basestring_ascii s
  | VList xs => block "[" "]" level (encode (S level) <$> xs)
  | VDict kvs =>
      block "{" "}" level
        ((fun kv => py_encode_basestring_ascii kv.1 ++
                    ":" :: " " :: encode (S level) kv.2) <$> kvs)
  end.

(** [json.dumps(obj, indent=2)] *)
Definition dumps (v : value) : string := str (encode 0 v).

(** ** The decoder *)

Fixpoint skip_ws (l : text) : text :=
  match l with
  | c :: l' => if is_ws c then skip_ws l' else l
  | [] => []
  end.

Fixpoint strip_prefix (p l : text) : option text :=
  match p, l with
  | [], _ => Some l
  | a :: p', b :: l' => if decide (a = b) then strip_prefix p' l' else None
  | _ :: _, [] => None
  end.

(** [string[idx:idx + len(word)] == word] *)
Definition scan_word (word : string) (v : value) (l : text) :
    option (value * text) :=
  (fun r => (v, r)) <$> strip_prefix (chars word) l.

(** A match of the number pattern: [int] of the integer group when the
    other groups are empty, [float] of the whole match otherwise. *)
Definition scan_number (l : text) : option (value * text) :=
  match lex_number l with
  | Some (i, [], r) => Some (VInt (parse_int i), r)
  | Some (i, fe, r) => Some (VFloat (float_of_str (str (i ++ fe))), r)
  | None => None
  end.

(** The first of the alternatives that matches. *)
Fixpoint first_match (alts : list (text -> option (value * text))) (l : text) :
    option (value * text) :=
  match alts with
  | [] => None
  | f :: alts' =>
      match f l with
      | Some p => Some p
      | None => first_match alts' l
      end
  end.

(** The branches of [scan_once] that read neither a string nor a
    container, in the order of the code. *)
Definition scan_atom (l : text) : res jerr (value * text) :=
  match
    first_match
      [scan_word "null" VNone; scan_word "true" (VBool true);
       scan_word "false" (VBool false); scan_number;
       scan_word "NaN" (VFloat S754_nan);
       scan_word "Infinity" (VFloat (S754_infinity false));
       scan_word "-Infinity" (VFloat (S754_infinity true))] l
  with
  | Some p => Ok p
  | None => Raise JSONDecodeError
  end.

(** [dict(pairs)] *)
Definition dict_of_pairs (pairs : list (string * value)) : dict value :=
  fold_left (fun d kv => dict_set kv.1 kv.2 d) pairs [].

Section Containers.
(** [scan] is [scan_once] one level deeper. *)
Context (scan : text -> res jerr (value * text)).

(** The loop of [JSONArray], from the first character of an entry; [n]
    bounds the number of entries. *)
Fixpoint array_items (n : nat) (l : text) : res jerr (list value * text) :=
  match n with
  | O => Raise OutOfFuel
  | S n =>
      '(v, r) ← scan l;
      match skip_ws r with
      | c :: r' =>
          if decide (c = "]") then Ok ([v], r')
          else if decide (c = ",") then
            '(vs, r'') ← array_items n (skip_ws r');
            Ok (v :: vs, r'')
          else Raise JSONDecodeError
      | [] => Raise JSONDecodeError
      end
  end.

(** [JSONArray], from the character after the opening bracket. *)
Definition JSONArray (n : nat) (l : text) : res jerr (list value * text) :=
  match skip_ws l with
  | c :: r => if decide (c = "]") then Ok ([], r) else array_items n (c :: r)
  | [] => Raise JSONDecodeError
  end.

(** The loop of [JSONObject], from the character after the opening quote
    of a key. *)
Fixpoint object_items (n : nat) (l : text) :
    res jerr (list (string * value) * text) :=
  match n with
  | O => Raise OutOfFuel
  | S n =>
      '(key, r) ← scanstring l;
      match skip_ws r with
      | c :: r1 =>
          if decide (c = ":") then
            '(v, r2) ← scan (skip_ws r1);
            match skip_ws r2 with
            | c' :: r3 =>
                if decide (c' = "}") then Ok ([(key, v)], r3)
                else if decide (c' = ",") then
                  match skip_ws r3 with
                  | q :: r4 =>
                      if decide (q = dquote) then
                        '(kvs, r5) ← object_items n r4;
                        Ok ((key, v) :: kvs, r5)
                      else Raise JSONDecodeError
                  | [] => Raise JSONDecodeError
                  end
                else Raise JSONDecodeError
            | [] => Raise JSONDecodeError
            end
          else Raise JSONDecodeError
      | [] => Raise JSONDecodeError
      end
  end.

(** [JSONObject], from the character after the opening brace. *)
Definition JSONObject (n : nat) (l : text) : res jerr (dict value * text) :=
  match skip_ws l with
  | c :: r =>
      if decide (c = "}") then Ok ([], r)
      else if decide (c = dquote) then
        '(pairs, r') ← object_items n r;
        Ok (dict_of_pairs pairs, r')
      else Raise JSONDecodeError
  | [] => Raise JSONDecodeError
  end.
End Containers.

Fixpoint scan_once (fuel : nat) (l : text) : res jerr (value * text) :=
  match fuel with
  | O => Raise OutOfFuel
  | S fuel =>
      match l with
      | [] => Raise JSONDecodeError
      | c :: l' =>
          if decide (c = dquote) then
            '(s, r) ← scanstring l'; Ok (VStr s, r)
          else if decide (c = "{") then
            '(d, r) ← JSONObject (scan_once fuel) fuel l'; Ok (VDict d, r)
          else if decide (c = "[") then
            '(xs, r) ← JSONArray (scan_once fuel) fuel l'; Ok (VList xs, r)
          else scan_atom l
      end
  end.

(** [JSONDecoder.decode]: white space, one value, white space, the end. *)
Definition decode (l : text) : res jerr value :=
  let l1 := skip_ws l in
  '(v, r) ← scan_once (S (length l1)) l1;
  match skip_ws r with
  | [] => Ok v
  | _ :: _ => Raise JSONDecodeError
  end.

(** [json.loads(s)] *)
Definition loads (s : string) : res jerr value := decode (chars s).

(** ** Documents
    The values a document can hold and give back: no dictionary has a
    key twice, and every float is one the format is specified on. *)
Fixpoint floats_ok (v : value) : bool :=
  match v with
  | VFloat f => float_ok f
  | VList xs => forallb floats_ok xs
  | VDict kvs => forallb (fun kv => floats_ok kv.2) kvs
  | _ => true
  end.

Definition json_ok (v : value) : bool := value_wf v && floats_ok v.

End Json.

(** The document of the witnesses: an answer with an empty list, a nested
    dictionary, a float and a string with a quote and a new line. *)
Definition example_doc : value :=
  VDict [("total"%string, VInt 1);
         ("empty"%string, VList []);
         ("results"%string,
          VList [VDict [("score"%string, VFloat float_0_95);
                        ("text"%string,
                         VStr (String dquote (String "010" (String "233" EmptyString))));
                        ("year"%string, VNone)]])].

(** A text with a key twice: [{"a": 1, "b": [], "a": 2}]. *)
Definition repeated_key_text : string :=
  str ("{"%char :: dquote :: "a"%char :: dquote :: chars ": 1, " ++
       dquote :: "b"%char :: dquote :: chars ": [], " ++
       dquote :: "a"%char :: dquote :: chars ": 2}").

(** ** Notions used in the statements *)

(** A text that starts with a character of a value: not white space and
    not a closing bracket. *)
Definition starts_value (l : text) : bool :=
  match l with
  | c :: _ => negb (is_ws c) && negb (bool_decide (c = "]"))
  | [] => false
  end.

(** An outcome that is not the lack of fuel. *)
Definition definite {A} (r : res jerr A) : Prop := r <> Raise OutOfFuel.

(** [scan'] agrees with [scan] wherever [scan] has a definite outcome. *)
Definition extends_scan {A} (scan scan' : text -> res jerr A) : Prop :=
  forall l, definite (scan l) -> scan' l = scan l.

(** What a scanner owes on a text [l]: a value with a strictly shorter
    rest, or an error that is not the lack of fuel. *)
Definition progress {A} (l : text) (r : res jerr (A * text)) : Prop :=
  match r with
  | Ok (_, l') => (length l' < length l)%nat
  | Raise e => e <> OutOfFuel
  end.

(** An alternative that leaves a strictly shorter text when it matches. *)
Definition shortens (f : text -> option (value * text)) : Prop :=
  forall l v r, f l = Some (v, r) -> (length r < length l)%nat.

(** The characters of a document: [' '] to ['~'], and the new line. *)
Definition doc_char (c : ascii) : bool := printable c || bool_decide (c = "010").

Definition doc_text (l : text) : Prop := Forall (fun c => doc_char c = true) l.

(** A scanner that returns well-formed values only. *)
Definition scans_wf {A} (wf : A -> Prop) (scan : text -> res jerr (A * text)) :
    Prop :=
  forall l a r, scan l = Ok (a, r) -> wf a.

Definition all_wf (xs : list value) : Prop :=
  Forall (fun x => value_wf x = true) xs.

Definition pairs_wf (kvs : list (string * value)) : Prop :=
  Forall (fun kv => value_wf kv.2 = true) kvs.

(** An alternative that returns well-formed values only. *)
Definition alt_wf (f : text -> option (value * text)) : Prop :=
  forall l v r, f l = Some (v, r) -> value_wf v = true.

Section Notions.
Context `{FloatFormat}.

(** An entry of a dictionary as [encode] writes it. *)
Definition entry (level : nat) (kv : string * value) : text :=
  py_encode_basestring_ascii kv.1 ++ ":" :: " " :: encode (S level) kv.2.

(** [scan_once fuel] reads [v] back, whatever the level it was written at
    and whatever delimited text follows. *)
Definition reads (fuel : nat) (v : value) : Prop :=
  forall level k, delimited k = true ->
    scan_once fuel (encode level v ++ k) = Ok (v, k).

End Notions.

(** ** Lemmas: white space and the first character of a value *)

Lemma skip_ws_newline_indent n l : skip_ws (newline_indent n ++ l) = skip_ws l.
Proof.
  unfold newline_indent. generalize (2 * n)%nat. intros m.
  change (skip_ws (replicate m " " ++ l) = skip_ws l). by induction m.
Qed.

Lemma skip_ws_starts_value l : starts_value l = true -> skip_ws l = l.
Proof. destruct l as [|c l]; [done|]. simpl. by destruct (is_ws c). Qed.

Lemma starts_value_app l k : starts_value l = true -> starts_value (l ++ k) = true.
Proof. by destruct l. Qed.

Lemma lex_integer_head l p :
  lex_integer l = Some p ->
  exists c l', l = c :: l' /\ (c = "-" \/ is_digit c = true).
Proof.
  destruct l as [|c l]; [done|]. intros Hl. exists c, l. split; [done|].
  revert Hl. unfold lex_integer, lex_sign. case_decide; [by left|].
  simpl. case_decide; [subst; by right|]. destruct (is_digit c); [by right|done].
Qed.

Lemma lex_number_head l p :
  lex_number l = Some p ->
  exists c l', l = c :: l' /\ (c = "-" \/ is_digit c = true).
Proof.
  unfold lex_number. destruct (lex_integer l) as [q|] eqn:Hi; [|done].
  intros _. by eapply lex_integer_head.
Qed.

Lemma number_head_starts_value c l :
  c = "-" \/ is_digit c = true -> starts_value (c :: l) = true.
Proof. intros [->|Hc]; [done|]. revert Hc. ascii_cases c; done. Qed.

Lemma scan_word_head_ne w v c l :
  head (chars w) <> Some c -> w <> EmptyString -> scan_word w v (c :: l) = None.
Proof.
  destruct w as [|a w]; [done|]. intros Hc _. unfold scan_word. simpl.
  rewrite decide_False; [done|]. intros ->. by apply Hc.
Qed.

Lemma number_head_not_word c :
  c = "-" \/ is_digit c = true ->
  c <> "n" /\ c <> "t" /\ c <> "f" /\ c <> "N" /\ c <> "I".
Proof. intros [->|Hc]; [done|]. split_and!; by intros ->. Qed.

Section AtomFacts.
Context `{FloatFormat}.

Lemma scan_atom_number c l :
  c = "-" \/ is_digit c = true ->
  scan_atom (c :: l) =
  match scan_number (c :: l) with
  | Some p => Ok p
  | None => match scan_word "-Infinity" (VFloat (S754_infinity true)) (c :: l) with
            | Some p => Ok p
            | None => Raise JSONDecodeError
            end
  end.
Proof.
  intros (?&?&?&?&?)%number_head_not_word. unfold scan_atom. cbn [first_match].
  rewrite (scan_word_head_ne "null"), (scan_word_head_ne "true"),
    (scan_word_head_ne "false"), (scan_word_head_ne "NaN"),
    (scan_word_head_ne "Infinity") by (done || (simpl; congruence)).
  destruct (scan_number (c :: l)); simpl; [done|]. by destruct (scan_word _ _ _).
Qed.

End AtomFacts.

(** ** Lemmas: scalars are read back *)

Lemma number_head_not_open c :
  c = "-" \/ is_digit c = true -> c <> dquote /\ c <> "{" /\ c <> "[".
Proof. intros [->|Hc]; [done|]. split_and!; by intros ->. Qed.

Section ScalarFacts.
Context `{FloatFormat}.

Lemma scan_once_number fuel c l :
  c = "-" \/ is_digit c = true ->
  scan_once (S fuel) (c :: l) = scan_atom (c :: l).
Proof.
  intros (?&?&?)%number_head_not_open. simpl. by rewrite !decide_False by done.
Qed.

Lemma scan_number_int n k :
  delimited k = true ->
  scan_number (chars (int_repr n) ++ k) = Some (VInt n, k).
Proof.
  intros Hk. unfold scan_number.
  by rewrite lex_number_int_repr_app, parse_int_repr.
Qed.

Lemma scan_number_float f k :
  float_token (chars (float_repr f)) = true -> delimited k = true ->
  scan_number (chars (float_repr f) ++ k) =
  Some (VFloat (float_of_str (float_repr f)), k).
Proof.
  intros Ht Hk. unfold scan_number.
  destruct (lex_number_float_token _ k Ht Hk) as (i & fe & -> & Hfe & Heq).
  destruct fe as [|c fe]; [done|]. by rewrite Heq, str_chars.
Qed.

(** A text on which the number pattern matches is read as that number. *)
Lemma scan_once_scan_number fuel l p :
  scan_number l = Some p -> scan_once (S fuel) l = Ok p.
Proof.
  intros Hp. assert (is_Some (lex_number l)) as [q Hq].
  { unfold scan_number in Hp. by destruct (lex_number l). }
  destruct (lex_number_head l q Hq) as (c & l' & -> & Hc).
  by rewrite scan_once_number, scan_atom_number, Hp.
Qed.

Lemma scan_once_float fuel f k :
  float_ok f = true -> delimited k = true ->
  scan_once (S fuel) (floatstr f ++ k) = Ok (VFloat f, k).
Proof.
  intros Hf Hk.
  destruct f as [s|[]| |s m e]; try reflexivity; simpl in Hf;
    apply scan_once_scan_number; unfold floatstr;
    by rewrite scan_number_float, float_of_repr by auto using float_repr_token.
Qed.

Lemma starts_value_number l p k :
  lex_number l = Some p -> starts_value (l ++ k) = true.
Proof.
  intros (c & l' & -> & Hc)%lex_number_head. by apply number_head_starts_value.
Qed.

Lemma starts_value_encode level v k :
  floats_ok v = true -> starts_value (encode level v ++ k) = true.
Proof.
  destruct v as [|[]|n|f|s|xs|kvs]; try done; simpl.
  - intros _. eapply starts_value_number, lex_number_int_repr.
  - intros Hf. destruct f as [s|[]| |s m e]; try done;
      pose proof (float_repr_token _ Hf) as Ht; unfold float_token in Ht;
      (destruct (lex_number _) eqn:Hl; [|done]);
      eapply starts_value_number, Hl.
  - by destruct xs.
  - by destruct kvs.
Qed.
End ScalarFacts.

(** ** Lemmas: the entries of a container are read back *)

Lemma block_cons o c level x xs r :
  block o c level (x :: xs) ++ r =
  o :: newline_indent (S level) ++ x ++ later_chunks level xs ++
  newline_indent level ++ c :: r.
Proof.
  unfold block. cbn [app]. f_equal. by rewrite <- !app_assoc.
Qed.

Lemma later_chunks_cons level x xs r :
  later_chunks level (x :: xs) ++ r =
  "," :: newline_indent (S level) ++ x ++ later_chunks level xs ++ r.
Proof. unfold later_chunks. simpl. by rewrite <- !app_assoc. Qed.

Lemma skip_ws_newline_indent_value n l :
  starts_value l = true -> skip_ws (newline_indent n ++ l) = l.
Proof. intros. by rewrite skip_ws_newline_indent, skip_ws_starts_value. Qed.

Section ArrayFacts.
Context `{FloatFormat}.

Lemma array_items_encode fuel level k xs : forall x n,
  Forall (fun x => floats_ok x = true /\ reads fuel x) (x :: xs) ->
  (length xs < n)%nat ->
  array_items (scan_once fuel) n
    (encode (S level) x ++ later_chunks level (encode (S level) <$> xs) ++
     newline_indent level ++ "]" :: k) = Ok (x :: xs, k).
Proof.
  induction xs as [|y ys IH]; intros x [|n] Hall Hn; simpl in Hn; try lia;
    apply list.Forall_cons in Hall as [[Hfx Hrx] Hall]; cbn [array_items].
  - rewrite Hrx by done. cbn [mbind res_bind later_chunks fmap list_fmap concat app].
    by rewrite skip_ws_newline_indent.
  - cbn [fmap list_fmap]. rewrite later_chunks_cons, Hrx by done.
    cbn [mbind res_bind skip_ws is_ws]. rewrite decide_False, decide_True by done.
    rewrite skip_ws_newline_indent_value.
    + change (list_fmap _ _ (encode (S level)) ys) with (encode (S level) <$> ys).
      rewrite IH; [done|done|lia].
    + apply starts_value_encode. by apply Forall_inv in Hall as [? _].
Qed.
End ArrayFacts.

Lemma dict_of_pairs_app (acc kvs : dict value) :
  dict_wf (acc ++ kvs) ->
  fold_left (fun d kv => dict_set kv.1 kv.2 d) kvs acc = acc ++ kvs.
Proof.
  revert acc. induction kvs as [|[k v] kvs IH]; intros acc Hwf; simpl.
  - by rewrite app_nil_r.
  - rewrite dict_set_fresh.
    + rewrite IH; rewrite <- app_assoc; done.
    + unfold dict_wf in Hwf. rewrite dict_keys_app in Hwf.
      apply list.NoDup_app in Hwf as (_ & Hd & _). intros Hk.
      apply (Hd k Hk). simpl. left.
Qed.

Lemma dict_of_pairs_wf kvs : dict_wf kvs -> dict_of_pairs kvs = kvs.
Proof. intros. by apply (dict_of_pairs_app []). Qed.

Lemma list_sum_elem (l : list nat) (x : nat) : x ∈ l -> (x <= list_sum l)%nat.
Proof. induction 1; simpl; lia. Qed.

Lemma list_sum_length (l : list nat) :
  Forall (fun x => 0 < x)%nat l -> (length l <= list_sum l)%nat.
Proof. induction 1; simpl; lia. Qed.

Section ObjectFacts.
Context `{FloatFormat}.

Lemma entry_app level kv r :
  entry level kv ++ r =
  dquote :: escape kv.1 ++ dquote :: ":" :: " " :: encode (S level) kv.2 ++ r.
Proof.
  unfold entry, py_encode_basestring_ascii. simpl. by rewrite <- !app_assoc.
Qed.

Lemma object_items_encode fuel level k kvs : forall kv n,
  Forall (fun kv => floats_ok kv.2 = true /\ reads fuel kv.2) (kv :: kvs) ->
  (length kvs < n)%nat ->
  object_items (scan_once fuel) n
    (escape kv.1 ++ dquote :: ":" :: " " :: encode (S level) kv.2 ++
     later_chunks level (entry level <$> kvs) ++
     newline_indent level ++ "}" :: k) = Ok (kv :: kvs, k).
Proof.
  induction kvs as [|kv' kvs IH]; intros kv [|n] Hall Hn; simpl in Hn; try lia;
    apply list.Forall_cons in Hall as [[Hfx Hrx] Hall]; cbn [object_items];
    rewrite scanstring_escape; cbn [mbind res_bind skip_ws is_ws];
    rewrite decide_True by done;
    (rewrite skip_ws_starts_value by by apply starts_value_encode).
  - rewrite Hrx by done. cbn [mbind res_bind later_chunks fmap list_fmap concat app].
    rewrite skip_ws_newline_indent. by destruct kv.
  - cbn [fmap list_fmap]. rewrite later_chunks_cons, entry_app, Hrx by done.
    cbn [mbind res_bind skip_ws is_ws]. rewrite decide_False, decide_True by done.
    rewrite skip_ws_newline_indent. cbn [skip_ws is_ws dquote].
    rewrite decide_True by done.
    change (list_fmap _ _ (entry level) kvs) with (entry level <$> kvs).
    rewrite IH; [by destruct kv|done|lia].
Qed.
End ObjectFacts.

(** ** Lemmas: every document is read back *)

Lemma value_sizes_length (xs : list value) :
  (length xs <= list_sum (value_size <$> xs))%nat.
Proof.
  rewrite <- (length_fmap value_size). apply list_sum_length, Forall_fmap.
  apply list.Forall_forall. intros x _. apply value_size_pos.
Qed.

Lemma value_size_VDict kvs :
  value_size (VDict kvs) = S (list_sum (value_size <$> kvs.*2)).
Proof. simpl. by rewrite <- list_fmap_compose. Qed.

Section DocumentFacts.
Context `{FloatFormat}.

Lemma floats_ok_VList xs :
  floats_ok (VList xs) = true <-> Forall (fun x => floats_ok x = true) xs.
Proof. simpl. by rewrite forallb_forall, Forall_forall. Qed.

Lemma floats_ok_VDict kvs :
  floats_ok (VDict kvs) = true <-> Forall (fun kv => floats_ok kv.2 = true) kvs.
Proof. simpl. by rewrite forallb_forall, Forall_forall. Qed.

Lemma json_ok_VList xs :
  json_ok (VList xs) = true <-> Forall (fun x => json_ok x = true) xs.
Proof.
  unfold json_ok. rewrite andb_true_iff, value_wf_VList, floats_ok_VList.
  rewrite <- list.Forall_and. by setoid_rewrite andb_true_iff.
Qed.

Lemma json_ok_VDict kvs :
  json_ok (VDict kvs) = true <->
  dict_wf kvs /\ Forall (fun kv => json_ok kv.2 = true) kvs.
Proof.
  unfold json_ok. rewrite andb_true_iff, value_wf_VDict, floats_ok_VDict.
  rewrite !Forall_forall. setoid_rewrite andb_true_iff. firstorder.
Qed.

Lemma json_ok_floats v : json_ok v = true -> floats_ok v = true.
Proof. by intros [_ ?]%andb_true_iff. Qed.

Lemma JSONArray_items scan n m l :
  starts_value l = true ->
  JSONArray scan n (newline_indent m ++ l) = array_items scan n l.
Proof.
  intros Hl. unfold JSONArray. rewrite skip_ws_newline_indent_value by done.
  destruct l as [|c l]; [done|]. rewrite decide_False; [done|].
  intros ->. done.
Qed.

Lemma JSONObject_items scan n m l :
  JSONObject scan n (newline_indent m ++ dquote :: l) =
  '(pairs, r) ← object_items scan n l; Ok (dict_of_pairs pairs, r).
Proof. unfold JSONObject. by rewrite skip_ws_newline_indent. Qed.

(** The entries of a container are read back when each of them is, with
    the fuel that the container leaves. *)
Lemma reads_all fuel (xs : list value) :
  Forall (fun v => json_ok v = true ->
                   forall fuel, (value_size v <= fuel)%nat -> reads fuel v) xs ->
  Forall (fun x => json_ok x = true) xs ->
  (list_sum (value_size <$> xs) <= fuel)%nat ->
  Forall (fun x => floats_ok x = true /\ reads fuel x) xs.
Proof.
  rewrite !list.Forall_forall. intros IH Hok Hsz x Hx.
  split; [by apply json_ok_floats, Hok|]. apply IH; [done|by apply Hok|].
  etrans; [|exact Hsz]. by apply list_sum_elem, list_elem_of_fmap_2.
Qed.

Lemma reads_VStr fuel s : reads (S fuel) (VStr s).
Proof.
  intros level k _. unfold encode, py_encode_basestring_ascii.
  cbn [scan_once app]. rewrite decide_True, <- app_assoc by done. cbn [app].
  by rewrite scanstring_escape.
Qed.

Lemma reads_VList fuel xs :
  Forall (fun x => floats_ok x = true /\ reads fuel x) xs ->
  (length xs <= fuel)%nat -> reads (S fuel) (VList xs).
Proof.
  intros Hall Hn level k Hk. destruct xs as [|x xs]; [done|].
  cbn [encode fmap list_fmap]. rewrite block_cons. cbn [scan_once].
  rewrite !decide_False, decide_True by done.
  rewrite JSONArray_items by by apply starts_value_encode, (Forall_inv Hall).
  change (list_fmap _ _ (encode (S level)) xs) with (encode (S level) <$> xs).
  by rewrite array_items_encode.
Qed.

Lemma reads_VDict fuel kvs :
  dict_wf kvs ->
  Forall (fun kv => floats_ok kv.2 = true /\ reads fuel kv.2) kvs ->
  (length kvs <= fuel)%nat -> reads (S fuel) (VDict kvs).
Proof.
  intros Hwf Hall Hn level k Hk. destruct kvs as [|kv kvs]; [done|].
  change (encode level (VDict (kv :: kvs)))
    with (block "{" "}" level (entry level kv :: (entry level <$> kvs))).
  rewrite block_cons, entry_app. cbn [scan_once].
  rewrite !decide_False, decide_True by done.
  rewrite JSONObject_items, object_items_encode by done.
  cbn [mbind res_bind]. by rewrite dict_of_pairs_wf.
Qed.

(** Fuel of the size of the value is enough to read it back. *)
Lemma scan_once_encode v :
  json_ok v = true -> forall fuel, (value_size v <= fuel)%nat -> reads fuel v.
Proof.
  induction v as [|b|n|f|s|xs IH|kvs IH] using value_ind;
    intros Hok [|fuel] Hsz; try (by simpl in Hsz; lia).
  - done.
  - by destruct b.
  - intros level k Hk. by apply scan_once_scan_number, scan_number_int.
  - intros level k Hk.
    by apply scan_once_float; [apply (json_ok_floats (VFloat f))|].
  - apply reads_VStr.
  - pose proof (value_sizes_length xs). cbn [value_size] in Hsz.
    apply reads_VList; [|lia]. apply reads_all; [done| |lia].
    by apply json_ok_VList.
  - apply json_ok_VDict in Hok as [Hwf Hok]. rewrite value_size_VDict in Hsz.
    pose proof (value_sizes_length kvs.*2) as Hl. rewrite length_fmap in Hl.
    apply reads_VDict; [done| |lia].
    apply (Forall_fmap snd (fun x => floats_ok x = true /\ reads fuel x)).
    apply reads_all; [by apply Forall_fmap..|lia].
Qed.

End DocumentFacts.

(** ** Lemmas: more fuel does not change a definite outcome *)

Lemma definite_bind {A B} (m : res jerr A) (f : A -> res jerr B) :
  definite (m ≫= f) -> definite m.
Proof. unfold definite. by destruct m as [a|[]]. Qed.

Lemma definite_bind_Ok {A B} (m : res jerr A) (f : A -> res jerr B) a :
  definite (m ≫= f) -> m = Ok a -> definite (f a).
Proof. by intros Hd ->. Qed.

Section Mono.
Context (scan scan' : text -> res jerr (value * text)).
Context (Hext : extends_scan scan scan').

Lemma array_items_mono n n' l :
  (n <= n')%nat -> definite (array_items scan n l) ->
  array_items scan' n' l = array_items scan n l.
Proof.
  revert n' l. induction n as [|n IH]; intros [|n'] l Hn Hd; try done; try lia.
  cbn [array_items] in *. rewrite (Hext l) by by eapply definite_bind.
  destruct (scan l) as [[v r]|e]; [|done]. cbn [mbind res_bind] in *.
  destruct (skip_ws r) as [|c r']; [done|]. repeat case_decide; try done.
  rewrite IH; [done|lia|by eapply definite_bind].
Qed.

Lemma object_items_mono n n' l :
  (n <= n')%nat -> definite (object_items scan n l) ->
  object_items scan' n' l = object_items scan n l.
Proof.
  revert n' l. induction n as [|n IH]; intros [|n'] l Hn Hd; try done; try lia.
  cbn [object_items] in *. destruct (scanstring l) as [[key r]|e]; [|done].
  cbn [mbind res_bind] in *. destruct (skip_ws r) as [|c r1]; [done|].
  case_decide; [|done]. rewrite (Hext _) by by eapply definite_bind.
  destruct (scan _) as [[v r2]|e]; [|done]. cbn [mbind res_bind] in *.
  destruct (skip_ws r2) as [|c' r3]; [done|]. repeat case_decide; try done.
  destruct (skip_ws r3) as [|q r4]; [done|]. case_decide; [|done].
  rewrite IH; [done|lia|by eapply definite_bind].
Qed.

Lemma JSONArray_mono n n' l :
  (n <= n')%nat -> definite (JSONArray scan n l) ->
  JSONArray scan' n' l = JSONArray scan n l.
Proof.
  unfold JSONArray. intros Hn Hd. destruct (skip_ws l) as [|c r]; [done|].
  case_decide; [done|]. by apply array_items_mono.
Qed.

Lemma JSONObject_mono n n' l :
  (n <= n')%nat -> definite (JSONObject scan n l) ->
  JSONObject scan' n' l = JSONObject scan n l.
Proof.
  unfold JSONObject. intros Hn Hd. destruct (skip_ws l) as [|c r]; [done|].
  repeat case_decide; try done.
  rewrite (object_items_mono n); [done|done|by eapply definite_bind].
Qed.
End Mono.

Section FuelFacts.
Context `{FloatFormat}.

(** More fuel does not change a definite outcome. *)
Lemma scan_once_mono fuel fuel' l :
  (fuel <= fuel')%nat -> definite (scan_once fuel l) ->
  scan_once fuel' l = scan_once fuel l.
Proof.
  revert fuel' l. induction fuel as [|fuel IH]; intros [|fuel'] l Hf Hd;
    try done; try lia.
  assert (extends_scan (scan_once fuel) (scan_once fuel')) as Hext.
  { intros l' Hl'. apply IH; [lia|done]. }
  cbn [scan_once] in *. destruct l as [|c l]; [done|].
  repeat case_decide; try done.
  - rewrite (JSONObject_mono _ _ Hext fuel); [done|lia|by eapply definite_bind].
  - rewrite (JSONArray_mono _ _ Hext fuel); [done|lia|by eapply definite_bind].
Qed.
End FuelFacts.

(** ** Lemmas: the decoder makes progress *)

Lemma progress_definite {A} l (r : res jerr (A * text)) :
  progress l r -> definite r.
Proof. unfold definite. destruct r as [[a l']|e]; simpl; congruence. Qed.

Lemma progress_weaken {A} l l' (r : res jerr (A * text)) :
  progress l r -> (length l <= length l')%nat -> progress l' r.
Proof. destruct r as [[a r]|e]; simpl; [lia|done]. Qed.

Lemma progress_fmap {A B} (f : A -> B) l (r : res jerr (A * text)) :
  progress l r -> progress l (prod_map f id <$> r).
Proof. by destruct r as [[a r]|e]. Qed.

Lemma skip_ws_length l : (length (skip_ws l) <= length l)%nat.
Proof. induction l as [|c l IH]; simpl; [lia|]. destruct (is_ws c); simpl; lia. Qed.

Lemma progress_push c l l' (r : res jerr (string * text)) :
  progress l r -> (length l <= length l')%nat -> progress l' (push c <$> r).
Proof. destruct r as [[a r]|e]; simpl; [lia|done]. Qed.

Lemma scanstring_progress l : progress l (scanstring l).
Proof.
  induction l as [l IH] using (induction_ltof1 _ (@length ascii)).
  unfold ltof in IH. destruct l as [|c l]; [done|]. cbn [scanstring].
  assert (forall l' c', (length l' <= length l)%nat ->
            progress (c :: l) (push c' <$> scanstring l')) as Hrec.
  { intros l' c' Hl'. eapply progress_push; [apply IH|]; simpl; lia. }
  case_decide; [simpl; lia|]. case_decide.
  - destruct l as [|e l]; [done|]. case_decide.
    + destruct l as [|h1 [|h2 [|h3 [|h4 r]]]]; try done.
      destruct (hex4 _ _ _ _); [|done]. case_match; [|done].
      apply Hrec; simpl; lia.
    + destruct (unescape e); [|done]. apply Hrec; simpl; lia.
  - case_match; [done|]. apply Hrec; simpl; lia.
Qed.

Lemma strip_prefix_length p l r :
  strip_prefix p l = Some r -> length l = (length p + length r)%nat.
Proof.
  revert l. induction p as [|a p IH]; intros [|b l] Hs; simpl in *;
    simplify_eq; try done.
  case_decide; [|done]. apply IH in Hs. lia.
Qed.

Lemma lex_integer_nonempty l i r : lex_integer l = Some (i, r) -> i <> [].
Proof.
  unfold lex_integer. destruct (lex_sign true l) as [sg [|c l2]]; [done|].
  case_decide; [intros [= <- _]; by destruct sg|].
  destruct (is_digit c) eqn:Hc; [|done]. intros [= <- _]. simpl. rewrite Hc.
  by destruct sg.
Qed.

Lemma lex_number_length l i fe r :
  lex_number l = Some (i, fe, r) -> (length r < length l)%nat.
Proof.
  intros Hl. assert (i <> []) as Hi.
  { unfold lex_number in Hl. destruct (lex_integer l) as [[i' l1]|] eqn:Hi;
      [|done]. simpl in Hl. destruct (lex_frac l1), (lex_exp _).
    simplify_eq. by eapply lex_integer_nonempty. }
  apply lex_number_whole in Hl as <-. destruct i; [done|].
  rewrite !length_app. simpl. lia.
Qed.

Lemma scan_word_shortens w v : w <> EmptyString -> shortens (scan_word w v).
Proof.
  intros Hw l v' r. unfold scan_word.
  destruct (strip_prefix (chars w) l) as [r'|] eqn:Hs; [|done].
  intros [= _ <-]. apply strip_prefix_length in Hs. destruct w; [done|].
  simpl in Hs. lia.
Qed.

Lemma first_match_shortens alts l v r :
  Forall shortens alts -> first_match alts l = Some (v, r) ->
  (length r < length l)%nat.
Proof.
  induction 1 as [|f alts Hf _ IH]; [done|]. simpl.
  destruct (f l) as [[v' r']|] eqn:Hfl; [|done]. intros [= -> ->]. by eapply Hf.
Qed.

Section ProgressFacts.
Context `{FloatFormat}.

Lemma scan_number_shortens : shortens scan_number.
Proof.
  intros l v r. unfold scan_number.
  destruct (lex_number l) as [[[i fe] r']|] eqn:Hl; [|done].
  apply lex_number_length in Hl. destruct fe; by intros [= _ <-].
Qed.

Lemma scan_atom_progress l : progress l (scan_atom l).
Proof.
  unfold scan_atom. destruct (first_match _ l) as [[v r]|] eqn:Hm; [|done].
  eapply first_match_shortens; [|exact Hm].
  repeat (apply List.Forall_cons; [first [by apply scan_word_shortens | apply scan_number_shortens]|]).
  constructor.
Qed.
End ProgressFacts.

Lemma progress_bind_Ok {A B} (g : A -> B) l l' (m : res jerr (A * text)) :
  progress l' m -> (length l' <= length l)%nat ->
  progress l (m ≫= fun '(a, r) => Ok (g a, r)).
Proof. destruct m as [[a r]|e]; simpl; [lia|done]. Qed.

Section Loops.
Context (scan : text -> res jerr (value * text)) (bound : nat).
Context (Hscan : forall l, (length l < bound)%nat -> progress l (scan l)).

Lemma array_items_progress n l :
  (length l < n)%nat -> (length l < bound)%nat ->
  progress l (array_items scan n l).
Proof.
  revert l. induction n as [|n IH]; intros l Hn Hb; [lia|]. cbn [array_items].
  pose proof (Hscan l Hb) as Hs. destruct (scan l) as [[v r]|e]; [|done].
  cbn [mbind res_bind]. pose proof (skip_ws_length r) as Hr. simpl in Hs.
  destruct (skip_ws r) as [|c r']; [done|]. simpl in Hr.
  repeat case_decide; try done; [simpl; lia|].
  pose proof (skip_ws_length r').
  eapply (progress_bind_Ok (cons v)); [apply IH|]; lia.
Qed.

Lemma JSONArray_progress n l :
  (length l < n)%nat -> (length l < bound)%nat ->
  progress (" " :: l) (JSONArray scan n l).
Proof.
  intros Hn Hb. unfold JSONArray. pose proof (skip_ws_length l) as Hl.
  destruct (skip_ws l) as [|c r]; [done|]. case_decide; [simpl in *; lia|].
  eapply progress_weaken; [apply array_items_progress|]; simpl in *; lia.
Qed.

Lemma object_items_progress n l :
  (length l < n)%nat -> (length l < bound)%nat ->
  progress l (object_items scan n l).
Proof.
  revert l. induction n as [|n IH]; intros l Hn Hb; [lia|]. cbn [object_items].
  pose proof (scanstring_progress l) as Hs.
  destruct (scanstring l) as [[key r]|e]; [|done]. cbn [mbind res_bind].
  pose proof (skip_ws_length r) as Hr. simpl in Hs.
  destruct (skip_ws r) as [|c r1]; [done|]. simpl in Hr. case_decide; [|done].
  pose proof (skip_ws_length r1) as Hr1.
  pose proof (Hscan (skip_ws r1) ltac:(lia)) as Hv.
  destruct (scan (skip_ws r1)) as [[v r2]|e]; [|done]. cbn [mbind res_bind].
  pose proof (skip_ws_length r2) as Hr2. simpl in Hv.
  destruct (skip_ws r2) as [|c' r3]; [done|]. simpl in Hr2.
  repeat case_decide; try done; [simpl; lia|].
  pose proof (skip_ws_length r3) as Hr3.
  destruct (skip_ws r3) as [|q r4]; [done|]. simpl in Hr3. case_decide; [|done].
  eapply (progress_bind_Ok (cons (key, v))); [apply IH|]; lia.
Qed.

Lemma JSONObject_progress n l :
  (length l < n)%nat -> (length l < bound)%nat ->
  progress (" " :: l) (JSONObject scan n l).
Proof.
  intros Hn Hb. unfold JSONObject. pose proof (skip_ws_length l) as Hl.
  destruct (skip_ws l) as [|c r]; [done|]. simpl in Hl.
  repeat case_decide; try done; [simpl; lia|].
  eapply (progress_bind_Ok dict_of_pairs); [apply object_items_progress|];
    simpl; lia.
Qed.
End Loops.

(** ** Lemmas: what the decoder returns is well formed *)

Lemma fold_dict_set_value_wf pairs (acc : dict value) :
  value_wf (VDict acc) = true -> pairs_wf pairs ->
  value_wf (VDict (fold_left (fun d kv => dict_set kv.1 kv.2 d) pairs acc)) = true.
Proof.
  revert acc. induction pairs as [|[k v] pairs IH]; intros acc Hacc Hall; [done|].
  apply list.Forall_cons in Hall as [Hv Hall]. simpl.
  apply IH; [|done]. by apply value_wf_dict_set.
Qed.

Lemma dict_of_pairs_value_wf pairs :
  pairs_wf pairs -> value_wf (VDict (dict_of_pairs pairs)) = true.
Proof. by apply fold_dict_set_value_wf. Qed.

Section WfLoops.
Context (scan : text -> res jerr (value * text)).
Context (Hscan : scans_wf (fun v => value_wf v = true) scan).

Lemma array_items_wf n : scans_wf all_wf (array_items scan n).
Proof.
  induction n as [|n IH]; intros l vs r; [done|]. cbn [array_items].
  destruct (scan l) as [[v r1]|e] eqn:Hv; [|done]. cbn [mbind res_bind].
  apply Hscan in Hv. destruct (skip_ws r1) as [|c r']; [done|].
  repeat case_decide; try done.
  - intros [= <- _]. by repeat constructor.
  - destruct (array_items scan n _) as [[vs' r'']|e] eqn:Hvs; [|done].
    apply IH in Hvs. intros [= <- _]. by constructor.
Qed.

Lemma object_items_wf n : scans_wf pairs_wf (object_items scan n).
Proof.
  induction n as [|n IH]; intros l kvs r; [done|]. cbn [object_items].
  destruct (scanstring l) as [[key r0]|e]; [|done]. cbn [mbind res_bind].
  destruct (skip_ws r0) as [|c r1]; [done|]. case_decide; [|done].
  destruct (scan _) as [[v r2]|e] eqn:Hv; [|done]. cbn [mbind res_bind].
  apply Hscan in Hv. destruct (skip_ws r2) as [|c' r3]; [done|].
  repeat case_decide; try done.
  - intros [= <- _]. by repeat constructor.
  - destruct (skip_ws r3) as [|q r4]; [done|]. case_decide; [|done].
    destruct (object_items scan n _) as [[kvs' r5]|e] eqn:Hkvs; [|done].
    apply IH in Hkvs. intros [= <- _]. by constructor.
Qed.

Lemma JSONArray_wf n : scans_wf all_wf (JSONArray scan n).
Proof.
  intros l vs r. unfold JSONArray. destruct (skip_ws l) as [|c r']; [done|].
  case_decide; [intros [= <- _]; constructor|apply array_items_wf].
Qed.

Lemma JSONObject_wf n :
  scans_wf (fun d => value_wf (VDict d) = true) (JSONObject scan n).
Proof.
  intros l d r. unfold JSONObject. destruct (skip_ws l) as [|c r']; [done|].
  repeat case_decide; try done; [by intros [= <- _]|].
  destruct (object_items scan n _) as [[kvs r'']|e] eqn:Hkvs; [|done].
  apply object_items_wf in Hkvs. intros [= <- _].
  by apply dict_of_pairs_value_wf.
Qed.
End WfLoops.

Lemma scan_word_wf w v : value_wf v = true -> alt_wf (scan_word w v).
Proof.
  intros Hv l v' r. unfold scan_word.
  destruct (strip_prefix _ _); by intros [= <- _].
Qed.

Lemma first_match_wf alts l v r :
  Forall alt_wf alts -> first_match alts l = Some (v, r) -> value_wf v = true.
Proof.
  induction 1 as [|f alts Hf _ IH]; [done|]. simpl.
  destruct (f l) as [[v' r']|] eqn:Hfl; [|done]. intros [= -> ->]. by eapply Hf.
Qed.

Section WfFacts.
Context `{FloatFormat}.

Lemma scan_number_wf : alt_wf scan_number.
Proof.
  intros l v r. unfold scan_number.
  destruct (lex_number l) as [[[i [|c fe]] r']|]; [..|done]; by intros [= <- _].
Qed.

Lemma scan_atom_wf : scans_wf (fun v => value_wf v = true) scan_atom.
Proof.
  intros l v r. unfold scan_atom.
  destruct (first_match _ l) as [[v' r']|] eqn:Hm; [|done]. intros [= <- _].
  eapply first_match_wf; [|exact Hm].
  repeat (apply List.Forall_cons;
          [first [by apply scan_word_wf | apply scan_number_wf]|]).
  constructor.
Qed.

(** Whatever the decoder returns is well formed: no dictionary, at any
    depth, has a key twice. *)
Lemma scan_once_wf fuel : scans_wf (fun v => value_wf v = true) (scan_once fuel).
Proof.
  induction fuel as [|fuel IH]; intros l v r; [done|]. cbn [scan_once].
  destruct l as [|c l]; [done|]. repeat case_decide.
  - destruct (scanstring l) as [[s r']|e]; [|done]. by intros [= <- _].
  - destruct (JSONObject _ _ _) as [[d r']|e] eqn:Hd; [|done].
    apply JSONObject_wf in Hd; [|done]. by intros [= <- _].
  - destruct (JSONArray _ _ _) as [[xs r']|e] eqn:Hxs; [|done].
    apply JSONArray_wf in Hxs; [|done]. intros [= <- _].
    by apply value_wf_VList.
  - apply scan_atom_wf.
Qed.

Lemma decode_wf l v : decode l = Ok v -> value_wf v = true.
Proof.
  unfold decode. destruct (scan_once _ _) as [[v' r]|e] eqn:Hv; [|done].
  apply scan_once_wf in Hv. simpl. destruct (skip_ws r); [|done].
  by intros [= <-].
Qed.
End WfFacts.

(** ** Lemmas: the characters of a document *)

Lemma ascii_text_doc l : ascii_text l -> doc_text l.
Proof.
  intros Hl. eapply list.Forall_impl; [exact Hl|]. intros c Hc.
  unfold doc_char. by rewrite Hc.
Qed.

Lemma newline_indent_doc n : doc_text (newline_indent n).
Proof. constructor; [done|]. by apply Forall_replicate. Qed.

Lemma later_chunks_doc level chunks :
  Forall doc_text chunks -> doc_text (later_chunks level chunks).
Proof.
  intros Hall. apply Forall_concat, Forall_fmap.
  eapply list.Forall_impl; [exact Hall|]. intros x Hx. unfold compose.
  constructor; [done|]. apply Forall_app. split; [apply newline_indent_doc|done].
Qed.

Lemma block_doc o c level chunks :
  doc_char o = true -> doc_char c = true -> Forall doc_text chunks ->
  doc_text (block o c level chunks).
Proof.
  intros Ho Hc Hall. destruct chunks as [|x xs]; [by repeat constructor|].
  apply list.Forall_cons in Hall as [Hx Hxs]. unfold block. constructor; [done|].
  apply Forall_app; split; [apply newline_indent_doc|].
  apply Forall_app; split; [done|].
  apply Forall_app; split; [by apply later_chunks_doc|].
  apply Forall_app; split; [apply newline_indent_doc|by repeat constructor].
Qed.

Section CharFacts.
Context `{FloatFormat}.

Lemma floatstr_doc f : float_ok f = true -> doc_text (floatstr f).
Proof.
  intros Hf. apply ascii_text_doc.
  destruct f as [s|[]| |s m e]; try by repeat constructor.
  all: by apply number_text_ascii, float_token_text, float_repr_token.
Qed.

Lemma encode_doc level v : floats_ok v = true -> doc_text (encode level v).
Proof.
  revert level. induction v as [|b|n|f|s|xs IH|kvs IH] using value_ind;
    intros level Hv.
  - by repeat constructor.
  - destruct b; by repeat constructor.
  - apply ascii_text_doc, number_text_ascii, int_repr_text.
  - by apply floatstr_doc.
  - apply ascii_text_doc, string_literal_printable.
  - apply block_doc; [done..|]. apply Forall_fmap.
    apply floats_ok_VList in Hv. rewrite list.Forall_forall in *. naive_solver.
  - apply block_doc; [done..|]. apply Forall_fmap.
    apply floats_ok_VDict in Hv. rewrite list.Forall_forall in *.
    intros kv Hkv. unfold compose. apply Forall_app. split.
    + apply ascii_text_doc, string_literal_printable.
    + repeat (constructor; [done|]). naive_solver.
Qed.
End CharFacts.

Section DecodeFacts.
Context `{FloatFormat}.

(** Fuel above the length of the text is enough: the decoder reads a
    value and leaves a shorter text, or rejects the text. *)
Lemma scan_once_progress fuel l :
  (length l < fuel)%nat -> progress l (scan_once fuel l).
Proof.
  revert l. induction fuel as [|fuel IH]; intros l Hf; [lia|].
  cbn [scan_once]. destruct l as [|c l]; [done|]. simpl in Hf.
  repeat case_decide.
  - eapply (progress_bind_Ok VStr); [apply scanstring_progress|simpl; lia].
  - eapply (progress_bind_Ok VDict); [|done].
    eapply JSONObject_progress; [apply IH|lia..].
  - eapply (progress_bind_Ok VList); [|done].
    eapply JSONArray_progress; [apply IH|lia..].
  - apply scan_atom_progress.
Qed.

Lemma scan_once_enough fuel fuel' l r :
  scan_once fuel l = r -> definite r -> (length l < fuel')%nat ->
  scan_once fuel' l = r.
Proof.
  intros <- Hd Hf. destruct (decide (fuel <= fuel')%nat).
  - by apply scan_once_mono.
  - symmetry. apply scan_once_mono; [lia|].
    by eapply progress_definite, scan_once_progress.
Qed.

Lemma decode_definite l : definite (decode l).
Proof.
  unfold decode. pose proof (scan_once_progress (S (length (skip_ws l))) (skip_ws l)
    ltac:(lia)) as Hp.
  destruct (scan_once _ _) as [[v r]|e]; [|by intros [= ->]].
  simpl. by destruct (skip_ws r).
Qed.

Lemma decode_encode level v :
  json_ok v = true -> decode (encode level v) = Ok v.
Proof.
  intros Hok. unfold decode.
  pose proof (starts_value_encode level v [] (json_ok_floats v Hok)) as Hs.
  rewrite app_nil_r in Hs. rewrite skip_ws_starts_value by done.
  rewrite (scan_once_enough (value_size v) _ _ (Ok (v, []))); [done| |done|lia].
  rewrite <- (app_nil_r (encode level v)) at 1. by apply scan_once_encode.
Qed.

Lemma loads_dumps_ok v : json_ok v = true -> loads (dumps v) = Ok v.
Proof. intros. unfold loads, dumps. rewrite chars_str. by apply decode_encode. Qed.

Lemma dumps_inj v1 v2 :
  json_ok v1 = true -> json_ok v2 = true -> dumps v1 = dumps v2 -> v1 = v2.
Proof.
  intros H1 H2 Heq. apply loads_dumps_ok in H1, H2. rewrite Heq in H1.
  congruence.
Qed.

(** ** The round trip, termination and fuel *)

(** C12 (roundtrip): [json.loads(json.dumps(v, indent=2))] is [v], for
    every value without a repeated key whose floats are in the domain of
    the float format: what a test reads is what the handler built. *)
Theorem loads_dumps v : json_ok v = true -> loads (dumps v) = Ok v.
Proof. apply loads_dumps_ok. Qed.

(** C25 (termination): [json.loads] returns on every text: the fuel that
    [decode] gives the scanner, the length of the text, is never used up,
    and the scanner either reads a value and leaves a shorter text or
    rejects the text. *)
Theorem loads_terminates s :
  loads s <> Raise OutOfFuel /\
  progress (skip_ws (chars s))
    (scan_once (S (length (skip_ws (chars s)))) (skip_ws (chars s))).
Proof. split; [apply decode_definite|apply scan_once_progress; lia]. Qed.

(** The fuel does not matter: two runs of the scanner
    on the same text that both end otherwise than by lack of fuel end the
    same way. *)
Theorem scan_once_fuel_independent fuel fuel' l :
  definite (scan_once fuel l) -> definite (scan_once fuel' l) ->
  scan_once fuel l = scan_once fuel' l.
Proof.
  intros Hd Hd'. destruct (decide (fuel <= fuel')%nat).
  - symmetry. by apply scan_once_mono.
  - apply scan_once_mono; [lia|done].
Qed.

(** C26 (type): [json.loads] returns well-formed values only: no
    dictionary of the result, at any depth, has a key twice, whatever the
    text repeats; and a result whose floats are in the domain of the
    format is a fixed point: written and read again, it is itself. *)
Theorem loads_value_wf s v :
  loads s = Ok v ->
  value_wf v = true /\ (floats_ok v = true -> loads (dumps v) = Ok v).
Proof.
  intros Hv%decode_wf. split; [done|]. intros Hf. apply loads_dumps_ok.
  unfold json_ok. by rewrite Hv, Hf.
Qed.

(** C29 (bounds): the text of a document holds characters from [' '] to
    ['~'] and new lines only, whatever its strings hold: the output of a
    handler is plain ASCII. *)
Theorem dumps_ascii v : floats_ok v = true -> doc_text (chars (dumps v)).
Proof. intros Hv. unfold dumps. rewrite chars_str. by apply encode_doc. Qed.

End DecodeFacts.

Lemma loads_dumps_witness :
  loads (H:=test_format) (dumps (H:=test_format) example_doc) = Ok example_doc.
Proof. apply loads_dumps. by vm_compute. Defined.

Lemma scan_once_fuel_independent_witness :
  scan_once (H:=test_format) 3 (chars "[1, [2]]") =
  scan_once (H:=test_format) 40 (chars "[1, [2]]").
Proof. apply scan_once_fuel_independent; by vm_compute. Defined.

Lemma dumps_ascii_witness :
  doc_text (chars (dumps (H:=test_format) example_doc)).
Proof. apply dumps_ascii. by vm_compute. Defined.

Lemma loads_value_wf_witness :
  value_wf (VDict [("a"%string, VInt 2); ("b"%string, VList [])]) = true /\
  (floats_ok (H:=test_format) (VDict [("a"%string, VInt 2); ("b"%string, VList [])])
     = true ->
   loads (H:=test_format)
     (dumps (H:=test_format) (VDict [("a"%string, VInt 2); ("b"%string, VList [])]))
   = Ok (VDict [("a"%string, VInt 2); ("b"%string, VList [])])).
Proof. apply (loads_value_wf (H:=test_format) repeated_key_text). by vm_compute. Defined.
