(* ===== verification/Helpers.v ===== *)
(** * The helpers of [mcp_server.py]

    - [Author.t], [Tldr.t], [datetime] and [Paper.t] are the attribute
      interface that [_paper_to_dict] and [_author_to_dict] read from the
      objects of the client library (the test suite builds them with
      [_make_paper] and [_make_author]).  Every attribute may be [None].
      [Citation.t] and [Reference.t] are the items of the two listings.
    - [_truncate], [_paper_to_dict] and [_author_to_dict] follow the
      source line by line: a dictionary starts empty and each guarded
      assignment is a [when_truthy] or a [when_not_none].
    - The declarative reading of the two builders is a table of keys with
      optional values ([paper_fields], [author_fields]); the equivalence
      theorems say that the imperative builders compute the table with
      its absent rows removed, in the order of the table.

    [str(date)] is [date_str]: ISO format, each field zero-padded to its
    width ([fmt_0d]); the decimal digits are stdpp's [pretty]. *)

From Stdlib Require Import ZArith String List.
From stdpp Require Import base tactics option list strings numbers pretty.
From S2P Require Import Prelude PyDict PyValue.

Open Scope Z_scope.

(** ** Attribute records *)

Module Author.
Record t : Type := mk {
  authorId : option string;
  name : option string;
  url : option string;
  paperCount : option Z;
  citationCount : option Z;
  hIndex : option Z;
  affiliations : option (list string);
}.
End Author.

Module Tldr.
Record t : Type := mk { text : option string }.
End Tldr.

Record date : Type := mk_date { d_year : N; d_month : N; d_day : N }.

Record datetime : Type := mk_datetime {
  dt_year : N; dt_month : N; dt_day : N;
  dt_hour : N; dt_minute : N; dt_second : N; dt_microsecond : N;
}.

Module Paper.
Record t : Type := mk {
  paperId : option string;
  title : option string;
  abstract : option string;
  year : option Z;
  citationCount : option Z;
  url : option string;
  authors : option (list Author.t);
  externalIds : option (dict value);
  venue : option string;
  publicationDate : option datetime;
  openAccessPdf : option (dict value);
  tldr : option Tldr.t;
}.
End Paper.

(** The items of the citation and reference listings; the handlers read
    their attribute [paper] only. *)
Module Citation.
Record t : Type := mk { paper : option Paper.t }.
End Citation.

Module Reference.
Record t : Type := mk { paper : option Paper.t }.
End Reference.

(** An instance of a class that defines neither [__bool__] nor [__len__]
    is true.  The fixtures of the tests are such objects
    ([SimpleNamespace], [datetime]); that the classes of the client
    library, which are not under [src/], are such classes is assumed. *)
#[export] Instance truthy_author : Truthy Author.t := fun _ => true.
#[export] Instance truthy_tldr : Truthy Tldr.t := fun _ => true.
#[export] Instance truthy_datetime : Truthy datetime := fun _ => true.
#[export] Instance truthy_paper : Truthy Paper.t := fun _ => true.

(** ** Dates *)

Definition datetime_date (dt : datetime) : date :=
  mk_date (dt_year dt) (dt_month dt) (dt_day dt).

Definition zfill (w : nat) (s : string) : string :=
  (String.concat "" (replicate (w - String.length s) "0") ++ s)%string.

Definition fmt_0d (w : nat) (n : N) : string := zfill w (pretty n).

Definition date_str (d : date) : string :=
  (fmt_0d 4 (d_year d) ++ "-" ++ fmt_0d 2 (d_month d) ++ "-"
     ++ fmt_0d 2 (d_day d))%string.

Definition date_valid (d : date) : Prop :=
  (1 <= d_year d <= 9999 /\ 1 <= d_month d <= 12 /\ 1 <= d_day d <= 31)%N.

(** ** [_truncate] *)

Definition ABSTRACT_MAX : Z := 300.

Definition _truncate (text : option string) (max_len : Z) : option string :=
  match text with
  | Some s =>
      if truthy s && (max_len <? py_len s)
      then Some (str_slice_to max_len s ++ "...")%string
      else text
  | None => text
  end.
#[global] Arguments _truncate : simpl never.
#[global] Arguments date_str : simpl never.

(** ** [_paper_to_dict] *)

Definition author_brief (a : Author.t) : value :=
  VDict [("authorId", to_value (Author.authorId a));
         ("name", to_value (Author.name a))].

Definition _paper_to_dict (paper : Paper.t) : dict value :=
  let d := [] in
  let d := when_truthy (Paper.paperId paper)
             (fun x => dict_set "paperId" (VStr x)) d in
  let d := when_truthy (Paper.title paper)
             (fun x => dict_set "title" (VStr x)) d in
  let d := when_truthy (Paper.abstract paper)
             (fun _ => dict_set "abstract"
                         (to_value (_truncate (Paper.abstract paper)
                                      ABSTRACT_MAX))) d in
  let d := when_truthy (Paper.year paper)
             (fun x => dict_set "year" (VInt x)) d in
  let d := when_not_none (Paper.citationCount paper)
             (fun x => dict_set "citationCount" (VInt x)) d in
  let d := when_truthy (Paper.url paper)
             (fun x => dict_set "url" (VStr x)) d in
  let d := when_truthy (Paper.authors paper)
             (fun x => dict_set "authors" (VList (author_brief <$> x))) d in
  let d := when_truthy (Paper.externalIds paper)
             (fun x => dict_set "externalIds" (VDict x)) d in
  let d := when_truthy (Paper.venue paper)
             (fun x => dict_set "venue" (VStr x)) d in
  let d := when_truthy (Paper.publicationDate paper)
             (fun x => dict_set "publicationDate"
                         (VStr (date_str (datetime_date x)))) d in
  let d := when_truthy (Paper.openAccessPdf paper)
             (fun x => dict_set "openAccessPdf" (VDict x)) d in
  let d := when_truthy (Paper.tldr paper)
             (fun x => dict_set "tldr" (to_value (Tldr.text x))) d in
  d.

(** ** [_author_to_dict] *)

Definition _author_to_dict (author : Author.t) : dict value :=
  let d := [] in
  let d := when_truthy (Author.authorId author)
             (fun x => dict_set "authorId" (VStr x)) d in
  let d := when_truthy (Author.name author)
             (fun x => dict_set "name" (VStr x)) d in
  let d := when_truthy (Author.url author)
             (fun x => dict_set "url" (VStr x)) d in
  let d := when_not_none (Author.paperCount author)
             (fun x => dict_set "paperCount" (VInt x)) d in
  let d := when_not_none (Author.citationCount author)
             (fun x => dict_set "citationCount" (VInt x)) d in
  let d := when_not_none (Author.hIndex author)
             (fun x => dict_set "hIndex" (VInt x)) d in
  let d := when_truthy (Author.affiliations author)
             (fun x => dict_set "affiliations" (to_value x)) d in
  d.

(** ** The declarative reading: a table of optional rows *)

Definition if_truthy {A} `{Truthy A} (x : option A) (f : A -> value) :
    option value :=
  match x with
  | Some a => if truthy a then Some (f a) else None
  | None => None
  end.

Definition set_opt (k : string) (o : option value) (d : dict value) :
    dict value :=
  match o with Some v => dict_set k v d | None => d end.

Definition dict_of_fields (fields : list (string * option value)) : dict value :=
  omap (fun kv => (kv.1,.) <$> kv.2) fields.

Definition paper_keys : list string :=
  ["paperId"; "title"; "abstract"; "year"; "citationCount"; "url"; "authors";
   "externalIds"; "venue"; "publicationDate"; "openAccessPdf"; "tldr"].

Definition paper_fields (paper : Paper.t) : list (string * option value) :=
  [("paperId", if_truthy (Paper.paperId paper) VStr);
   ("title", if_truthy (Paper.title paper) VStr);
   ("abstract", if_truthy (Paper.abstract paper)
                  (fun x => to_value (_truncate (Some x) ABSTRACT_MAX)));
   ("year", if_truthy (Paper.year paper) VInt);
   ("citationCount", VInt <$> Paper.citationCount paper);
   ("url", if_truthy (Paper.url paper) VStr);
   ("authors", if_truthy (Paper.authors paper)
                 (fun x => VList (author_brief <$> x)));
   ("externalIds", if_truthy (Paper.externalIds paper) VDict);
   ("venue", if_truthy (Paper.venue paper) VStr);
   ("publicationDate", if_truthy (Paper.publicationDate paper)
                         (fun x => VStr (date_str (datetime_date x))));
   ("openAccessPdf", if_truthy (Paper.openAccessPdf paper) VDict);
   ("tldr", if_truthy (Paper.tldr paper) (fun x => to_value (Tldr.text x)))].

Definition author_keys : list string :=
  ["authorId"; "name"; "url"; "paperCount"; "citationCount"; "hIndex";
   "affiliations"].

Definition author_fields (author : Author.t) : list (string * option value) :=
  [("authorId", if_truthy (Author.authorId author) VStr);
   ("name", if_truthy (Author.name author) VStr);
   ("url", if_truthy (Author.url author) VStr);
   ("paperCount", VInt <$> Author.paperCount author);
   ("citationCount", VInt <$> Author.citationCount author);
   ("hIndex", VInt <$> Author.hIndex author);
   ("affiliations", if_truthy (Author.affiliations author) to_value)].

(** ** Lemmas shared by the two builders *)

Lemma when_truthy_set_opt {A} `{Truthy A} (x : option A) (f : A -> value)
    (k : string) (d : dict value) :
  when_truthy x (fun a => dict_set k (f a)) d = set_opt k (if_truthy x f) d.
Proof. destruct x as [a|]; simpl; [by destruct (truthy a) | done]. Qed.

Lemma when_not_none_set_opt {A} (x : option A) (f : A -> value)
    (k : string) (d : dict value) :
  when_not_none x (fun a => dict_set k (f a)) d = set_opt k (f <$> x) d.
Proof. by destruct x. Qed.

Lemma dict_of_fields_keys fields :
  dict_keys (dict_of_fields fields) `sublist_of` fields.*1.
Proof.
  unfold dict_keys, dict_of_fields.
  induction fields as [|[k [v|]] fields IH]; simpl; by constructor.
Qed.

Lemma dict_of_fields_wf fields : NoDup fields.*1 -> dict_wf (dict_of_fields fields).
Proof. intros Hnd. eapply sublist_NoDup; [done | apply dict_of_fields_keys]. Qed.

Lemma set_opt_fold fields d0 :
  NoDup fields.*1 ->
  (forall k, k ∈ fields.*1 -> k ∉ dict_keys d0) ->
  fold_left (fun d kv => set_opt kv.1 kv.2 d) fields d0
  = d0 ++ dict_of_fields fields.
Proof.
  revert d0. induction fields as [|[k o] fields IH]; intros d0; simpl.
  { intros _ _. by rewrite app_nil_r. }
  intros [Hk Hnd]%NoDup_cons Hfresh.
  assert (k ∉ dict_keys d0) as Hk0 by (apply Hfresh; left).
  rewrite IH; [|done|].
  - destruct o as [v|]; simpl; [|done].
    by rewrite dict_set_fresh, <- app_assoc.
  - intros k' Hk'. assert (k' ∉ dict_keys d0) by (apply Hfresh; by right).
    destruct o as [v|]; simpl; [|done].
    rewrite dict_set_fresh, dict_keys_app by done.
    rewrite not_elem_of_app. split; [done|]. simpl.
    intros ->%list_elem_of_singleton. done.
Qed.

Lemma dict_of_fields_get fields k :
  NoDup fields.*1 ->
  dict_get k (dict_of_fields fields) = mjoin (dict_get k fields).
Proof.
  induction fields as [|[k' o] fields IH]; simpl; [done|].
  intros [Hk' Hnd]%NoDup_cons. case_decide as Hk.
  - subst k'. destruct o as [v|]; simpl; [by rewrite decide_True|].
    apply dict_get_None. intros Hin. apply Hk'.
    eapply elem_of_sublist; [done | apply dict_of_fields_keys].
  - destruct o as [v|]; simpl; [rewrite decide_False by done|]; by apply IH.
Qed.

Lemma paper_fields_keys paper : (paper_fields paper).*1 = paper_keys.
Proof. reflexivity. Qed.

Lemma author_fields_keys author : (author_fields author).*1 = author_keys.
Proof. reflexivity. Qed.

Lemma paper_keys_NoDup : NoDup paper_keys.
Proof. apply (bool_decide_unpack _). by vm_compute. Qed.

Lemma author_keys_NoDup : NoDup author_keys.
Proof. apply (bool_decide_unpack _). by vm_compute. Qed.

Lemma if_truthy_Some {A} `{Truthy A} (x : option A) (f : A -> value) v :
  if_truthy x f = Some v <-> exists a, x = Some a /\ truthy a = true /\ f a = v.
Proof.
  destruct x as [a|]; simpl; [destruct (truthy a) eqn:Ht|]; split.
  - intros [= <-]. eauto.
  - by intros (a' & [= <-] & _ & <-).
  - done.
  - intros (a' & [= <-] & Ht' & _). congruence.
  - done.
  - by intros (a & ? & _).
Qed.

Lemma if_truthy_None {A} `{Truthy A} (x : option A) (f : A -> value) :
  if_truthy x f = None <-> truthy x = false.
Proof. destruct x as [a|]; simpl; [|done]. unfold truthy at 2. simpl. by destruct (truthy a). Qed.

(** ** [_truncate] *)

Lemma _truncate_None (max_len : Z) : _truncate None max_len = None.
Proof. reflexivity. Qed.

Lemma str_take_dots_length (s : string) (n : nat) :
  (n <= String.length s)%nat ->
  py_len (str_take n s ++ "...") = Z.of_nat n + 3.
Proof.
  intros Hn. unfold py_len. rewrite str_length_app, str_take_length. simpl. lia.
Qed.

(** The two branches of [_truncate] for a non-negative bound. *)
Lemma _truncate_eq (s : string) (max_len : Z) :
  0 <= max_len ->
  _truncate (Some s) max_len =
  Some (if bool_decide (py_len s <= max_len) then s
        else (str_take (Z.to_nat max_len) s ++ "...")%string).
Proof.
  intros H0. unfold _truncate, py_len in *. case_bool_decide as Hle.
  - destruct (Z.ltb_spec max_len (Z.of_nat (String.length s))); [lia|].
    by rewrite andb_false_r.
  - assert (truthy s = true) as -> by (apply truthy_string_length; lia).
    destruct (Z.ltb_spec max_len (Z.of_nat (String.length s))); [simpl|lia].
    unfold str_slice_to. rewrite slice_stop_nonneg by done.
    by replace (Nat.min (Z.to_nat max_len) (String.length s))
      with (Z.to_nat max_len) by lia.
Qed.

Lemma _truncate_Some (s : string) (max_len : Z) :
  0 <= max_len ->
  exists r, _truncate (Some s) max_len = Some r /\ py_len r <= max_len + 3.
Proof.
  intros H0. rewrite _truncate_eq by done. eexists; split; [done|].
  case_bool_decide; [lia|]. rewrite str_take_dots_length; unfold py_len in *; lia.
Qed.

(** A text no longer than [max_len] is returned
    unchanged, whatever the sign of [max_len]; so is the empty text. *)
Theorem _truncate_short (s : string) (max_len : Z) :
  py_len s <= max_len \/ s = ""%string -> _truncate (Some s) max_len = Some s.
Proof.
  intros [Hle | ->]; [|done]. unfold _truncate.
  destruct (Z.ltb_spec max_len (py_len s)); [lia|]. by rewrite andb_false_r.
Qed.

Lemma _truncate_short_witness :
  _truncate (Some "short"%string) ABSTRACT_MAX = Some "short"%string.
Proof. apply _truncate_short. left. by vm_compute. Defined.

(** A text longer than a non-negative [max_len] is cut
    to its first [max_len] characters followed by three dots, so the result
    has exactly [max_len + 3] characters. *)
Theorem _truncate_long (s : string) (max_len : Z) :
  0 <= max_len < py_len s ->
  _truncate (Some s) max_len = Some (str_take (Z.to_nat max_len) s ++ "...")%string
  /\ py_len (str_take (Z.to_nat max_len) s ++ "...") = max_len + 3.
Proof.
  intros [H0 Hlt]. rewrite _truncate_eq, bool_decide_false by lia.
  split; [done|]. rewrite str_take_dots_length; unfold py_len in *; lia.
Qed.

Lemma _truncate_long_witness :
  _truncate (Some "abcdef"%string) 3 = Some "abc..."%string.
Proof. refine (proj1 (_truncate_long "abcdef" 3 _)). by vm_compute. Defined.

(** C6 (bounds): for a non-negative [max_len] the result never has more
    than [max_len + 3] characters, and never more than three characters
    more than the text. *)
Theorem _truncate_length_bound (s r : string) (max_len : Z) :
  0 <= max_len -> _truncate (Some s) max_len = Some r ->
  py_len r <= max_len + 3 /\ py_len r <= py_len s + 3.
Proof.
  intros H0. rewrite _truncate_eq by done. intros [= <-].
  case_bool_decide; [lia|]. rewrite str_take_dots_length; unfold py_len in *; lia.
Qed.

Lemma _truncate_length_bound_witness :
  py_len "abc..." <= 3 + 3 /\ py_len "abc..." <= py_len "abcdef" + 3.
Proof.
  apply (_truncate_length_bound "abcdef" "abc..." 3); [lia | by vm_compute].
Defined.

(** Truncating twice with the same non-negative
    [max_len] is truncating once. *)
Theorem _truncate_idempotent (text : option string) (max_len : Z) :
  0 <= max_len ->
  _truncate (_truncate text max_len) max_len = _truncate text max_len.
Proof.
  intros H0. destruct text as [s|]; [|done]. rewrite (_truncate_eq s) by done.
  case_bool_decide as Hle; rewrite _truncate_eq by done.
  { by rewrite bool_decide_true. }
  rewrite bool_decide_false
    by (rewrite str_take_dots_length; unfold py_len in *; lia).
  rewrite str_take_app; [done|]. rewrite str_take_length.
  unfold py_len in *. lia.
Qed.

Lemma _truncate_idempotent_witness :
  _truncate (_truncate (Some "abcdef"%string) 3) 3
  = _truncate (Some "abcdef"%string) 3.
Proof. apply _truncate_idempotent. lia. Defined.

(** The result keeps the beginning of the text: its
    first [max_len] characters are those of the input. *)
Theorem _truncate_prefix (s r : string) (max_len : Z) :
  0 <= max_len -> _truncate (Some s) max_len = Some r ->
  str_take (Z.to_nat max_len) r = str_take (Z.to_nat max_len) s.
Proof.
  intros H0. rewrite _truncate_eq by done. intros [= <-].
  case_bool_decide as Hle; [done|].
  rewrite str_take_app; [done|]. rewrite str_take_length.
  unfold py_len in *. lia.
Qed.

Lemma _truncate_prefix_witness :
  str_take (Z.to_nat 3) "abc..." = str_take (Z.to_nat 3) "abcdef".
Proof.
  apply (_truncate_prefix "abcdef" "abc..." 3); [lia | by vm_compute].
Defined.

(** With a negative [max_len] the slice counts from the end,
    and a short text comes back longer than it went in. *)
Theorem _truncate_negative_grows :
  _truncate (Some "ab"%string) (-1) = Some "a..."%string.
Proof. reflexivity. Qed.

(** ** [_paper_to_dict] *)

Lemma if_truthy_ext {A} `{Truthy A} (x : option A) (f g : A -> value) :
  (forall a, x = Some a -> f a = g a) -> if_truthy x f = if_truthy x g.
Proof. destruct x as [a|]; simpl; [|done]. intros ->; done. Qed.

Lemma _paper_to_dict_table (paper : Paper.t) :
  _paper_to_dict paper = dict_of_fields (paper_fields paper).
Proof.
  unfold _paper_to_dict. cbv zeta.
  rewrite !when_truthy_set_opt, !when_not_none_set_opt.
  rewrite (if_truthy_ext (Paper.abstract paper) _
             (fun x => to_value (_truncate (Some x) ABSTRACT_MAX)))
    by (by intros a ->).
  apply (set_opt_fold (paper_fields paper) []).
  - apply paper_keys_NoDup.
  - intros k _. apply not_elem_of_nil.
Qed.

Lemma _paper_to_dict_get (paper : Paper.t) (k : string) :
  dict_get k (_paper_to_dict paper) = mjoin (dict_get k (paper_fields paper)).
Proof.
  rewrite _paper_to_dict_table. apply dict_of_fields_get, paper_keys_NoDup.
Qed.

(** C2 (equivalence): the dictionary built by the twelve guarded
    assignments is the table [paper_fields] with its absent rows removed;
    its keys are distinct and in the order of the source, and what it
    holds under a key is the row of the table for that key. *)
Theorem _paper_to_dict_fields (paper : Paper.t) :
  _paper_to_dict paper = dict_of_fields (paper_fields paper) /\
  dict_keys (_paper_to_dict paper) `sublist_of` paper_keys /\
  dict_wf (_paper_to_dict paper) /\
  forall k, dict_get k (_paper_to_dict paper)
            = mjoin (dict_get k (paper_fields paper)).
Proof.
  split_and!; [apply _paper_to_dict_table | | | apply _paper_to_dict_get];
    rewrite _paper_to_dict_table.
  - apply dict_of_fields_keys.
  - apply dict_of_fields_wf, paper_keys_NoDup.
Qed.

(** C38 (functional): A citation count of zero is reported, because the
    guard is [is not None]; a year of zero is dropped, because the guard
    is the truth value. *)
Theorem _paper_to_dict_zero (paper : Paper.t) :
  dict_get "citationCount" (_paper_to_dict paper)
    = VInt <$> Paper.citationCount paper /\
  (Paper.year paper = Some 0 -> dict_in "year" (_paper_to_dict paper) = false).
Proof.
  rewrite dict_in_false, !_paper_to_dict_get. simpl. split; [done|].
  by intros ->.
Qed.

Lemma _paper_to_dict_zero_witness :
  dict_in "year"
    (_paper_to_dict (Paper.mk None None None (Some 0) (Some 0) None None None
                       None None None None)) = false.
Proof. by apply _paper_to_dict_zero. Defined.

(** C37 (bounds): the abstract in the result is a string of at most
    [ABSTRACT_MAX + 3] characters, and it is there exactly when the paper
    has a non-empty abstract. *)
Theorem _paper_to_dict_abstract_bound (paper : Paper.t) :
  (dict_in "abstract" (_paper_to_dict paper) = truthy (Paper.abstract paper)) /\
  forall v, dict_get "abstract" (_paper_to_dict paper) = Some v ->
            exists r, v = VStr r /\ py_len r <= ABSTRACT_MAX + 3.
Proof.
  split.
  - destruct (dict_in _ _) eqn:Hin.
    + apply dict_in_spec in Hin as [v Hv]. rewrite _paper_to_dict_get in Hv.
      apply if_truthy_Some in Hv as (s & -> & Hs & _). done.
    + apply dict_in_false in Hin. rewrite _paper_to_dict_get in Hin.
      symmetry. by apply if_truthy_None in Hin.
  - intros v. rewrite _paper_to_dict_get. simpl.
    intros (s & Hs & _ & <-)%if_truthy_Some.
    destruct (_truncate_Some s ABSTRACT_MAX) as (r & -> & Hr); [done|].
    by exists r.
Qed.

Lemma author_brief_wf (a : Author.t) : value_wf (author_brief a) = true.
Proof.
  unfold author_brief. apply value_wf_VDict. split.
  - apply (bool_decide_unpack _). by vm_compute.
  - destruct (Author.authorId a), (Author.name a); by repeat constructor.
Qed.

Lemma dict_of_fields_value_wf fields :
  NoDup fields.*1 ->
  Forall (fun kv => forall v, kv.2 = Some v -> value_wf v = true) fields ->
  value_wf (VDict (dict_of_fields fields)) = true.
Proof.
  intros Hnd Hall. apply value_wf_VDict. split; [by apply dict_of_fields_wf|].
  clear Hnd. induction Hall as [|[k [v|]] fields Hv _ IH]; simpl; [done| |done].
  constructor; [by apply Hv | done].
Qed.

Lemma if_truthy_wf {A} `{Truthy A} (x : option A) (f : A -> value) :
  (forall a, x = Some a -> value_wf (f a) = true) ->
  forall v, if_truthy x f = Some v -> value_wf v = true.
Proof. intros Hf v (a & Ha & _ & <-)%if_truthy_Some. by apply Hf. Qed.

Lemma fmap_VInt_wf (x : option Z) :
  forall v, VInt <$> x = Some v -> value_wf v = true.
Proof. intros v. destruct x; intros [= <-]; done. Qed.

(** When the two dictionaries the paper carries are
    well formed, the result is a well-formed JSON document: no key twice
    at any depth. *)
Theorem _paper_to_dict_wf (paper : Paper.t) :
  (forall d, Paper.externalIds paper = Some d -> value_wf (VDict d) = true) ->
  (forall d, Paper.openAccessPdf paper = Some d -> value_wf (VDict d) = true) ->
  value_wf (VDict (_paper_to_dict paper)) = true.
Proof.
  intros Hext Hpdf. rewrite _paper_to_dict_table.
  apply dict_of_fields_value_wf; [apply paper_keys_NoDup|].
  repeat (apply Forall_cons; split); try apply Forall_nil; simpl;
    try (apply if_truthy_wf; intros a Ha); try apply fmap_VInt_wf; try done.
  - by destruct (_truncate _ _).
  - apply value_wf_VList, Forall_fmap, Forall_forall. intros ??. apply author_brief_wf.
  - by apply Hext.
  - by apply Hpdf.
  - by destruct (Tldr.text a).
Qed.

Lemma _paper_to_dict_wf_witness :
  value_wf (VDict (_paper_to_dict
    (Paper.mk (Some "abc123"%string) (Some "Test Paper"%string) None
       (Some 2023) (Some 42) None None (Some [("DOI"%string, VStr "10.1234/test")])
       None None None None))) = true.
Proof.
  apply _paper_to_dict_wf; simpl; intros d [= <-]; by vm_compute.
Defined.

(** ** [_author_to_dict] *)

Lemma _author_to_dict_table (author : Author.t) :
  _author_to_dict author = dict_of_fields (author_fields author).
Proof.
  unfold _author_to_dict. cbv zeta.
  rewrite !when_truthy_set_opt, !when_not_none_set_opt.
  apply (set_opt_fold (author_fields author) []).
  - apply author_keys_NoDup.
  - intros k _. apply not_elem_of_nil.
Qed.

Lemma _author_to_dict_get (author : Author.t) (k : string) :
  dict_get k (_author_to_dict author) = mjoin (dict_get k (author_fields author)).
Proof.
  rewrite _author_to_dict_table. apply dict_of_fields_get, author_keys_NoDup.
Qed.

(** C9 (equivalence): the dictionary built by the seven guarded
    assignments is the table [author_fields] with its absent rows removed;
    its keys are in the order of the source, and what it holds under a key
    is the row of the table for that key. *)
Theorem _author_to_dict_fields (author : Author.t) :
  _author_to_dict author = dict_of_fields (author_fields author) /\
  dict_keys (_author_to_dict author) `sublist_of` author_keys /\
  forall k, dict_get k (_author_to_dict author)
            = mjoin (dict_get k (author_fields author)).
Proof.
  split_and!; [apply _author_to_dict_table | | apply _author_to_dict_get].
  rewrite _author_to_dict_table. apply dict_of_fields_keys.
Qed.

(** The result of [_author_to_dict] is a well-formed JSON
    document: no key twice, at any depth. *)
Theorem _author_to_dict_wf (author : Author.t) :
  dict_wf (_author_to_dict author) /\
  value_wf (VDict (_author_to_dict author)) = true.
Proof.
  rewrite _author_to_dict_table.
  split; [apply dict_of_fields_wf, author_keys_NoDup|].
  apply dict_of_fields_value_wf; [apply author_keys_NoDup|].
  repeat (apply Forall_cons; split); try apply Forall_nil; simpl;
    try (apply if_truthy_wf; intros a Ha); try apply fmap_VInt_wf; try done.
  apply value_wf_to_value_list_string.
Qed.

(** The three counters are reported whenever they are
    not [None], zero included; the name, the identifier and the URL only
    when they are not empty. *)
Theorem _author_to_dict_counts (author : Author.t) :
  dict_get "paperCount" (_author_to_dict author)
    = VInt <$> Author.paperCount author /\
  dict_get "citationCount" (_author_to_dict author)
    = VInt <$> Author.citationCount author /\
  dict_get "hIndex" (_author_to_dict author) = VInt <$> Author.hIndex author /\
  dict_in "name" (_author_to_dict author) = truthy (Author.name author).
Proof.
  rewrite !_author_to_dict_get. split_and!; try done.
  destruct (dict_in _ _) eqn:Hin.
  - apply dict_in_spec in Hin as [v Hv]. rewrite _author_to_dict_get in Hv.
    apply if_truthy_Some in Hv as (s & -> & Hs & _). done.
  - apply dict_in_false in Hin. rewrite _author_to_dict_get in Hin.
    symmetry. by apply if_truthy_None in Hin.
Qed.

(** ** Dates *)

Lemma pretty_N_go_length (k : nat) (x : N) (s : string) :
  (x < 10 ^ N.of_nat k)%N ->
  (String.length (pretty_N_go x s) <= k + String.length s)%nat.
Proof.
  revert x s. induction k as [|k IH]; intros x s Hx.
  - assert (x = 0%N) as -> by (simpl in Hx; lia). rewrite pretty_N_go_0. lia.
  - destruct (decide (x = 0%N)) as [->|Hne]; [rewrite pretty_N_go_0; lia|].
    rewrite pretty_N_go_step by lia.
    etrans; [apply IH|simpl; lia].
    apply N.Div0.div_lt_upper_bound.
    rewrite Nat2N.inj_succ, N.pow_succ_r' in Hx. lia.
Qed.

Lemma pretty_N_length (k : nat) (x : N) :
  (0 < k)%nat -> (x < 10 ^ N.of_nat k)%N ->
  (String.length (pretty x) <= k)%nat.
Proof.
  intros Hk Hx. unfold pretty, pretty_N. case_decide; [simpl; lia|].
  etrans; [by apply pretty_N_go_length|]. simpl. lia.
Qed.

Lemma str_concat_replicate_length (n : nat) (c : string) :
  String.length (String.concat "" (replicate n c)) = (n * String.length c)%nat.
Proof.
  induction n as [|n IH]; [done|]. simpl replicate.
  destruct n as [|n]; [simpl; lia|].
  change (String.concat "" (c :: replicate (S n) c))
    with (c ++ "" ++ String.concat "" (replicate (S n) c))%string.
  rewrite str_app_nil_l, str_length_app, IH. lia.
Qed.

Lemma zfill_length (w : nat) (s : string) :
  String.length (zfill w s) = Nat.max w (String.length s).
Proof.
  unfold zfill. rewrite str_length_app, str_concat_replicate_length. simpl. lia.
Qed.

Lemma fmt_0d_length (w : nat) (n : N) :
  (0 < w)%nat -> (n < 10 ^ N.of_nat w)%N -> String.length (fmt_0d w n) = w.
Proof.
  intros Hw Hn. unfold fmt_0d. rewrite zfill_length.
  pose proof (pretty_N_length w n Hw Hn). lia.
Qed.

(** The string of a valid date has exactly ten characters
    (four for the year, two for the month, two for the day and two
    dashes). *)
Theorem date_str_length (d : date) :
  date_valid d -> String.length (date_str d) = 10%nat.
Proof.
  intros (Hy & Hm & Hd). unfold date_str.
  rewrite !str_length_app, !fmt_0d_length by (simpl; lia). done.
Qed.

Lemma date_str_length_witness :
  String.length (date_str (mk_date 2023 1 15)) = 10%nat.
Proof. apply date_str_length. unfold date_valid. simpl. lia. Defined.
