(* ===== verification/Dto.v ===== *)
(** * The data objects of [SnippetSearchResult.py]

    [Snippet] and [SnippetSearchResult] wrap a decoded JSON mapping.  The
    constructor sets every attribute to [None] and calls
    [_init_attributes], which stores the mapping in [_data] and copies
    each key that is present.  [_init_attributes] is a computation on the
    object ([M exn t unit]), so the attributes assigned before an
    exception stay assigned; the constructor returns the object only when
    no exception was raised.

    The mapping is a [value]: the code tests [key in data] and reads
    [data[key]] whatever [data] is, and the model raises what Python
    raises when [data] is not a dictionary ([py_contains],
    [py_getitem]).

    The constructor [Paper] of the client library is not under [src/]; it
    is the parameter [mkPaper] of [SnippetSearchResult]. *)

From Stdlib Require Import ZArith String List.
From stdpp Require Import base tactics option list strings numbers.
From S2P Require Import Prelude PyDict PyValue Helpers.

Open Scope Z_scope.

Module Snippet.

Definition FIELDS : list string :=
  ["snippet.text"; "snippet.snippetKind"; "snippet.section";
   "snippet.snippetOffset"; "snippet.annotations"].

Record t : Type := mk {
  _data : value;
  _text : value;
  _snippetKind : value;
  _section : value;
  _snippetOffset : value;
  _annotations : value;
}.

Definition text (self : t) : value := _text self.
Definition snippetKind (self : t) : value := _snippetKind self.
Definition section (self : t) : value := _section self.
Definition snippetOffset (self : t) : value := _snippetOffset self.
Definition annotations (self : t) : value := _annotations self.

Definition set_data (v : value) (self : t) : t :=
  mk v (_text self) (_snippetKind self) (_section self) (_snippetOffset self)
    (_annotations self).
Definition set_text (v : value) (self : t) : t :=
  mk (_data self) v (_snippetKind self) (_section self) (_snippetOffset self)
    (_annotations self).
Definition set_snippetKind (v : value) (self : t) : t :=
  mk (_data self) (_text self) v (_section self) (_snippetOffset self)
    (_annotations self).
Definition set_section (v : value) (self : t) : t :=
  mk (_data self) (_text self) (_snippetKind self) v (_snippetOffset self)
    (_annotations self).
Definition set_snippetOffset (v : value) (self : t) : t :=
  mk (_data self) (_text self) (_snippetKind self) (_section self) v
    (_annotations self).
Definition set_annotations (v : value) (self : t) : t :=
  mk (_data self) (_text self) (_snippetKind self) (_section self)
    (_snippetOffset self) v.

Definition _init_attributes (data : value) : M exn t unit :=
  modify_st (set_data data);;
  init_attr "text" data set_text;;
  init_attr "snippetKind" data set_snippetKind;;
  init_attr "section" data set_section;;
  init_attr "snippetOffset" data set_snippetOffset;;
  init_attr "annotations" data set_annotations.

(** The object as [__init__] leaves it before [_init_attributes]. *)
Definition blank : t := mk VNone VNone VNone VNone VNone VNone.

Definition __init__ (data : value) : res exn t :=
  match run (_init_attributes data) blank with
  | (Ok _, self) => Ok self
  | (Raise e, _) => Raise e
  end.

(** The attributes a dictionary [d] gives: each key, or [None]. *)
Definition of_dict (d : dict value) : t :=
  mk (VDict d)
    (default VNone (dict_get "text" d))
    (default VNone (dict_get "snippetKind" d))
    (default VNone (dict_get "section" d))
    (default VNone (dict_get "snippetOffset" d))
    (default VNone (dict_get "annotations" d)).

(** The attributes after [_init_attributes] on a dictionary, from any
    object: [_data] is the dictionary, an attribute whose key is present
    is the value of the key, the others are unchanged. *)
Definition updated (d : dict value) (self : t) : t :=
  mk (VDict d)
    (default (_text self) (dict_get "text" d))
    (default (_snippetKind self) (dict_get "snippetKind" d))
    (default (_section self) (dict_get "section" d))
    (default (_snippetOffset self) (dict_get "snippetOffset" d))
    (default (_annotations self) (dict_get "annotations" d)).

(** The keys [_init_attributes] reads. *)
Definition keys : list string :=
  ["text"; "snippetKind"; "section"; "snippetOffset"; "annotations"].

End Snippet.

(** [Snippet] and [SnippetSearchResult] define neither [__bool__] nor
    [__len__], and their base class is assumed not to: an object is
    true. *)
#[export] Instance truthy_snippet : Truthy Snippet.t := fun _ => true.

Module SnippetSearchResult.

Record t : Type := mk {
  _data : value;
  _paper : option Paper.t;
  _snippet : option Snippet.t;
  _score : value;
}.

Definition paper (self : t) : option Paper.t := _paper self.
Definition snippet (self : t) : option Snippet.t := _snippet self.
Definition score (self : t) : value := _score self.

Definition set_data (v : value) (self : t) : t :=
  mk v (_paper self) (_snippet self) (_score self).
Definition set_paper (p : option Paper.t) (self : t) : t :=
  mk (_data self) p (_snippet self) (_score self).
Definition set_snippet (s : option Snippet.t) (self : t) : t :=
  mk (_data self) (_paper self) s (_score self).
Definition set_score (v : value) (self : t) : t :=
  mk (_data self) (_paper self) (_snippet self) v.

(** [if key in data: if data[key] is not None: self.attr = ctor(data[key])] *)
Definition init_obj {A} (key : string) (data : value)
    (ctor : value -> res exn A) (set : option A -> t -> t) : M exn t unit :=
  b ← lift_res (py_contains key data);
  if b : bool then
    v ← lift_res (py_getitem key data);
    if decide (v = VNone) then mret tt
    else a ← lift_res (ctor v); modify_st (set (Some a))
  else mret tt.

(** What [init_obj] assigns: nothing for an absent key or a [None],
    the constructed object otherwise. *)
Definition decode_opt {A} (ctor : value -> res exn A) (o : option value) :
    res exn (option A) :=
  match o with
  | Some v => if decide (v = VNone) then Ok None else Some <$> ctor v
  | None => Ok None
  end.

Section WithPaper.
Context (mkPaper : value -> res exn Paper.t).

Definition _init_attributes (data : value) : M exn t unit :=
  modify_st (set_data data);;
  init_obj "paper" data mkPaper set_paper;;
  init_obj "snippet" data Snippet.__init__ set_snippet;;
  init_attr "score" data set_score.

Definition blank : t := mk VNone None None VNone.

Definition __init__ (data : value) : res exn t :=
  match run (_init_attributes data) blank with
  | (Ok _, self) => Ok self
  | (Raise e, _) => Raise e
  end.

(** The object a dictionary [d] gives. *)
Definition of_dict (d : dict value) : res exn t :=
  p ← decode_opt mkPaper (dict_get "paper" d);
  s ← decode_opt Snippet.__init__ (dict_get "snippet" d);
  mret (mk (VDict d) p s (default VNone (dict_get "score" d))).

End WithPaper.

End SnippetSearchResult.

#[export] Instance truthy_snippet_search_result :
  Truthy SnippetSearchResult.t := fun _ => true.

(** ** [Snippet] *)

Section SnippetFacts.
Import Snippet.

Lemma run_snippet_init_attributes_dict (d : dict value) (self : t) :
  run (_init_attributes (VDict d)) self = (Ok tt, updated d self).
Proof.
  unfold _init_attributes. run_steps. rewrite run_init_attr_dict.
  unfold updated.
  destruct self, (dict_get "text" d), (dict_get "snippetKind" d),
    (dict_get "section" d), (dict_get "snippetOffset" d),
    (dict_get "annotations" d); reflexivity.
Qed.

End SnippetFacts.

Lemma snippet_init_of_dict (d : dict value) :
  Snippet.__init__ (VDict d) = Ok (Snippet.of_dict d).
Proof.
  unfold Snippet.__init__. by rewrite run_snippet_init_attributes_dict.
Qed.

(** On a value that is not a dictionary the constructor, when it returns,
    has copied nothing: the object holds the value in [_data] and [None]
    in every attribute. *)
Lemma snippet_init_not_dict (data : value) (s : Snippet.t) :
  (forall d, data <> VDict d) -> Snippet.__init__ data = Ok s ->
  s = Snippet.set_data data Snippet.blank.
Proof.
  intros Hd. destruct data as [| b | n | f | str | l | d]; [..|by destruct (Hd d)];
    unfold Snippet.__init__, Snippet._init_attributes, init_attr; simpl;
    try done.
  - repeat (destruct (str_contains _ str); simpl; try done). by intros [= <-].
  - repeat (case_bool_decide; simpl; try done). by intros [= <-].
Qed.

(** C8 (functional): the constructor never fails on a dictionary: the
    object holds the dictionary in [_data] and, for each of its five
    attributes, the value of the key when the key is present and [None]
    when it is not. *)
Theorem Snippet_init_dict (d : dict value) :
  exists self,
    Snippet.__init__ (VDict d) = Ok self /\
    Snippet._data self = VDict d /\
    Snippet.text self = default VNone (dict_get "text" d) /\
    Snippet.snippetKind self = default VNone (dict_get "snippetKind" d) /\
    Snippet.section self = default VNone (dict_get "section" d) /\
    Snippet.snippetOffset self = default VNone (dict_get "snippetOffset" d) /\
    Snippet.annotations self = default VNone (dict_get "annotations" d).
Proof. exists (Snippet.of_dict d). by rewrite snippet_init_of_dict. Qed.

(** Called again on an object, [_init_attributes]
    replaces [_data] and the attributes whose keys are present, and keeps
    the others. *)
Theorem Snippet_init_attributes_frame (d : dict value) (self : Snippet.t) :
  run (Snippet._init_attributes (VDict d)) self = (Ok tt, Snippet.updated d self) /\
  (dict_in "text" d = false ->
   Snippet.text (Snippet.updated d self) = Snippet.text self).
Proof.
  split; [apply run_snippet_init_attributes_dict|].
  intros H%dict_in_false. simpl. by rewrite H.
Qed.

Lemma Snippet_init_attributes_frame_witness :
  Snippet.text (Snippet.updated [("section", VStr "Intro")]
                  (Snippet.of_dict [("text", VStr "abc")])) = VStr "abc".
Proof. by apply Snippet_init_attributes_frame. Defined.

(** C7 (error): the constructor raises nothing but [TypeError], and
    never on a dictionary: the subscription [data[key]] is guarded by
    [key in data], so no [KeyError] can escape. *)
Theorem Snippet_init_error (data : value) (e : exn) :
  Snippet.__init__ data = Raise e ->
  e = TypeError /\ forall d, data <> VDict d.
Proof.
  intros He. split; [|intros d ->; by rewrite snippet_init_of_dict in He].
  destruct data as [| b | n | f | s | l | d];
    [..|by rewrite snippet_init_of_dict in He]; revert He;
    unfold Snippet.__init__, Snippet._init_attributes, init_attr; simpl.
  1-4: by intros [= <-].
  - by repeat (destruct (str_contains _ s); simpl; try by intros [= <-]).
  - by repeat (case_bool_decide; simpl; try by intros [= <-]).
Qed.

Lemma Snippet_init_error_witness :
  TypeError = TypeError /\ forall d, VInt 3 <> VDict d.
Proof. by apply (Snippet_init_error (VInt 3) TypeError). Defined.

(** Two dictionaries that are equal as maps give the
    same attributes, whatever the order of their keys. *)
Theorem Snippet_of_dict_proper (d1 d2 : dict value) :
  dict_equiv d1 d2 ->
  Snippet.text (Snippet.of_dict d1) = Snippet.text (Snippet.of_dict d2) /\
  Snippet.snippetKind (Snippet.of_dict d1)
    = Snippet.snippetKind (Snippet.of_dict d2) /\
  Snippet.section (Snippet.of_dict d1) = Snippet.section (Snippet.of_dict d2) /\
  Snippet.snippetOffset (Snippet.of_dict d1)
    = Snippet.snippetOffset (Snippet.of_dict d2) /\
  Snippet.annotations (Snippet.of_dict d1)
    = Snippet.annotations (Snippet.of_dict d2).
Proof. intros H. simpl. by rewrite !H. Qed.

Lemma Snippet_of_dict_proper_witness :
  Snippet.text (Snippet.of_dict [("text", VStr "a"); ("section", VStr "b")])
  = Snippet.text (Snippet.of_dict [("section", VStr "b"); ("text", VStr "a")]).
Proof.
  refine (proj1 (Snippet_of_dict_proper _ _ _)).
  apply dict_equiv_get. intros k. simpl.
  destruct (decide (k = "text"%string)), (decide (k = "section"%string)); congruence.
Defined.

(** ** [SnippetSearchResult] *)

Section SnippetSearchResultFacts.
Import SnippetSearchResult.
Context (mkPaper : value -> res exn Paper.t).

Lemma run_init_obj_dict {A} key d (ctor : value -> res exn A) set self :
  run (init_obj key (VDict d) ctor set) self =
  match decode_opt ctor (dict_get key d) with
  | Ok (Some a) => (Ok tt, set (Some a) self)
  | Ok None => (Ok tt, self)
  | Raise e => (Raise e, self)
  end.
Proof.
  unfold init_obj. simpl. destruct (dict_in key d) eqn:Hin; simpl.
  - apply dict_in_spec in Hin as [v ->]. simpl.
    case_decide; [done|]. by destruct (ctor v).
  - apply dict_in_false in Hin as ->. done.
Qed.

Lemma run_search_result_init_attributes_dict d self :
  run (_init_attributes mkPaper (VDict d)) self =
  match decode_opt mkPaper (dict_get "paper" d) with
  | Raise e => (Raise e, set_data (VDict d) self)
  | Ok p =>
      let self1 := set_data (VDict d) self in
      let self2 := from_option (fun a => set_paper (Some a) self1) self1 p in
      match decode_opt Snippet.__init__ (dict_get "snippet" d) with
      | Raise e => (Raise e, self2)
      | Ok s =>
          let self3 := from_option (fun a => set_snippet (Some a) self2) self2 s in
          (Ok tt, from_option (fun v => set_score v self3) self3
                    (dict_get "score" d))
      end
  end.
Proof.
  unfold _init_attributes. run_step. rewrite run_bind, run_init_obj_dict.
  destruct (decode_opt mkPaper _) as [[p|]|e]; cbv beta iota; [| |done].
  all: rewrite run_bind, run_init_obj_dict.
  all: destruct (decode_opt Snippet.__init__ _) as [[s|]|e]; cbv beta iota;
    try done.
  all: rewrite run_init_attr_dict; by destruct (dict_get "score" d).
Qed.

End SnippetSearchResultFacts.

Lemma search_result_init_of_dict
    (mkPaper : value -> res exn Paper.t) (d : dict value) :
  SnippetSearchResult.__init__ mkPaper (VDict d)
  = SnippetSearchResult.of_dict mkPaper d.
Proof.
  unfold SnippetSearchResult.__init__, SnippetSearchResult.of_dict.
  rewrite run_search_result_init_attributes_dict.
  destruct (SnippetSearchResult.decode_opt mkPaper _) as [[p|]|e]; simpl; [| |done].
  all: destruct (SnippetSearchResult.decode_opt Snippet.__init__ _) as [[s|]|e];
    simpl; try done.
  all: by destruct (dict_get "score" d).
Qed.

(** C4 (functional): built from a dictionary, a [SnippetSearchResult] is
    returned exactly when the paper and the snippet decode; it then holds
    the dictionary, the decoded paper and snippet (each [None] when its key
    is absent or is [None]) and the score, [None] when absent. *)
Theorem SnippetSearchResult_init_dict
    (mkPaper : value -> res exn Paper.t) (d : dict value)
    (r : SnippetSearchResult.t) :
  SnippetSearchResult.__init__ mkPaper (VDict d) = Ok r <->
  exists p s,
    SnippetSearchResult.decode_opt mkPaper (dict_get "paper" d) = Ok p /\
    SnippetSearchResult.decode_opt Snippet.__init__ (dict_get "snippet" d) = Ok s /\
    r = SnippetSearchResult.mk (VDict d) p s (default VNone (dict_get "score" d)).
Proof.
  rewrite search_result_init_of_dict. unfold SnippetSearchResult.of_dict.
  destruct (SnippetSearchResult.decode_opt mkPaper _) as [p|e]; simpl.
  2: { split; [done | by intros (? & ? & ? & _)]. }
  destruct (SnippetSearchResult.decode_opt Snippet.__init__ _) as [s|e]; simpl.
  2: { split; [done | by intros (? & ? & _ & ? & _)]. }
  split; [intros [= <-]; by eexists _, _ | by intros (? & ? & [= <-] & [= <-] & ->)].
Qed.

(** A result whose dictionary has no paper, or whose
    paper is [None], is built without calling the paper constructor, and
    its [paper] attribute is [None]. *)
Theorem SnippetSearchResult_null_paper
    (mkPaper : value -> res exn Paper.t) (d : dict value) :
  dict_get "paper" d = None \/ dict_get "paper" d = Some VNone ->
  SnippetSearchResult.__init__ mkPaper (VDict d)
  = (s ← SnippetSearchResult.decode_opt Snippet.__init__ (dict_get "snippet" d);
     mret (SnippetSearchResult.mk (VDict d) None s
             (default VNone (dict_get "score" d)))).
Proof.
  intros Hp. rewrite search_result_init_of_dict.
  unfold SnippetSearchResult.of_dict. by destruct Hp as [-> | ->].
Qed.

Lemma SnippetSearchResult_null_paper_witness :
  SnippetSearchResult.__init__ (fun _ => Raise DecodingError)
    (VDict [("paper", VNone); ("snippet", VNone); ("score", VInt 1)])
  = Ok (SnippetSearchResult.mk
          (VDict [("paper", VNone); ("snippet", VNone); ("score", VInt 1)])
          None None (VInt 1)).
Proof.
  rewrite SnippetSearchResult_null_paper; [done | by right].
Defined.

(** When the paper constructor raises, the construction
    raises that exception, whatever the snippet is: the paper is decoded
    first. *)
Theorem SnippetSearchResult_paper_error
    (mkPaper : value -> res exn Paper.t) (d : dict value) (v : value) (e : exn) :
  dict_get "paper" d = Some v -> v <> VNone -> mkPaper v = Raise e ->
  SnippetSearchResult.__init__ mkPaper (VDict d) = Raise e.
Proof.
  intros Hd Hv He. rewrite search_result_init_of_dict.
  unfold SnippetSearchResult.of_dict. rewrite Hd. simpl.
  rewrite decide_False by done. by rewrite He.
Qed.

Lemma SnippetSearchResult_paper_error_witness :
  SnippetSearchResult.__init__ (fun _ => Raise DecodingError)
    (VDict [("paper", VInt 1); ("snippet", VInt 2)])
  = Raise DecodingError.
Proof. by apply (SnippetSearchResult_paper_error _ _ (VInt 1)). Defined.
