(* ===== verification/Paged.v ===== *)
(** * Result objects: what the handlers use of a paged result

    A handler receives a result object from the client and uses four
    things of it: the attribute [total], [len(results)], the slice
    [results[:stop]] and the iteration [list(results)].  The class [Paged]
    is that interface; slicing and iteration are computations on the
    object, because a lazily paged result fetches pages and an iterator
    is consumed.

    [search_snippets] and [get_recommendations] use less of what the
    client returns them: the iteration [for r in results] and the slice
    [results[:stop]].  The class [Listing] is that interface.  The test
    suite returns Python lists there ([list_listing]); a result object is
    a listing as well ([paged_listing]), and then the iteration and the
    slice may fetch and may raise.

    [MockPaginated] is the result object of the test suite,
    [_make_paginated]: a [MagicMock] whose [__getitem__] subscripts the
    list [items], whose [__len__] is [len(items)], whose [total] is the
    given total (or [len(items)]), and whose [__iter__] returns, at every
    call, the one iterator [iter(items)] made when the mock was built.
    The iterator is shared: a second [list(results)] finds it consumed
    and returns the empty list.  The field [mp_iter] is what the iterator
    has left. *)

From Stdlib Require Import ZArith String List.
From stdpp Require Import base tactics option list strings numbers.
From S2P Require Import Prelude.

Open Scope Z_scope.

Class Paged (E R T : Type) : Type := {
  pg_total : R -> Z;
  pg_len : R -> Z;
  pg_getslice : Z -> M E R (list T);
  pg_list : M E R (list T);
}.
#[global] Arguments pg_total {E R T _} r.
#[global] Arguments pg_len {E R T _} r.
#[global] Arguments pg_getslice {E R T _} stop.
#[global] Arguments pg_list {E R T _}.

Class Listing (E L T : Type) : Type := {
  ls_getslice : Z -> M E L (list T);
  ls_iter : M E L (list T);
}.
#[global] Arguments ls_getslice {E L T _} stop.
#[global] Arguments ls_iter {E L T _}.

(** A Python list: the slice and the iteration leave it as it is. *)
#[export] Instance list_listing {E T} : Listing E (list T) T := {
  ls_getslice stop := l ← get_st; mret (list_slice_to stop l);
  ls_iter := get_st;
}.

(** A result object, used as a listing. *)
Definition paged_listing {E R T} (H : Paged E R T) : Listing E R T := {|
  ls_getslice := pg_getslice;
  ls_iter := pg_list;
|}.

(** ** The mock of the test suite *)

Record MockPaginated (T : Type) : Type := mk_mock {
  mp_items : list T;
  mp_total : Z;
  mp_iter : list T;
}.
#[global] Arguments mk_mock {T} mp_items mp_total mp_iter.
#[global] Arguments mp_items {T} m.
#[global] Arguments mp_total {T} m.
#[global] Arguments mp_iter {T} m.

Definition _make_paginated {T} (items : list T) (total : option Z) :
    MockPaginated T :=
  let total := match total with
               | None => Z.of_nat (length items)
               | Some t => t
               end in
  mk_mock items total items.

Definition mock_getitem {E T} (stop : Z) : M E (MockPaginated T) (list T) :=
  r ← get_st; mret (list_slice_to stop (mp_items r)).

Definition mock_iter_all {E T} : M E (MockPaginated T) (list T) :=
  r ← get_st;
  put_st (mk_mock (mp_items r) (mp_total r) []);;
  mret (mp_iter r).

#[export] Instance mock_paged {E T} : Paged E (MockPaginated T) T := {
  pg_total := mp_total;
  pg_len r := Z.of_nat (length (mp_items r));
  pg_getslice := mock_getitem;
  pg_list := mock_iter_all;
}.

(** ** Facts on the mock *)

Section Mock.
Context {E T : Type}.
Implicit Types (r : MockPaginated T) (items : list T).

Lemma run_mock_getitem stop r :
  run (mock_getitem (E:=E) stop) r = (Ok (list_slice_to stop (mp_items r)), r).
Proof. reflexivity. Qed.

Lemma run_mock_iter_all r :
  run (mock_iter_all (E:=E)) r
  = (Ok (mp_iter r), mk_mock (mp_items r) (mp_total r) []).
Proof. reflexivity. Qed.

Lemma run_mock_pg_getslice stop r :
  run (pg_getslice (E:=E) stop) r = (Ok (list_slice_to stop (mp_items r)), r).
Proof. reflexivity. Qed.

Lemma run_mock_pg_list r :
  run (pg_list (E:=E)) r = (Ok (mp_iter r), mk_mock (mp_items r) (mp_total r) []).
Proof. reflexivity. Qed.

Lemma run_list_getslice stop items :
  run (ls_getslice (E:=E) stop) items = (Ok (list_slice_to stop items), items).
Proof. reflexivity. Qed.

Lemma run_list_iter items : run (ls_iter (E:=E)) items = (Ok items, items).
Proof. reflexivity. Qed.

Lemma _make_paginated_total_default items :
  mp_total (_make_paginated items None) = Z.of_nat (length items).
Proof. reflexivity. Qed.

End Mock.

#[export] Hint Resolve run_mock_getitem run_mock_iter_all run_mock_pg_getslice
  run_mock_pg_list run_list_getslice run_list_iter : run.

(** C33 (functional): the first [list(results)] on a fresh mock returns
    all the items and a second one returns nothing, because [__iter__]
    hands out the same iterator twice; [len] and slices are unaffected. *)
Theorem mock_iter_shared {E T} (items : list T) (total : option Z) :
  let r0 := _make_paginated items total in
  exists r1,
    run (pg_list (E:=E)) r0 = (Ok items, r1) /\
    run (pg_list (E:=E)) r1 = (Ok [], r1) /\
    pg_len (E:=E) r1 = Z.of_nat (length items) /\
    forall stop, run (pg_getslice (E:=E) stop) r1
                 = (Ok (list_slice_to stop items), r1).
Proof. simpl. eexists. by split_and!. Qed.
