(* ===== verification/PagedResult.v ===== *)
(** * The lazily paged result of the specification

    The class behind the result objects of the client library is not
    under [src/]; this file models the [PagedResult] of the
    specification (sections 3, 4.1, 6 and 7), from its words, as an
    implementation of the interface [Paged] that the handlers use.

    - A page is a JSON mapping with the key ["items"] (a list of raw
      items) and, when there is a next page, the key ["next_page_token"]
      (a string); the first page also has ["total"] (an integer).
      [parse_page] and [parse_total] raise [InvalidResponseError] on
      anything else.
    - The object [t] has the four fields of the specification ([total],
      [loaded_items], [next_page_token], [page_fetcher]), the item
      constructor it was given, and [fetch_log], the cursors with which
      the fetch capability was called for this object, the first page
      ([None]) included.  The log is what the statements about the
      number of fetches are made of; no operation reads it.
    - [fetch_page] is one call of the capability: the page is parsed and
      every item decoded before anything is appended, so a failure
      leaves [loaded_items] and the cursor as they were.
    - [get] is the loop of section 4.1.  The specification lets the loop
      run for as long as the source returns pages, so the definition
      takes fuel, the number of fetches it may make; running out of fuel
      is the outcome [OutOfFuel], which is not an exception of the
      specification.  A source that delivers its items in [n] pages needs
      fuel [n] at most ([paged_get_returns], [paged_get_out_of_range]).
    - [iterate_from] and [iterate_all] are the lazy sequence and its
      complete consumption, [slice] the materialised sub-range of section
      4.1, which fails when [stop] is beyond the total.
    - The handlers do not call [slice]: they write [results[:limit]],
      with a limit that is usually beyond the total, and the tests expect
      the slice to be clipped.  Section 6 asks for ordinary slicing on
      the caller-visible surface, so [paged_slice_to], the [results[:stop]]
      of the interface [Paged], is the slice of a sequence of [total]
      items: it keeps [slice_stop total stop] items, brought by repeated
      [get], and agrees with [slice 0 stop] for every [stop] from 0 to
      the total ([run_paged_slice_to_within]).
    - Indices are natural numbers: the specification says nothing of
      negative indices. *)

From Stdlib Require Import ZArith String List.
From stdpp Require Import base tactics option list strings numbers.
From S2P Require Import Prelude PyDict PyValue Paged.

Open Scope Z_scope.

Module PagedResult.

(** An opaque cursor. *)
Definition Cursor : Type := string.

(** The outcomes of an operation that are not a value: an exception of
    the specification, or the end of the fuel. *)
Inductive perr : Type :=
| Exn (e : exn)
| OutOfFuel.

#[export] Instance perr_eq_dec : EqDecision perr.
Proof. solve_decision. Defined.

Definition lift_exn {A} (r : res exn A) : res perr A :=
  match r with Ok a => Ok a | Raise e => Raise (Exn e) end.

(** ** Pages *)

Definition parse_cursor (payload : dict value) : res exn (option Cursor) :=
  match dict_get "next_page_token" payload with
  | None | Some VNone => Ok None
  | Some (VStr c) => Ok (Some c)
  | Some _ => Raise InvalidResponseError
  end.

Definition parse_page (payload : value) : res exn (list value * option Cursor) :=
  match payload with
  | VDict d =>
      match dict_get "items" d with
      | Some (VList raw) => next ← parse_cursor d; Ok (raw, next)
      | _ => Raise InvalidResponseError
      end
  | _ => Raise InvalidResponseError
  end.

Definition parse_total (payload : value) : res exn Z :=
  match payload with
  | VDict d =>
      match dict_get "total" d with
      | Some (VInt n) => Ok n
      | _ => Raise InvalidResponseError
      end
  | _ => Raise InvalidResponseError
  end.

(** The items of a page, decoded in order; the first item that does not
    decode ends the decoding with its exception. *)
Fixpoint decode_items {T} (ctor : value -> res exn T) (raw : list value) :
    res exn (list T) :=
  match raw with
  | [] => Ok []
  | x :: raw' => a ← ctor x; l ← decode_items ctor raw'; Ok (a :: l)
  end.

(** ** The object *)

Record t (T : Type) : Type := mk {
  total : Z;
  loaded_items : list T;
  next_page_token : option Cursor;
  page_fetcher : option Cursor -> res exn value;
  item_ctor : value -> res exn T;
  fetch_log : list (option Cursor);
}.
Arguments mk {T} total loaded_items next_page_token page_fetcher item_ctor
  fetch_log.
Arguments total {T} _.
Arguments loaded_items {T} _.
Arguments next_page_token {T} _.
Arguments page_fetcher {T} _.
Arguments item_ctor {T} _.
Arguments fetch_log {T} _.

Section Operations.
Context {T : Type}.
Implicit Types (r : t T) (c : Cursor).

(** Construction from the payload of the first page. *)
Definition make (ctor : value -> res exn T)
    (fetcher : option Cursor -> res exn value) (payload : value) :
    res exn (t T) :=
  n ← parse_total payload;
  '(raw, next) ← parse_page payload;
  items ← decode_items ctor raw;
  Ok (mk n items next fetcher ctor [None]).

(** The query-issuing operation: it fetches the first page. *)
Definition query (ctor : value -> res exn T)
    (fetcher : option Cursor -> res exn value) : res exn (t T) :=
  payload ← fetcher None; make ctor fetcher payload.

Definition length_loaded r : Z := Z.of_nat (length (loaded_items r)).

Definition log_fetch c r : t T :=
  mk (total r) (loaded_items r) (next_page_token r) (page_fetcher r)
    (item_ctor r) (fetch_log r ++ [Some c]).

Definition append_page (items : list T) (next : option Cursor) r : t T :=
  mk (total r) (loaded_items r ++ items) next (page_fetcher r) (item_ctor r)
    (fetch_log r).

(** One call of the fetch capability, with the cursor [c]. *)
Definition fetch_page c : M perr (t T) unit :=
  modify_st (log_fetch c);;
  r ← get_st;
  payload ← lift_res (lift_exn (page_fetcher r (Some c)));
  '(raw, next) ← lift_res (lift_exn (parse_page payload));
  items ← lift_res (lift_exn (decode_items (item_ctor r) raw));
  modify_st (append_page items next).

Fixpoint get (fuel : nat) (index : nat) : M perr (t T) T :=
  r ← get_st;
  match loaded_items r !! index with
  | Some x => mret x
  | None =>
      match next_page_token r with
      | None => raise (Exn IndexOutOfRangeError)
      | Some c =>
          match fuel with
          | O => raise OutOfFuel
          | S fuel' => fetch_page c;; get fuel' index
          end
      end
  end.

(** The first [n] steps of the lazy sequence that starts at [pos]: each
    step is a [get] of the next index. *)
Fixpoint iterate_from (fuel : nat) (n : nat) (pos : nat) : M perr (t T) (list T) :=
  match n with
  | O => mret []
  | S n' =>
      x ← get fuel pos;
      xs ← iterate_from fuel n' (S pos);
      mret (x :: xs)
  end.

(** The whole sequence: it is bounded by [total]. *)
Definition iterate_all (fuel : nat) : M perr (t T) (list T) :=
  r ← get_st; iterate_from fuel (Z.to_nat (total r)) 0.

Definition slice (fuel : nat) (start stop : nat) : M perr (t T) (list T) :=
  r ← get_st;
  if total r <? Z.of_nat stop then raise (Exn IndexOutOfRangeError)
  else iterate_from fuel (stop - start) start.

(** What one call of the capability brings: the decoded items of the
    page and the next cursor. *)
Definition fetch_result r c : res exn (list T * option Cursor) :=
  payload ← page_fetcher r (Some c);
  '(raw, next) ← parse_page payload;
  items ← decode_items (item_ctor r) raw;
  Ok (items, next).

(** [extends r r']: [r'] is [r] after some fetches: the items of [r] are
    the first items of [r'], the log of [r] is the beginning of the log of
    [r'], and nothing else differs but the cursor. *)
Definition extends r r' : Prop :=
  loaded_items r `prefix_of` loaded_items r' /\
  fetch_log r `prefix_of` fetch_log r' /\
  total r' = total r /\
  page_fetcher r' = page_fetcher r /\
  item_ctor r' = item_ctor r.

(** The remote listing seen from a cursor: the pages that the capability
    delivers, one after the other, until there is no cursor. *)
Inductive pages_from (fetcher : option Cursor -> res exn value)
    (ctor : value -> res exn T) : option Cursor -> list (list T) -> Prop :=
| pages_end : pages_from fetcher ctor None []
| pages_next c payload raw next items rest :
    fetcher (Some c) = Ok payload ->
    parse_page payload = Ok (raw, next) ->
    decode_items ctor raw = Ok items ->
    pages_from fetcher ctor next rest ->
    pages_from fetcher ctor (Some c) (items :: rest).

(** [remote r rest]: the pages not yet fetched are [rest]. *)
Definition remote r (rest : list (list T)) : Prop :=
  pages_from (page_fetcher r) (item_ctor r) (next_page_token r) rest.

(** [represents r all n]: the object stands for the listing [all], of
    which it has loaded a prefix and the rest is at most [n] pages away. *)
Definition represents r (all : list T) (n : nat) : Prop :=
  exists rest, remote r rest /\ loaded_items r ++ concat rest = all /\
               (length rest <= n)%nat.

(** The number of pages [get] fetches for the index [i]. *)
Fixpoint pages_needed (i : nat) (loaded : list T) (rest : list (list T)) : nat :=
  match loaded !! i, rest with
  | Some _, _ | None, [] => 0
  | None, p :: rest' => S (pages_needed i (loaded ++ p) rest')
  end.

End Operations.

End PagedResult.

(** The result object as the handlers use it: [results.total],
    [len(results)], [results[:stop]] and [list(results)].  The slice is
    the ordinary one of a sequence of [total] items (section 6 of the
    specification): it keeps [slice_stop total stop] items, so a [stop]
    beyond the total is clipped to it, and the items are brought by
    repeated [get], as those of [slice]. *)
Definition paged_slice_to {T} (fuel : nat) (stop : Z) :
    M PagedResult.perr (PagedResult.t T) (list T) :=
  r ← get_st;
  PagedResult.iterate_from fuel
    (slice_stop (Z.to_nat (PagedResult.total r)) stop) 0.

Definition paged_result_paged (fuel : nat) (T : Type) :
    Paged PagedResult.perr (PagedResult.t T) T := {|
  pg_total := PagedResult.total;
  pg_len := PagedResult.length_loaded;
  pg_getslice := paged_slice_to fuel;
  pg_list := PagedResult.iterate_all fuel;
|}.

(** ** Sources given by a table of pages

    The source of the examples of the specification: a first page and a
    table from cursors to pages.  A cursor that is not in the table is a
    page that cannot be fetched. *)

Definition page (items : list value) (next : option PagedResult.Cursor) : value :=
  VDict (("items"%string, VList items)
         :: from_option (fun c => [("next_page_token"%string, VStr c)]) [] next).

Definition first_page (n : Z) (items : list value)
    (next : option PagedResult.Cursor) : value :=
  VDict (("total"%string, VInt n) :: ("items"%string, VList items)
         :: from_option (fun c => [("next_page_token"%string, VStr c)]) [] next).

Definition table_fetcher (first : value) (pages : dict value) :
    option PagedResult.Cursor -> res exn value :=
  fun c => match c with
           | None => Ok first
           | Some c => from_option Ok (Raise RemoteFetchError) (dict_get c pages)
           end.

(** An item constructor: the items are integers. *)
Definition int_item (v : value) : res exn Z :=
  match v with VInt n => Ok n | _ => Raise DecodingError end.

(** Five items in pages of two, with the cursors
    [None -> "c1" -> "c2" -> None]. *)
Definition five_by_two : option PagedResult.Cursor -> res exn value :=
  table_fetcher (first_page 5 [VInt 0; VInt 1] (Some "c1"%string))
    [("c1"%string, page [VInt 2; VInt 3] (Some "c2"%string));
     ("c2"%string, page [VInt 4] None)].

(** The same source when the second page cannot be fetched. *)
Definition five_second_page_fails : option PagedResult.Cursor -> res exn value :=
  table_fetcher (first_page 5 [VInt 0; VInt 1] (Some "c1"%string)) [].

(** The same source with a malformed item in the second page. *)
Definition five_malformed_item : option PagedResult.Cursor -> res exn value :=
  table_fetcher (first_page 5 [VInt 0; VInt 1] (Some "c1"%string))
    [("c1"%string, page [VInt 2; VStr "three"] (Some "c2"%string));
     ("c2"%string, page [VInt 4] None)].

(** The object the query returns on such a source. *)
Definition five_loaded_two (fetcher : option PagedResult.Cursor -> res exn value) :
    PagedResult.t Z :=
  PagedResult.mk 5 [0; 1] (Some "c1"%string) fetcher int_item [None].

(** ** One fetch *)

Section Facts.
Import PagedResult.
Context {T : Type}.
Implicit Types (r : t T) (c : Cursor) (all : list T) (rest : list (list T)).

Lemma run_fetch_page c r :
  run (fetch_page c) r =
  match fetch_result r c with
  | Ok (items, next) => (Ok tt, append_page items next (log_fetch c r))
  | Raise e => (Raise (Exn e), log_fetch c r)
  end.
Proof.
  unfold fetch_page, fetch_result. run_step. simpl.
  destruct (page_fetcher r (Some c)) as [payload|e]; simpl; [|done].
  destruct (parse_page payload) as [[raw next]|e]; simpl; [|done].
  by destruct (decode_items (item_ctor r) raw) as [items|e].
Qed.

Lemma run_get_loaded fuel i r x :
  loaded_items r !! i = Some x -> run (get fuel i) r = (Ok x, r).
Proof. intros Hi. destruct fuel; simpl; by rewrite Hi. Qed.

Lemma run_get_exhausted fuel i r :
  loaded_items r !! i = None -> next_page_token r = None ->
  run (get fuel i) r = (Raise (Exn IndexOutOfRangeError), r).
Proof. intros Hi Hc. destruct fuel; simpl; by rewrite Hi, Hc. Qed.

Lemma run_get_no_fuel i r c :
  loaded_items r !! i = None -> next_page_token r = Some c ->
  run (get 0 i) r = (Raise OutOfFuel, r).
Proof. intros Hi Hc. simpl. by rewrite Hi, Hc. Qed.

Lemma run_get_fetch fuel i r c :
  loaded_items r !! i = None -> next_page_token r = Some c ->
  run (get (S fuel) i) r =
  match fetch_result r c with
  | Ok (items, next) => run (get fuel i) (append_page items next (log_fetch c r))
  | Raise e => (Raise (Exn e), log_fetch c r)
  end.
Proof.
  intros Hi Hc. cbn [get]. rewrite run_bind, run_get_st. cbv beta iota.
  rewrite Hi, Hc, run_bind, run_fetch_page.
  by destruct (fetch_result r c) as [[items next]|e].
Qed.

(** ** Nothing loaded is lost *)

#[export] Instance extends_preorder : PreOrder (@extends T).
Proof.
  split.
  - intros r. by repeat split.
  - intros r1 r2 r3 (?&?&?&?&?) (?&?&?&?&?). repeat split; try congruence;
      by etrans.
Qed.

Lemma extends_log_fetch c r : extends r (log_fetch c r).
Proof. repeat split; simpl; [done | by apply prefix_app_r]. Qed.

Lemma extends_append_page items next r : extends r (append_page items next r).
Proof. repeat split; simpl; [by apply prefix_app_r | done]. Qed.

Lemma extends_fetch_page c r : extends r (run (fetch_page c) r).2.
Proof.
  rewrite run_fetch_page.
  destruct (fetch_result r c) as [[items next]|e]; simpl;
    [etrans; [|apply extends_append_page]|]; apply extends_log_fetch.
Qed.

Lemma extends_get fuel i r : extends r (run (get fuel i) r).2.
Proof.
  revert r. induction fuel as [|fuel IH]; intros r.
  all: destruct (loaded_items r !! i) as [x|] eqn:Hi;
    [by rewrite (run_get_loaded _ _ _ x)|].
  all: destruct (next_page_token r) as [c|] eqn:Hc;
    [|by rewrite run_get_exhausted].
  - by rewrite (run_get_no_fuel _ _ c).
  - rewrite (run_get_fetch _ _ _ c) by done.
    destruct (fetch_result r c) as [[items next]|e]; simpl.
    + etrans; [|apply IH]. etrans; [apply extends_log_fetch|].
      apply extends_append_page.
    + apply extends_log_fetch.
Qed.

Lemma run_iterate_from_S fuel n pos r :
  run (iterate_from fuel (S n) pos) r =
  match run (get fuel pos) r with
  | (Ok x, r1) =>
      match run (iterate_from fuel n (S pos)) r1 with
      | (Ok xs, r2) => (Ok (x :: xs), r2)
      | (Raise e, r2) => (Raise e, r2)
      end
  | (Raise e, r1) => (Raise e, r1)
  end.
Proof.
  cbn [iterate_from]. rewrite run_bind.
  destruct (run (get fuel pos) r) as [[x|e] r1]; [|done].
  rewrite run_bind. by destruct (run (iterate_from fuel n (S pos)) r1) as [[xs|e] r2].
Qed.

Lemma extends_iterate_from fuel n pos r :
  extends r (run (iterate_from fuel n pos) r).2.
Proof.
  revert pos r. induction n as [|n IH]; intros pos r; [done|].
  rewrite run_iterate_from_S. pose proof (extends_get fuel pos r) as Hg.
  destruct (run (get fuel pos) r) as [[x|e] r1]; [|done].
  pose proof (IH (S pos) r1) as Hi.
  destruct (run (iterate_from fuel n (S pos)) r1) as [[xs|e] r2]; by etrans.
Qed.

(** ** The object and the listing it stands for *)

Lemma remote_inv r rest :
  remote r rest ->
  match next_page_token r with
  | None => rest = []
  | Some c => exists items next rest',
      rest = items :: rest' /\ fetch_result r c = Ok (items, next) /\
      pages_from (page_fetcher r) (item_ctor r) next rest'
  end.
Proof.
  unfold remote, fetch_result. intros H.
  inversion H as [|c p raw next items rest' Hf Hp Hd Hr]; [done|].
  exists items, next, rest'. rewrite Hf. simpl. rewrite Hp. simpl. by rewrite Hd.
Qed.

Lemma remote_append_page items next c r rest :
  pages_from (page_fetcher r) (item_ctor r) next rest ->
  remote (append_page items next (log_fetch c r)) rest.
Proof. done. Qed.

(** What [get] does on an object that stands for a listing: its result is
    the item of the listing, or [IndexOutOfRangeError] when the listing
    has no such item; it fetches [pages_needed] pages, no more. *)
Lemma get_spec fuel i r rest :
  remote r rest -> (length rest <= fuel)%nat ->
  let k := pages_needed i (loaded_items r) rest in
  exists r',
    run (get fuel i) r
    = (from_option Ok (Raise (Exn IndexOutOfRangeError))
         ((loaded_items r ++ concat rest) !! i), r') /\
    loaded_items r' = loaded_items r ++ concat (take k rest) /\
    remote r' (drop k rest) /\
    length (fetch_log r') = (length (fetch_log r) + k)%nat /\
    extends r r'.
Proof.
  revert fuel r. induction rest as [|p rest IH]; intros fuel r Hr Hfuel;
    pose proof (remote_inv _ _ Hr) as Hinv;
    destruct (loaded_items r !! i) as [x|] eqn:Hi; simpl; rewrite ?Hi.
  1,3: exists r; rewrite (run_get_loaded _ _ _ x), ?app_nil_r by done;
    rewrite ?(lookup_app_l_Some _ _ _ x) by done;
    split_and!; by rewrite ?Nat.add_0_r, ?Hi.
  - destruct (next_page_token r) eqn:Hc; [by destruct Hinv as (?&?&?&?&_)|].
    exists r. rewrite run_get_exhausted, !app_nil_r, Hi by done.
    by rewrite Nat.add_0_r.
  - destruct (next_page_token r) as [c|] eqn:Hc; [|done].
    destruct Hinv as (items & next & rest' & [= <- <-] & Hf & Hp).
    destruct fuel as [|fuel]; [simpl in Hfuel; lia|].
    rewrite (run_get_fetch _ _ _ c), Hf by done.
    destruct (IH fuel (append_page p next (log_fetch c r)))
      as (r' & Hrun & Hl & Hrem & Hlog & Hext);
      [done | simpl in Hfuel; lia |].
    exists r'. simpl in *. rewrite Hrun, Hl, Hlog, <- !app_assoc, length_app.
    split_and!; [done | done | done | simpl; lia |].
    etrans; [apply extends_log_fetch|]. etrans; [apply extends_append_page|done].
Qed.

Lemma pages_needed_lookup i (loaded : list T) rest x :
  (loaded ++ concat rest) !! i = Some x ->
  (loaded ++ concat (take (pages_needed i loaded rest) rest)) !! i = Some x.
Proof.
  revert loaded. induction rest as [|p rest IH]; intros loaded; cbn [pages_needed];
    destruct (loaded !! i) as [y|] eqn:Hi.
  - by rewrite take_0.
  - by rewrite take_0.
  - rewrite take_0. simpl. rewrite app_nil_r, (lookup_app_l_Some _ _ _ y) by done.
    by rewrite Hi.
  - cbn [take concat]. rewrite !app_assoc. apply IH.
Qed.

Lemma pages_needed_minimal i (loaded : list T) rest k :
  (k < pages_needed i loaded rest)%nat ->
  (loaded ++ concat (take k rest)) !! i = None.
Proof.
  revert loaded k. induction rest as [|p rest IH]; intros loaded k; simpl;
    destruct (loaded !! i) as [y|] eqn:Hi; try lia.
  destruct k as [|k]; simpl; [by rewrite app_nil_r|].
  intros Hk. rewrite app_assoc. apply IH. lia.
Qed.

Lemma represents_get fuel i r all :
  represents r all fuel ->
  exists r',
    run (get fuel i) r
    = (from_option Ok (Raise (Exn IndexOutOfRangeError)) (all !! i), r') /\
    represents r' all fuel /\ extends r r' /\
    (is_Some (all !! i) -> (i < length (loaded_items r'))%nat).
Proof.
  intros (rest & Hr & <- & Hn).
  destruct (get_spec fuel i r rest Hr Hn) as (r' & Hrun & Hl & Hrem & _ & Hext).
  exists r'. split_and!; [done| |done|].
  - exists (drop (pages_needed i (loaded_items r) rest) rest).
    split_and!; [done | | rewrite length_drop; lia].
    by rewrite Hl, <- app_assoc, <- concat_app, take_drop.
  - intros [x Hx]. rewrite Hl. by eapply lookup_lt_Some, pages_needed_lookup.
Qed.

Lemma represents_iterate_from fuel n pos r all :
  represents r all fuel -> (pos + n <= length all)%nat ->
  exists r',
    run (iterate_from fuel n pos) r = (Ok (take n (drop pos all)), r') /\
    represents r' all fuel /\ extends r r' /\
    (n = 0 \/ pos + n <= length (loaded_items r'))%nat.
Proof.
  revert pos r. induction n as [|n IH]; intros pos r Hr Hlen.
  { exists r. rewrite take_0. split_and!; [done..|by left]. }
  destruct (lookup_lt_is_Some_2 all pos) as [x Hx]; [lia|].
  destruct (represents_get fuel pos r all Hr) as (r1 & Hg & Hr1 & He1 & Hl1).
  destruct (IH (S pos) r1 Hr1) as (r2 & Hi & Hr2 & He2 & Hl2); [lia|].
  exists r2. rewrite run_iterate_from_S, Hg, Hx. simpl. rewrite Hi.
  split_and!; [|done|by etrans|right].
  - by rewrite (drop_S _ x pos Hx).
  - destruct Hl2 as [->|]; [|lia]. destruct He2 as [He2%prefix_length _].
    specialize (Hl1 (mk_is_Some _ _ Hx)). lia.
Qed.

(** The sequence stops with [IndexOutOfRangeError] where the listing
    stops, when it is asked for more items than the listing has. *)
Lemma represents_iterate_from_short fuel n pos r all :
  represents r all fuel -> (pos <= length all < pos + n)%nat ->
  exists r',
    run (iterate_from fuel n pos) r = (Raise (Exn IndexOutOfRangeError), r') /\
    represents r' all fuel /\ extends r r'.
Proof.
  revert pos r. induction n as [|n IH]; intros pos r Hr Hlen; [lia|].
  destruct (represents_get fuel pos r all Hr) as (r1 & Hg & Hr1 & He1 & _).
  rewrite run_iterate_from_S, Hg.
  destruct (all !! pos) as [x|] eqn:Hx; simpl; [|by exists r1].
  apply lookup_lt_Some in Hx.
  destruct (IH (S pos) r1 Hr1) as (r2 & Hi & Hr2 & He2); [lia|].
  exists r2. rewrite Hi. split_and!; [done | done | by etrans].
Qed.

Lemma run_slice_beyond_total fuel start stop r :
  total r < Z.of_nat stop ->
  run (slice fuel start stop) r = (Raise (Exn IndexOutOfRangeError), r).
Proof.
  intros Hs. unfold slice. run_step. simpl.
  by destruct (Z.ltb_spec (total r) (Z.of_nat stop)); [|lia].
Qed.

Lemma run_slice_within fuel start stop r :
  Z.of_nat stop <= total r ->
  run (slice fuel start stop) r = run (iterate_from fuel (stop - start) start) r.
Proof.
  intros Hs. unfold slice. run_step. simpl.
  by destruct (Z.ltb_spec (total r) (Z.of_nat stop)); [lia|].
Qed.

Lemma represents_slice fuel start stop r all :
  represents r all fuel -> total r = Z.of_nat (length all) ->
  (start <= stop <= length all)%nat ->
  exists r',
    run (slice fuel start stop) r = (Ok (take (stop - start) (drop start all)), r') /\
    represents r' all fuel /\ extends r r'.
Proof.
  intros Hr Ht Hs. rewrite run_slice_within by lia.
  destruct (represents_iterate_from fuel (stop - start) start r all Hr)
    as (r' & ? & ? & ? & _); [lia|]. by exists r'.
Qed.

Lemma represents_iterate_all fuel r all :
  represents r all fuel -> total r = Z.of_nat (length all) ->
  exists r',
    run (iterate_all fuel) r = (Ok all, r') /\
    represents r' all fuel /\ extends r r' /\ loaded_items r' = all.
Proof.
  intros Hr Ht. unfold iterate_all. run_step. cbv beta. rewrite Ht, Nat2Z.id.
  destruct (represents_iterate_from fuel (length all) 0 r all Hr)
    as (r' & Hrun & Hr' & He & Hl); [lia|].
  exists r'. rewrite Hrun, drop_0, firstn_all. split_and!; [done..|].
  destruct Hr' as (rest & _ & Hall & _).
  apply (f_equal length) in Hall as Hlen. rewrite length_app in Hlen.
  assert (concat rest = []) as Hnil.
  { apply length_zero_iff_nil. destruct Hl as [Hl|Hl]; lia. }
  by rewrite Hnil, app_nil_r in Hall.
Qed.

(** Slices of what is loaded make no fetch. *)
Lemma run_iterate_from_loaded fuel n pos r :
  (pos + n <= length (loaded_items r))%nat ->
  run (iterate_from fuel n pos) r = (Ok (take n (drop pos (loaded_items r))), r).
Proof.
  revert pos. induction n as [|n IH]; intros pos Hlen; [by rewrite take_0|].
  destruct (lookup_lt_is_Some_2 (loaded_items r) pos) as [x Hx]; [lia|].
  rewrite run_iterate_from_S, (run_get_loaded _ _ _ x), IH by (done || lia).
  by rewrite (drop_S _ x pos Hx).
Qed.

Lemma extends_slice fuel start stop r :
  extends r (run (slice fuel start stop) r).2.
Proof.
  destruct (Z.lt_ge_cases (total r) (Z.of_nat stop)).
  - by rewrite run_slice_beyond_total.
  - rewrite run_slice_within by lia. apply extends_iterate_from.
Qed.

Lemma extends_iterate_all fuel r : extends r (run (iterate_all fuel) r).2.
Proof. unfold iterate_all. run_step. apply extends_iterate_from. Qed.

Lemma run_paged_slice_to fuel stop r :
  run (paged_slice_to fuel stop) r
  = run (iterate_from fuel (slice_stop (Z.to_nat (total r)) stop) 0) r.
Proof. unfold paged_slice_to. by run_step. Qed.

Lemma run_paged_slice_to_within fuel stop r :
  0 <= stop <= total r ->
  run (paged_slice_to fuel stop) r = run (slice fuel 0 (Z.to_nat stop)) r.
Proof.
  intros Hs. rewrite run_paged_slice_to, run_slice_within by lia.
  rewrite slice_stop_nonneg by lia. do 2 f_equal. lia.
Qed.

Lemma extends_paged_slice_to fuel stop r :
  extends r (run (paged_slice_to fuel stop) r).2.
Proof. rewrite run_paged_slice_to. apply extends_iterate_from. Qed.

Lemma extends_pg_len r r' :
  extends r r' -> length_loaded r <= length_loaded r' /\ total r' = total r.
Proof.
  intros (Hl%prefix_length & _ & Ht & _). unfold length_loaded. split; [lia|done].
Qed.

Lemma represents_paged_slice_to fuel stop r all :
  represents r all fuel -> total r = Z.of_nat (length all) ->
  exists r',
    run (paged_slice_to fuel stop) r = (Ok (list_slice_to stop all), r') /\
    represents r' all fuel /\ extends r r'.
Proof.
  intros Hr Ht. rewrite run_paged_slice_to, Ht, Nat2Z.id.
  pose proof (slice_stop_le (length all) stop).
  destruct (represents_iterate_from fuel (slice_stop (length all) stop) 0 r all Hr)
    as (r' & Hrun & ? & ? & _); [lia|].
  exists r'. by rewrite Hrun, drop_0.
Qed.

End Facts.

(** ** The example of the specification *)

Lemma five_by_two_represents :
  PagedResult.represents (five_loaded_two five_by_two) [0; 1; 2; 3; 4] 2.
Proof.
  exists [[2; 3]; [4]]. split_and!; [|done|simpl; lia].
  repeat (eapply PagedResult.pages_next; [reflexivity..|]).
  apply PagedResult.pages_end.
Qed.

(** C10 (refinement): a paged result that stands for a listing is, for
    the handlers, the Python list of that listing: [results.total] is its
    length, [results[:stop]] is the slice of the list for every [stop]
    (beyond the total it is the whole list, a negative one counts from
    the end), and [list(results)] is the list; afterwards the object
    still stands for the listing. *)
Theorem paged_result_refines_list {T} (fuel : nat) (r : PagedResult.t T)
    (all : list T) (stop : Z) :
  PagedResult.represents r all fuel ->
  PagedResult.total r = Z.of_nat (length all) ->
  pg_total (Paged:=paged_result_paged fuel T) r = Z.of_nat (length all) /\
  (exists r',
     run (pg_getslice (Paged:=paged_result_paged fuel T) stop) r
     = (Ok (list_slice_to stop all), r') /\
     PagedResult.represents r' all fuel) /\
  (exists r',
     run (pg_list (Paged:=paged_result_paged fuel T)) r = (Ok all, r') /\
     PagedResult.represents r' all fuel /\
     pg_len (Paged:=paged_result_paged fuel T) r' = Z.of_nat (length all)).
Proof.
  intros Hr Ht. split_and!; [done | |].
  - destruct (represents_paged_slice_to fuel stop r all) as (r' & ? & ? & _);
      [done..|]. by exists r'.
  - destruct (represents_iterate_all fuel r all) as (r' & ? & ? & _ & Hl);
      [done..|]. exists r'. split_and!; [done..|].
    simpl. unfold PagedResult.length_loaded. by rewrite Hl.
Qed.

Lemma paged_result_refines_list_witness :
  exists r',
    run (pg_getslice (Paged:=paged_result_paged 2 Z) 3) (five_loaded_two five_by_two)
    = (Ok (list_slice_to 3 [0; 1; 2; 3; 4]), r') /\
    PagedResult.represents r' [0; 1; 2; 3; 4] 2.
Proof.
  exact (proj1 (proj2 (paged_result_refines_list 2 (five_loaded_two five_by_two)
                         [0; 1; 2; 3; 4] 3 five_by_two_represents eq_refl))).
Defined.

(** C11 (termination): on an object whose remaining pages are [rest], a
    [get] of an index of the listing returns the item with fuel for
    [length rest] fetches; it fetches [pages_needed] pages, which is the
    least number of pages that brings the index in, and [len(results)]
    grows by what these pages hold. *)
Theorem paged_get_returns {T} (fuel i : nat) (r : PagedResult.t T)
    (rest : list (list T)) (x : T) :
  PagedResult.remote r rest -> (length rest <= fuel)%nat ->
  (PagedResult.loaded_items r ++ concat rest) !! i = Some x ->
  let k := PagedResult.pages_needed i (PagedResult.loaded_items r) rest in
  exists r',
    run (PagedResult.get fuel i) r = (Ok x, r') /\
    PagedResult.loaded_items r'
    = PagedResult.loaded_items r ++ concat (take k rest) /\
    length (PagedResult.fetch_log r') = (length (PagedResult.fetch_log r) + k)%nat /\
    pg_len (Paged:=paged_result_paged fuel T) r
    <= pg_len (Paged:=paged_result_paged fuel T) r' /\
    forall j, (j < k)%nat ->
      (PagedResult.loaded_items r ++ concat (take j rest)) !! i = None.
Proof.
  intros Hr Hf Hx k.
  destruct (get_spec fuel i r rest Hr Hf) as (r' & Hrun & Hl & _ & Hlog & He).
  exists r'. rewrite Hrun, Hx. split_and!; [done..| |].
  - by apply extends_pg_len.
  - intros j Hj. by apply PagedResult.pages_needed_minimal.
Qed.

Lemma paged_get_returns_witness :
  exists r',
    run (PagedResult.get 2 4) (five_loaded_two five_by_two) = (Ok 4, r') /\
    PagedResult.loaded_items r' = [0; 1] ++ concat (take 2 [[2; 3]; [4]]) /\
    length (PagedResult.fetch_log r') = (1 + 2)%nat /\
    pg_len (Paged:=paged_result_paged 2 Z) (five_loaded_two five_by_two)
    <= pg_len (Paged:=paged_result_paged 2 Z) r' /\
    forall j, (j < 2)%nat -> ([0; 1] ++ concat (take j [[2; 3]; [4]])) !! 4%nat = None.
Proof.
  apply (paged_get_returns 2 4 (five_loaded_two five_by_two) [[2; 3]; [4]] 4);
    [|simpl; lia|done].
  repeat (eapply PagedResult.pages_next; [reflexivity..|]).
  apply PagedResult.pages_end.
Defined.

(** C19 (invariant): whatever an operation of the result object does and
    however it ends, what was loaded stays loaded, in the same order, the
    total does not change and the log of fetches only grows: so
    [len(results)] never decreases across [results[:stop]],
    [list(results)] and [get]. *)
Theorem paged_result_monotone {T} (fuel : nat) (r : PagedResult.t T)
    (stop : Z) (i : nat) :
  Forall (fun r' =>
            PagedResult.extends r r' /\
            pg_len (Paged:=paged_result_paged fuel T) r
            <= pg_len (Paged:=paged_result_paged fuel T) r' /\
            pg_total (Paged:=paged_result_paged fuel T) r'
            = pg_total (Paged:=paged_result_paged fuel T) r)
    [(run (pg_getslice (Paged:=paged_result_paged fuel T) stop) r).2;
     (run (pg_list (Paged:=paged_result_paged fuel T)) r).2;
     (run (PagedResult.get fuel i) r).2].
Proof.
  repeat apply Forall_cons_2; [..|apply Forall_nil_2];
    (split; [|apply extends_pg_len]).
  all: first [apply extends_paged_slice_to | apply extends_iterate_all
             | apply extends_get].
Qed.

(** C22 (error): on an object that stands for a listing of [total]
    items, a [get] of an index at or beyond the total fails with
    [IndexOutOfRangeError], however many pages are loaded, and the
    object still stands for the listing; [results[:stop]] with such a
    stop does not fail: it is clipped to the total and returns the whole
    listing. *)
Theorem paged_get_out_of_range {T} (fuel i : nat) (r : PagedResult.t T)
    (all : list T) :
  PagedResult.represents r all fuel ->
  PagedResult.total r = Z.of_nat (length all) ->
  PagedResult.total r <= Z.of_nat i ->
  (exists r',
     run (PagedResult.get fuel i) r
     = (Raise (PagedResult.Exn IndexOutOfRangeError), r') /\
     PagedResult.represents r' all fuel) /\
  (exists r',
     run (pg_getslice (Paged:=paged_result_paged fuel T) (Z.of_nat i)) r
     = (Ok all, r') /\
     PagedResult.represents r' all fuel).
Proof.
  intros Hr Ht Hi. split.
  - destruct (represents_get fuel i r all Hr) as (r' & Hrun & Hr' & _).
    exists r'. by rewrite Hrun, lookup_ge_None_2 by lia.
  - destruct (represents_paged_slice_to fuel (Z.of_nat i) r all)
      as (r' & Hrun & ? & _); [done..|].
    exists r'. cbn [pg_getslice paged_result_paged].
    by rewrite Hrun, list_slice_to_all by lia.
Qed.

Lemma paged_get_out_of_range_witness :
  (exists r',
     run (PagedResult.get 2 7) (five_loaded_two five_by_two)
     = (Raise (PagedResult.Exn IndexOutOfRangeError), r') /\
     PagedResult.represents r' [0; 1; 2; 3; 4] 2) /\
  (exists r',
     run (pg_getslice (Paged:=paged_result_paged 2 Z) (Z.of_nat 7))
       (five_loaded_two five_by_two)
     = (Ok [0; 1; 2; 3; 4], r') /\
     PagedResult.represents r' [0; 1; 2; 3; 4] 2).
Proof.
  refine (paged_get_out_of_range 2 7 (five_loaded_two five_by_two)
            [0; 1; 2; 3; 4] five_by_two_represents eq_refl _).
  simpl. lia.
Defined.

(** C21 (error): when the fetch that a [get] needs fails (the capability
    raises, the page is malformed or an item does not decode), the [get]
    raises that exception, unchanged; nothing of the page is appended,
    [len(results)] is what it was and the cursor still points at the
    page, so the fetch can be made again. *)
Theorem paged_fetch_failure {T} (fuel i : nat) (r : PagedResult.t T)
    (c : PagedResult.Cursor) (e : exn) :
  PagedResult.loaded_items r !! i = None ->
  PagedResult.next_page_token r = Some c ->
  PagedResult.fetch_result r c = Raise e ->
  exists r',
    run (PagedResult.get (S fuel) i) r = (Raise (PagedResult.Exn e), r') /\
    PagedResult.loaded_items r' = PagedResult.loaded_items r /\
    PagedResult.next_page_token r' = Some c /\
    PagedResult.fetch_log r' = PagedResult.fetch_log r ++ [Some c] /\
    pg_len (Paged:=paged_result_paged fuel T) r'
    = pg_len (Paged:=paged_result_paged fuel T) r.
Proof.
  intros Hi Hc He. exists (PagedResult.log_fetch c r).
  by rewrite (run_get_fetch _ _ _ c), He.
Qed.

Lemma paged_fetch_failure_witness :
  exists r',
    run (PagedResult.get 2 3) (five_loaded_two five_second_page_fails)
    = (Raise (PagedResult.Exn RemoteFetchError), r') /\
    PagedResult.loaded_items r' = [0; 1] /\
    PagedResult.next_page_token r' = Some "c1"%string /\
    PagedResult.fetch_log r' = [None] ++ [Some "c1"%string] /\
    pg_len (Paged:=paged_result_paged 1 Z) r' = 2.
Proof.
  by apply (paged_fetch_failure 1 3 (five_loaded_two five_second_page_fails)
              "c1"%string RemoteFetchError).
Defined.

(** C31 (functional): [list(results)] can be taken again: on an object
    that stands for a listing, the first iteration returns the listing
    and loads it, and a second iteration returns the same list without a
    fetch (the object does not change). *)
Theorem paged_iterate_restartable {T} (fuel : nat) (r : PagedResult.t T)
    (all : list T) :
  PagedResult.represents r all fuel ->
  PagedResult.total r = Z.of_nat (length all) ->
  exists r1,
    run (pg_list (Paged:=paged_result_paged fuel T)) r = (Ok all, r1) /\
    run (pg_list (Paged:=paged_result_paged fuel T)) r1 = (Ok all, r1) /\
    pg_len (Paged:=paged_result_paged fuel T) r1 = PagedResult.total r.
Proof.
  intros Hr Ht.
  destruct (represents_iterate_all fuel r all Hr Ht) as (r1 & Hrun & _ & He & Hl).
  exists r1. apply extends_pg_len in He as [_ Ht1].
  split_and!; [done | |].
  - cbn [pg_list paged_result_paged]. unfold PagedResult.iterate_all. run_step.
    cbv beta. rewrite run_iterate_from_loaded, Ht1, Ht, Hl, Nat2Z.id.
    + by rewrite drop_0, firstn_all.
    + rewrite Ht1, Ht, Hl, Nat2Z.id. lia.
  - simpl. unfold PagedResult.length_loaded. by rewrite Hl, Ht.
Qed.

Lemma paged_iterate_restartable_witness :
  exists r1,
    run (pg_list (Paged:=paged_result_paged 2 Z)) (five_loaded_two five_by_two)
    = (Ok [0; 1; 2; 3; 4], r1) /\
    run (pg_list (Paged:=paged_result_paged 2 Z)) r1 = (Ok [0; 1; 2; 3; 4], r1) /\
    pg_len (Paged:=paged_result_paged 2 Z) r1 = 5.
Proof.
  exact (paged_iterate_restartable 2 (five_loaded_two five_by_two) [0; 1; 2; 3; 4]
           five_by_two_represents eq_refl).
Defined.

(** The example of the specification: five items in
    pages of two.  The query loads the first page; [results[:5]] returns
    the five items in order after three fetches in all (the first page and
    the cursors "c1" and "c2"); a slice [results[:2]] afterwards makes no
    fetch. *)
Theorem paged_example_five_by_two :
  PagedResult.query int_item five_by_two = Ok (five_loaded_two five_by_two) /\
  exists r',
    run (pg_getslice (Paged:=paged_result_paged 2 Z) 5) (five_loaded_two five_by_two)
    = (Ok [0; 1; 2; 3; 4], r') /\
    PagedResult.fetch_log r' = [None; Some "c1"%string; Some "c2"%string] /\
    PagedResult.next_page_token r' = None /\
    run (pg_getslice (Paged:=paged_result_paged 2 Z) 2) r' = (Ok [0; 1], r').
Proof. split; [reflexivity|]. eexists. by split_and!; vm_compute. Qed.

(** The failures of the specification's examples: when the
    second page cannot be fetched, [get(3)] raises [RemoteFetchError] and
    two items stay loaded; when an item of the second page is malformed,
    [get(3)] raises [DecodingError] and nothing of that page is loaded,
    not even the item that precedes the malformed one. *)
Theorem paged_example_failures :
  (exists r',
     run (PagedResult.get 2 3) (five_loaded_two five_second_page_fails)
     = (Raise (PagedResult.Exn RemoteFetchError), r') /\
     pg_len (Paged:=paged_result_paged 2 Z) r' = 2) /\
  (exists r',
     run (PagedResult.get 2 3) (five_loaded_two five_malformed_item)
     = (Raise (PagedResult.Exn DecodingError), r') /\
     PagedResult.loaded_items r' = [0; 1] /\
     pg_len (Paged:=paged_result_paged 2 Z) r' = 2).
Proof. split; eexists; by split_and!; vm_compute. Qed.
