(* ===== verification/PagedSteps.v ===== *)
(** * The paged result as a transition system

    The specification gives the result object a lifecycle (section 3): it
    is created with the first page loaded and is "mutated only by internal
    page-fetch operations appending to [loaded_items] and advancing the
    cursor".  This file states that lifecycle as step relations and proves
    what the specification promises of it (section 5: for every index
    below the total, [get] eventually returns).

    - [paged_op] and [run_op] are the two operations the handlers apply
      to a result object, [results[:stop]] and [list(results)], on any
      implementation of the interface [Paged]; [paged_step] is one such
      operation, whatever its outcome, and the states a handler can leave
      a result object in are those reachable by [rtc paged_step].
    - [fetch_step] is one turn of the loop of [get]: one call of the fetch
      capability with the cursor of the object, successful or not.
    - Every operation is a sequence of fetches ([fetch_step_op]); a fetch
      on an object that stands for a listing brings one page of it in
      ([fetch_step_represents]), so the number of pages that remain is a
      variant: every sequence of fetches ends ([represents_sn], stated
      with [sn] of stdpp's relations) and where it ends the listing is
      loaded ([represents_nf]).
    - On the mock of the test suite an operation changes nothing but what
      the shared iterator has left ([mock_reachable]). *)

From Stdlib Require Import ZArith String List Lia.
From stdpp Require Import base tactics option list strings numbers relations.
From S2P Require Import Prelude PyDict PyValue Paged PagedResult.

Open Scope Z_scope.

Inductive paged_op : Type :=
| OpSlice (stop : Z)
| OpList.

Definition run_op `{Paged E R T} (o : paged_op) : M E R (list T) :=
  match o with
  | OpSlice stop => pg_getslice stop
  | OpList => pg_list
  end.

Inductive paged_step `{Paged E R T} : relation R :=
| paged_step_op o r : paged_step r (run (run_op o) r).2.

Section Steps.
Import PagedResult.
Context {T : Type}.
Implicit Types (r : t T) (c : Cursor) (all : list T) (rest : list (list T)).

Inductive fetch_step : relation (t T) :=
| fetch_step_page r c :
    next_page_token r = Some c -> fetch_step r (run (fetch_page c) r).2.

Lemma fetch_step_get fuel i r : rtc fetch_step r (run (get fuel i) r).2.
Proof.
  revert r. induction fuel as [|fuel IH]; intros r.
  all: destruct (loaded_items r !! i) as [x|] eqn:Hi;
    [by rewrite (run_get_loaded _ _ _ x)|].
  all: destruct (next_page_token r) as [c|] eqn:Hc;
    [|by rewrite run_get_exhausted].
  - by rewrite (run_get_no_fuel _ _ c).
  - pose proof (fetch_step_page r c Hc) as Hs. revert Hs.
    rewrite (run_get_fetch _ _ _ c), run_fetch_page by done.
    destruct (fetch_result r c) as [[items next]|e]; simpl; intros Hs.
    + eapply rtc_l; [exact Hs|apply IH].
    + by apply rtc_once.
Qed.

Lemma fetch_step_iterate_from fuel n pos r :
  rtc fetch_step r (run (iterate_from fuel n pos) r).2.
Proof.
  revert pos r. induction n as [|n IH]; intros pos r; [done|].
  rewrite run_iterate_from_S. pose proof (fetch_step_get fuel pos r) as Hg.
  destruct (run (get fuel pos) r) as [[x|e] r1]; [|done].
  pose proof (IH (S pos) r1) as Hi.
  destruct (run (iterate_from fuel n (S pos)) r1) as [[xs|e] r2]; by etrans.
Qed.

Lemma fetch_step_slice fuel start stop r :
  rtc fetch_step r (run (slice fuel start stop) r).2.
Proof.
  destruct (Z.lt_ge_cases (total r) (Z.of_nat stop)).
  - by rewrite run_slice_beyond_total.
  - rewrite run_slice_within by lia. apply fetch_step_iterate_from.
Qed.

Lemma fetch_step_op fuel o r :
  rtc fetch_step r (run (run_op (H:=paged_result_paged fuel T) o) r).2.
Proof.
  destruct o as [stop|]; cbn [run_op pg_getslice pg_list paged_result_paged].
  - rewrite run_paged_slice_to. apply fetch_step_iterate_from.
  - unfold iterate_all. run_step. apply fetch_step_iterate_from.
Qed.

Lemma paged_steps_fetch fuel r r' :
  rtc (paged_step (H:=paged_result_paged fuel T)) r r' -> rtc fetch_step r r'.
Proof.
  induction 1 as [|r1 r2 r3 [o r] _ IH]; [done|].
  etrans; [apply fetch_step_op|exact IH].
Qed.

Lemma represents_mono r all n m :
  (n <= m)%nat -> represents r all n -> represents r all m.
Proof. intros Hnm (rest & ? & ? & ?). exists rest. split_and!; [done..|lia]. Qed.

Lemma fetch_step_represents r r' all n :
  represents r all n -> fetch_step r r' ->
  exists m, n = S m /\ represents r' all m /\ extends r r'.
Proof.
  intros (rest & Hr & Hall & Hn) Hs. destruct Hs as [r c Hc].
  pose proof (remote_inv _ _ Hr) as Hinv. rewrite Hc in Hinv.
  destruct Hinv as (items & next & rest' & -> & Hf & Hp).
  destruct n as [|m]; [simpl in Hn; lia|]. exists m.
  split_and!; [done| |apply extends_fetch_page].
  rewrite run_fetch_page, Hf. exists rest'. simpl in *.
  split_and!; [done | by rewrite <- app_assoc | lia].
Qed.

Lemma nsteps_fetch_represents k r r' all n :
  represents r all n -> nsteps fetch_step k r r' ->
  (k <= n)%nat /\ represents r' all (n - k) /\ extends r r'.
Proof.
  intros Hr Hs. revert n Hr. induction Hs as [r|k r1 r2 r3 H12 _ IH]; intros n Hr.
  { by rewrite Nat.sub_0_r; split_and!; [lia|..]. }
  destruct (fetch_step_represents _ _ _ _ Hr H12) as (m & -> & Hr2 & He).
  destruct (IH m Hr2) as (? & ? & ?). split_and!; [lia | done | by etrans].
Qed.

Lemma rtc_fetch_represents r r' all n :
  represents r all n -> rtc fetch_step r r' ->
  represents r' all n /\ extends r r'.
Proof.
  intros Hr (k & Hk)%rtc_nsteps.
  destruct (nsteps_fetch_represents k r r' all n Hr Hk) as (? & ? & ?).
  split; [|done]. eapply represents_mono; [|done]. lia.
Qed.

Lemma represents_sn r all n : represents r all n -> sn fetch_step r.
Proof.
  revert r. induction n as [|n IH]; intros r Hr; constructor; intros r' Hs;
    destruct (fetch_step_represents _ _ _ _ Hr Hs) as (m & [= ->] & Hr' & _).
  by apply IH.
Qed.

Lemma represents_nf r all n :
  represents r all n -> nf fetch_step r ->
  next_page_token r = None /\ loaded_items r = all.
Proof.
  intros (rest & Hr & Hall & _) Hnf.
  destruct (next_page_token r) as [c|] eqn:Hc.
  { destruct Hnf. eexists. by apply (fetch_step_page r c). }
  pose proof (remote_inv _ _ Hr) as Hinv. rewrite Hc in Hinv. subst rest.
  by rewrite app_nil_r in Hall.
Qed.

Lemma represents_prefix r all n : represents r all n -> loaded_items r `prefix_of` all.
Proof. intros (rest & _ & <- & _). by apply prefix_app_r. Qed.

Lemma represents_get_loaded fuel i r all x :
  represents r all fuel -> all !! i = Some x ->
  exists r', run (get fuel i) r = (Ok x, r') /\ rtc fetch_step r r' /\
             loaded_items r' !! i = Some x.
Proof.
  intros Hr Hx. pose proof (fetch_step_get fuel i r) as Hs.
  destruct (represents_get fuel i r all Hr) as (r' & Hrun & Hr' & _ & Hl).
  rewrite Hrun in Hs. exists r'. rewrite Hrun, Hx. split_and!; [done..|].
  destruct (lookup_lt_is_Some_2 (loaded_items r') i) as [y Hy]; [by apply Hl|].
  rewrite Hy. f_equal. apply represents_prefix in Hr'.
  pose proof (prefix_lookup_Some _ _ _ _ Hy Hr'). congruence.
Qed.

End Steps.

(** ** The mock under the operations *)

Lemma mock_reachable {E T} (r r' : MockPaginated T) :
  rtc (paged_step (H:=mock_paged (E:=E))) r r' ->
  mp_items r' = mp_items r /\ mp_total r' = mp_total r /\
  (mp_iter r' = mp_iter r \/ mp_iter r' = []).
Proof.
  induction 1 as [r|r1 r2 r3 [o r] _ (Hi & Ht & Hit)]; [by split_and!; [..|left]|].
  destruct o; simpl in *; rewrite Hi, Ht; destruct Hit as [->| ->]; auto.
Qed.

(** ** Every item is eventually loaded *)

(** C20 (liveness): on an object that stands for a listing, in whatever
    state slices and iterations have left it: the object was changed by
    fetches only; every sequence of fetches from there ends, after no
    more fetches than pages remained; where no fetch is possible the
    whole listing is loaded; and [get] of an index of the listing returns
    its item, loaded by then. *)
Theorem paged_eventually_loaded {T} (fuel : nat) (r r' : PagedResult.t T)
    (all : list T) :
  PagedResult.represents r all fuel ->
  rtc (paged_step (H:=paged_result_paged fuel T)) r r' ->
  rtc fetch_step r r' /\
  sn fetch_step r' /\
  (forall k r2, nsteps fetch_step k r' r2 -> (k <= fuel)%nat) /\
  (forall r2, rtc fetch_step r' r2 -> nf fetch_step r2 ->
     PagedResult.loaded_items r2 = all) /\
  (forall i x, all !! i = Some x ->
     exists r2, run (PagedResult.get fuel i) r' = (Ok x, r2) /\
                rtc fetch_step r' r2 /\
                PagedResult.loaded_items r2 !! i = Some x).
Proof.
  intros Hr Hops. pose proof (paged_steps_fetch _ _ _ Hops) as Hf.
  destruct (rtc_fetch_represents _ _ _ _ Hr Hf) as [Hr' _]. split_and!.
  - done.
  - by eapply represents_sn.
  - intros k r2 Hk. by destruct (nsteps_fetch_represents k r' r2 all fuel Hr' Hk).
  - intros r2 H2 Hnf. destruct (rtc_fetch_represents _ _ _ _ Hr' H2) as [Hr2 _].
    by destruct (represents_nf _ _ _ Hr2 Hnf).
  - intros i x Hx. by apply (represents_get_loaded fuel i r' all x).
Qed.

Lemma paged_eventually_loaded_witness :
  sn fetch_step (run (run_op (H:=paged_result_paged 2 Z) (OpSlice 3))
                   (five_loaded_two five_by_two)).2.
Proof.
  refine (proj1 (proj2 (paged_eventually_loaded 2 (five_loaded_two five_by_two) _
                          [0; 1; 2; 3; 4] five_by_two_represents _))).
  apply rtc_once, paged_step_op.
Defined.
