(* ===== verification/Fixtures.v ===== *)
(** * The fixtures of the test suite

    [_make_paper] and [_make_author] of [tests/test_mcp_server.py] build an
    object from default attributes that keyword arguments override.  The
    model has the default object and one function per override the tests
    use.  The mock result object [_make_paginated] is in [Paged.v], the
    mocked client in [Tools.v]. *)

From Stdlib Require Import ZArith String List.
From stdpp Require Import base tactics option list strings numbers.
From S2P Require Import Prelude PyDict PyValue Helpers Dto Paged.

Open Scope Z_scope.

Definition _make_paper : Paper.t :=
  Paper.mk (Some "abc123") (Some "Test Paper")
    (Some "This is a test abstract.") (Some 2023) (Some 42)
    (Some "https://example.com/paper")
    (Some [Author.mk (Some "auth1") (Some "Author One") None None None None None])
    (Some [("DOI", VStr "10.1234/test")]) (Some "TestConf")
    (Some (mk_datetime 2023 1 15 0 0 0 0))
    (Some [("url", VStr "https://example.com/pdf")])
    (Some (Tldr.mk (Some "A short summary."))).

Definition _make_author : Author.t :=
  Author.mk (Some "auth1") (Some "Author One")
    (Some "https://example.com/author") (Some 50) (Some 1000) (Some 20)
    (Some ["Test University"]).

(** [_make_paper(paperId=..., title=...)] *)
Definition _make_paper_with (paperId title : option string) : Paper.t :=
  let p := _make_paper in
  Paper.mk paperId title (Paper.abstract p) (Paper.year p)
    (Paper.citationCount p) (Paper.url p) (Paper.authors p)
    (Paper.externalIds p) (Paper.venue p) (Paper.publicationDate p)
    (Paper.openAccessPdf p) (Paper.tldr p).

(** [_make_paper(abstract=...)] *)
Definition _make_paper_abstract (abstract : option string) : Paper.t :=
  let p := _make_paper in
  Paper.mk (Paper.paperId p) (Paper.title p) abstract (Paper.year p)
    (Paper.citationCount p) (Paper.url p) (Paper.authors p)
    (Paper.externalIds p) (Paper.venue p) (Paper.publicationDate p)
    (Paper.openAccessPdf p) (Paper.tldr p).

(** [_make_paper(abstract=None, authors=None, externalIds=None, venue=None,
    publicationDate=None, openAccessPdf=None, tldr=None)] *)
Definition _make_paper_nulls : Paper.t :=
  let p := _make_paper in
  Paper.mk (Paper.paperId p) (Paper.title p) None (Paper.year p)
    (Paper.citationCount p) (Paper.url p) None None None None None None.

(** [_make_author(authorId=...)] *)
Definition _make_author_with (authorId : option string) : Author.t :=
  let a := _make_author in
  Author.mk authorId (Author.name a) (Author.url a) (Author.paperCount a)
    (Author.citationCount a) (Author.hIndex a) (Author.affiliations a).

(** [_make_author(url=None, paperCount=None, citationCount=None,
    hIndex=None, affiliations=None)] *)
Definition _make_author_nulls : Author.t :=
  let a := _make_author in
  Author.mk (Author.authorId a) (Author.name a) None None None None None.

(** ["x" * n] *)
Fixpoint str_repeat (c : Ascii.ascii) (n : nat) : string :=
  match n with
  | O => EmptyString
  | S n' => String c (str_repeat c n')
  end.

Lemma str_repeat_length c n : String.length (str_repeat c n) = n.
Proof. induction n; simpl; congruence. Qed.
