(* ===== verification/Tools.v ===== *)
(** * The tool handlers of [mcp_server.py]

    Every handler is one call of a method of the client [_sch], followed
    by the consumption of what the call returned and by [json.dumps] of a
    dictionary.  A handler is a computation [M E W string]:

    - [W] is the state of the client (the network for the real client, the
      record of calls for the mocked client of the test suite);
    - [E] is the type of exceptions; a handler catches nothing;
    - the client is the class [Client]; its listing methods return result
      objects of type [R T], used through the interface [Paged] of
      [Paged.v]; [search_snippet] and [get_recommended_papers] return
      values of type [L T], of which the handlers use the iteration and
      the slice (the interface [Listing]); the test suite returns Python
      lists there;
    - [json.dumps(_, indent=2)] is the parameter [dumps].

    The parameters of a handler are those of the Python function, in its
    order; the defaults of the signature are the constants
    [default_limit_10] and [default_limit_20].

    [MockSch] is the client the test suite installs with
    [mock.patch("semanticscholar.mcp_server._sch")]: every method returns
    its configured [return_value] and records its arguments. *)

From Stdlib Require Import ZArith String Ascii List.
From stdpp Require Import base tactics option list strings numbers.
From S2P Require Import Prelude PyDict PyValue Helpers Dto Paged Fixtures.

Open Scope Z_scope.

(** The keyword arguments of [search_paper] and [search_snippet]. *)
Record SearchArgs : Type := mk_search {
  sa_query : string;
  sa_year : option string;
  sa_fields_of_study : option (list string);
  sa_publication_date_or_year : option string;
  sa_min_citation_count : option Z;
  sa_limit : Z;
}.

Class Client (E W : Type) (R L : Type -> Type) : Type := {
  sch_search_paper : SearchArgs -> M E W (R Paper.t);
  sch_get_paper : string -> M E W Paper.t;
  sch_get_paper_citations : string -> list string -> Z -> M E W (R Citation.t);
  sch_get_paper_references : string -> list string -> Z -> M E W (R Reference.t);
  sch_search_snippet : SearchArgs -> M E W (L SnippetSearchResult.t);
  sch_search_author : string -> Z -> M E W (R Author.t);
  sch_get_author : string -> M E W Author.t;
  sch_get_author_papers : string -> Z -> M E W (R Paper.t);
  sch_get_recommended_papers : string -> Z -> M E W (L Paper.t);
}.

Definition default_limit_10 : Z := 10.
Definition default_limit_20 : Z := 20.

(** [fields_of_study.split(",") if fields_of_study else None] *)
Definition split_fields (fields_of_study : option string) : option (list string) :=
  match fields_of_study with
  | Some s => if truthy s then Some (str_split ","%char s) else None
  | None => None
  end.

(** The keyword arguments [search_papers] passes to [search_paper]. *)
Definition search_papers_args (query : string) (year fields_of_study
    publication_date_or_year : option string) (min_citation_count : option Z)
    (limit : Z) : SearchArgs :=
  mk_search query year (split_fields fields_of_study) publication_date_or_year
    min_citation_count (Z.min limit 100).

(** [{"paperId": p.paperId, "title": p.title}] *)
Definition paper_ref (p : Paper.t) : value :=
  VDict [("paperId", to_value (Paper.paperId p));
         ("title", to_value (Paper.title p))].

(** The body of the loop of [search_snippets]: the dictionary of one
    result. *)
Definition snippet_item (r : SnippetSearchResult.t) : dict value :=
  let item := [("score", SnippetSearchResult.score r)] in
  let item := when_truthy (SnippetSearchResult.paper r)
                (fun p => dict_set "paper"
                   (VDict [("paperId", to_value (Paper.paperId p));
                           ("title", to_value (Paper.title p));
                           ("year", to_value (Paper.year p))])) item in
  let item := when_truthy (SnippetSearchResult.snippet r)
                (fun s => dict_set "snippet"
                   (VDict [("text", Snippet.text s);
                           ("kind", Snippet.snippetKind s);
                           ("section", Snippet.section s)])) item in
  item.

Section Handlers.
Context {E W : Type} {R L : Type -> Type}.
Context {HC : Client E W R L}.
Context {HP : forall T, Paged E (R T) T} {HL : forall T, Listing E (L T) T}.
Context (dumps : value -> string).

Definition search_papers (query : string) (year : option string)
    (fields_of_study : option string)
    (publication_date_or_year : option string)
    (min_citation_count : option Z) (limit : Z) : M E W string :=
  let fos := split_fields fields_of_study in
  results ← sch_search_paper
              (mk_search query year fos publication_date_or_year
                 min_citation_count (Z.min limit 100));
  '(page, results) ← on_obj (pg_getslice limit) results;
  let papers := _paper_to_dict <$> page in
  mret (dumps (VDict [("total", VInt (pg_total results));
                      ("papers", VList (VDict <$> papers))])).

Definition get_paper (paper_id : string) : M E W string :=
  paper ← sch_get_paper paper_id;
  mret (dumps (VDict (_paper_to_dict paper))).

Definition get_paper_citations (paper_id : string) (limit : Z) : M E W string :=
  results ← sch_get_paper_citations paper_id ["title"%string] (Z.min limit 1000);
  let citations := [] in
  '(all, results) ← on_obj pg_list results;
  let citations :=
    fold_left (fun citations item =>
                 when_truthy (Citation.paper item)
                   (fun p citations => citations ++ [paper_ref p]) citations)
      (list_slice_to limit all) citations in
  mret (dumps (VDict [("total", VInt (pg_len results));
                      ("citations", VList citations)])).

Definition get_paper_references (paper_id : string) (limit : Z) : M E W string :=
  results ← sch_get_paper_references paper_id ["title"%string] (Z.min limit 1000);
  let references := [] in
  '(all, results) ← on_obj pg_list results;
  let references :=
    fold_left (fun references item =>
                 when_truthy (Reference.paper item)
                   (fun p references => references ++ [paper_ref p]) references)
      (list_slice_to limit all) references in
  mret (dumps (VDict [("total", VInt (pg_len results));
                      ("references", VList references)])).

Definition search_snippets (query : string) (year : option string)
    (fields_of_study : option string)
    (publication_date_or_year : option string)
    (min_citation_count : option Z) (limit : Z) : M E W string :=
  let fos := split_fields fields_of_study in
  results ← sch_search_snippet
              (mk_search query year fos publication_date_or_year
                 min_citation_count (Z.min limit 1000));
  let items := [] in
  '(all, results) ← on_obj ls_iter results;
  let items :=
    fold_left (fun items r => items ++ [VDict (snippet_item r)]) all items in
  mret (dumps (VDict [("results", VList items)])).

Definition search_authors (query : string) (limit : Z) : M E W string :=
  results ← sch_search_author query (Z.min limit 1000);
  '(all, results) ← on_obj pg_list results;
  let authors := _author_to_dict <$> list_slice_to limit all in
  mret (dumps (VDict [("total", VInt (pg_total results));
                      ("authors", VList (VDict <$> authors))])).

Definition get_author (author_id : string) : M E W string :=
  author ← sch_get_author author_id;
  mret (dumps (VDict (_author_to_dict author))).

Definition get_author_papers (author_id : string) (limit : Z) : M E W string :=
  results ← sch_get_author_papers author_id (Z.min limit 1000);
  '(all, results) ← on_obj pg_list results;
  let papers := _paper_to_dict <$> list_slice_to limit all in
  mret (dumps (VDict [("total", VInt (pg_len results));
                      ("papers", VList (VDict <$> papers))])).

Definition get_recommendations (paper_id : string) (limit : Z) : M E W string :=
  results ← sch_get_recommended_papers paper_id (Z.min limit 500);
  '(page, results) ← on_obj (ls_getslice limit) results;
  let papers := _paper_to_dict <$> page in
  mret (dumps (VDict [("papers", VList (VDict <$> papers))])).

End Handlers.

(** ** The mocked client of the test suite *)

Inductive Call : Type :=
| Call_search_paper (args : SearchArgs)
| Call_get_paper (paper_id : string)
| Call_get_paper_citations (paper_id : string) (fields : list string) (limit : Z)
| Call_get_paper_references (paper_id : string) (fields : list string) (limit : Z)
| Call_search_snippet (args : SearchArgs)
| Call_search_author (query : string) (limit : Z)
| Call_get_author (author_id : string)
| Call_get_author_papers (author_id : string) (limit : Z)
| Call_get_recommended_papers (paper_id : string) (limit : Z).

(** The [return_value] of each method. *)
Record MockSch : Type := mk_mock_sch {
  rv_search_paper : MockPaginated Paper.t;
  rv_get_paper : Paper.t;
  rv_get_paper_citations : MockPaginated Citation.t;
  rv_get_paper_references : MockPaginated Reference.t;
  rv_search_snippet : list SnippetSearchResult.t;
  rv_search_author : MockPaginated Author.t;
  rv_get_author : Author.t;
  rv_get_author_papers : MockPaginated Paper.t;
  rv_get_recommended_papers : list Paper.t;
}.

(** A mocked method: record the call, return the configured value. *)
Definition mock_call {E A} (c : Call) (rv : A) : M E (list Call) A :=
  modify_st (fun calls => calls ++ [c]);; mret rv.

Definition mock_client {E} (m : MockSch) :
    Client E (list Call) MockPaginated list := {|
  sch_search_paper args := mock_call (Call_search_paper args) (rv_search_paper m);
  sch_get_paper id := mock_call (Call_get_paper id) (rv_get_paper m);
  sch_get_paper_citations id fields limit :=
    mock_call (Call_get_paper_citations id fields limit) (rv_get_paper_citations m);
  sch_get_paper_references id fields limit :=
    mock_call (Call_get_paper_references id fields limit)
      (rv_get_paper_references m);
  sch_search_snippet args :=
    mock_call (Call_search_snippet args) (rv_search_snippet m);
  sch_search_author q limit :=
    mock_call (Call_search_author q limit) (rv_search_author m);
  sch_get_author id := mock_call (Call_get_author id) (rv_get_author m);
  sch_get_author_papers id limit :=
    mock_call (Call_get_author_papers id limit) (rv_get_author_papers m);
  sch_get_recommended_papers id limit :=
    mock_call (Call_get_recommended_papers id limit)
      (rv_get_recommended_papers m);
|}.

(** A mocked client none of whose methods has items to return. *)
Definition empty_mock : MockSch :=
  let none_paper := Paper.mk None None None None None None None None None None
                      None None in
  let none_author := Author.mk None None None None None None None in
  mk_mock_sch (_make_paginated [] None) none_paper (_make_paginated [] None)
    (_make_paginated [] None) [] (_make_paginated [] None) none_author
    (_make_paginated [] None) [].

(** [mock_sch.method.return_value = rv], for each method. *)
Definition set_rv_search_paper (rv : MockPaginated Paper.t) (m : MockSch) :=
  mk_mock_sch rv (rv_get_paper m) (rv_get_paper_citations m)
    (rv_get_paper_references m) (rv_search_snippet m) (rv_search_author m)
    (rv_get_author m) (rv_get_author_papers m) (rv_get_recommended_papers m).
Definition set_rv_get_paper (rv : Paper.t) (m : MockSch) :=
  mk_mock_sch (rv_search_paper m) rv (rv_get_paper_citations m)
    (rv_get_paper_references m) (rv_search_snippet m) (rv_search_author m)
    (rv_get_author m) (rv_get_author_papers m) (rv_get_recommended_papers m).
Definition set_rv_get_paper_citations (rv : MockPaginated Citation.t)
    (m : MockSch) :=
  mk_mock_sch (rv_search_paper m) (rv_get_paper m) rv
    (rv_get_paper_references m) (rv_search_snippet m) (rv_search_author m)
    (rv_get_author m) (rv_get_author_papers m) (rv_get_recommended_papers m).
Definition set_rv_get_paper_references (rv : MockPaginated Reference.t)
    (m : MockSch) :=
  mk_mock_sch (rv_search_paper m) (rv_get_paper m) (rv_get_paper_citations m)
    rv (rv_search_snippet m) (rv_search_author m)
    (rv_get_author m) (rv_get_author_papers m) (rv_get_recommended_papers m).
Definition set_rv_search_snippet (rv : list SnippetSearchResult.t)
    (m : MockSch) :=
  mk_mock_sch (rv_search_paper m) (rv_get_paper m) (rv_get_paper_citations m)
    (rv_get_paper_references m) rv (rv_search_author m)
    (rv_get_author m) (rv_get_author_papers m) (rv_get_recommended_papers m).
Definition set_rv_search_author (rv : MockPaginated Author.t) (m : MockSch) :=
  mk_mock_sch (rv_search_paper m) (rv_get_paper m) (rv_get_paper_citations m)
    (rv_get_paper_references m) (rv_search_snippet m) rv
    (rv_get_author m) (rv_get_author_papers m) (rv_get_recommended_papers m).
Definition set_rv_get_author (rv : Author.t) (m : MockSch) :=
  mk_mock_sch (rv_search_paper m) (rv_get_paper m) (rv_get_paper_citations m)
    (rv_get_paper_references m) (rv_search_snippet m) (rv_search_author m)
    rv (rv_get_author_papers m) (rv_get_recommended_papers m).
Definition set_rv_get_author_papers (rv : MockPaginated Paper.t) (m : MockSch) :=
  mk_mock_sch (rv_search_paper m) (rv_get_paper m) (rv_get_paper_citations m)
    (rv_get_paper_references m) (rv_search_snippet m) (rv_search_author m)
    (rv_get_author m) rv (rv_get_recommended_papers m).
Definition set_rv_get_recommended_papers (rv : list Paper.t) (m : MockSch) :=
  mk_mock_sch (rv_search_paper m) (rv_get_paper m) (rv_get_paper_citations m)
    (rv_get_paper_references m) (rv_search_snippet m) (rv_search_author m)
    (rv_get_author m) (rv_get_author_papers m) rv.

(** The mocked client of [TestGetPaperCitations.test_null_paper_skipped]:
    [get_paper_citations] returns an item without a paper and an item with
    one. *)
Definition mock_two_citations : MockSch :=
  set_rv_get_paper_citations
    (_make_paginated
       [Citation.mk None;
        Citation.mk (Some (_make_paper_with (Some "valid") (Some "Test Paper")))]
       None)
    empty_mock.

(** A mocked client whose [search_paper] returns three papers of a total
    of fifty, whose snippet search returns two results and whose
    recommendations are two papers. *)
Definition mock_three_papers : MockSch :=
  set_rv_search_paper
    (_make_paginated
       [_make_paper_with (Some "p1") (Some "One");
        _make_paper_with (Some "p2") (Some "Two");
        _make_paper_with (Some "p3") (Some "Three")] (Some 50))
    (set_rv_search_snippet
       [SnippetSearchResult.mk VNone None None (VInt 1);
        SnippetSearchResult.mk VNone None None (VInt 2)]
       (set_rv_get_recommended_papers
          [_make_paper_with (Some "r1") (Some "One");
           _make_paper_with (Some "r2") (Some "Two")]
          empty_mock)).

(** A serialiser for the concrete runs below; the theorems hold for every
    [dumps]. *)
Definition dumps_keys (v : value) : string :=
  match v with
  | VDict d => String.concat "," (dict_keys d)
  | _ => EmptyString
  end.

(** ** Lemmas shared by the handlers *)

Lemma split_fields_None : split_fields None = None.
Proof. reflexivity. Qed.

Lemma split_fields_empty : split_fields (Some ""%string) = None.
Proof. reflexivity. Qed.

Lemma split_fields_Some (s : string) (l : list string) :
  split_fields (Some s) = Some l ->
  s <> ""%string /\ l = str_split ","%char s /\ str_join ","%char l = s.
Proof.
  unfold split_fields. destruct s as [|c s]; [done|].
  intros [= <-]. split_and!; [done | done | apply (str_join_split _ (String c s))].
Qed.

Lemma collect_papers_omap {A} (paper_of : A -> option Paper.t) (items : list A)
    (acc : list value) :
  fold_left (fun acc item =>
               when_truthy (paper_of item) (fun p acc => acc ++ [paper_ref p]) acc)
    items acc
  = acc ++ omap (fun item => paper_ref <$> paper_of item) items.
Proof.
  rewrite <- fold_left_append_omap. revert acc.
  induction items as [|x xs IH]; intros acc; simpl; [done|].
  rewrite IH. by destruct (paper_of x).
Qed.

Section HandlerFacts.
Context {E W : Type} {R L : Type -> Type}.
Context {HC : Client E W R L}.
Context {HP : forall T, Paged E (R T) T} {HL : forall T, Listing E (L T) T}.
Context (dumps : value -> string).

Lemma run_search_papers query year fos pdy mcc limit (w : W) :
  run (search_papers dumps query year fos pdy mcc limit) w =
  match run (sch_search_paper (search_papers_args query year fos pdy mcc limit)) w with
  | (Raise e, w') => (Raise e, w')
  | (Ok results, w') =>
      match run (pg_getslice limit) results with
      | (Raise e, _) => (Raise e, w')
      | (Ok page, results') =>
          (Ok (dumps (VDict [("total", VInt (pg_total results'));
                             ("papers", VList (VDict <$> (_paper_to_dict <$> page)))])),
           w')
      end
  end.
Proof.
  unfold search_papers, search_papers_args. rewrite run_bind.
  destruct (run (sch_search_paper _) w) as [[results|e] w']; [|done].
  rewrite run_bind_on_obj. by destruct (run (pg_getslice limit) results) as [[page|e] r'].
Qed.

Lemma run_get_paper_citations paper_id limit (w : W) :
  run (get_paper_citations dumps paper_id limit) w =
  match run (sch_get_paper_citations paper_id ["title"%string] (Z.min limit 1000)) w with
  | (Raise e, w') => (Raise e, w')
  | (Ok results, w') =>
      match run pg_list results with
      | (Raise e, _) => (Raise e, w')
      | (Ok all, results') =>
          (Ok (dumps (VDict
                 [("total", VInt (pg_len results'));
                  ("citations",
                   VList (omap (fun item => paper_ref <$> Citation.paper item)
                            (list_slice_to limit all)))])),
           w')
      end
  end.
Proof.
  unfold get_paper_citations. rewrite run_bind.
  destruct (run (sch_get_paper_citations _ _ _) w) as [[results|e] w']; [|done].
  rewrite run_bind_on_obj. destruct (run pg_list results) as [[all|e] r']; [|done].
  simpl. by rewrite collect_papers_omap.
Qed.

Lemma run_get_paper_references paper_id limit (w : W) :
  run (get_paper_references dumps paper_id limit) w =
  match run (sch_get_paper_references paper_id ["title"%string] (Z.min limit 1000)) w with
  | (Raise e, w') => (Raise e, w')
  | (Ok results, w') =>
      match run pg_list results with
      | (Raise e, _) => (Raise e, w')
      | (Ok all, results') =>
          (Ok (dumps (VDict
                 [("total", VInt (pg_len results'));
                  ("references",
                   VList (omap (fun item => paper_ref <$> Reference.paper item)
                            (list_slice_to limit all)))])),
           w')
      end
  end.
Proof.
  unfold get_paper_references. rewrite run_bind.
  destruct (run (sch_get_paper_references _ _ _) w) as [[results|e] w']; [|done].
  rewrite run_bind_on_obj. destruct (run pg_list results) as [[all|e] r']; [|done].
  simpl. by rewrite collect_papers_omap.
Qed.

Lemma run_search_snippets query year fos pdy mcc limit (w : W) :
  run (search_snippets dumps query year fos pdy mcc limit) w =
  match run (sch_search_snippet
               (mk_search query year (split_fields fos) pdy mcc (Z.min limit 1000))) w with
  | (Raise e, w') => (Raise e, w')
  | (Ok results, w') =>
      match run ls_iter results with
      | (Raise e, _) => (Raise e, w')
      | (Ok all, _) =>
          (Ok (dumps (VDict [("results",
                              VList ((fun r => VDict (snippet_item r)) <$> all))])),
           w')
      end
  end.
Proof.
  unfold search_snippets. rewrite run_bind.
  destruct (run (sch_search_snippet _) w) as [[results|e] w']; [|done].
  rewrite run_bind_on_obj. destruct (run ls_iter results) as [[all|e] r']; [|done].
  simpl. by rewrite fold_left_append_fmap.
Qed.

Lemma run_search_authors query limit (w : W) :
  run (search_authors dumps query limit) w =
  match run (sch_search_author query (Z.min limit 1000)) w with
  | (Raise e, w') => (Raise e, w')
  | (Ok results, w') =>
      match run pg_list results with
      | (Raise e, _) => (Raise e, w')
      | (Ok all, results') =>
          (Ok (dumps (VDict
                 [("total", VInt (pg_total results'));
                  ("authors",
                   VList (VDict <$> (_author_to_dict <$> list_slice_to limit all)))])),
           w')
      end
  end.
Proof.
  unfold search_authors. rewrite run_bind.
  destruct (run (sch_search_author _ _) w) as [[results|e] w']; [|done].
  rewrite run_bind_on_obj. by destruct (run pg_list results) as [[all|e] r'].
Qed.

Lemma run_get_author_papers author_id limit (w : W) :
  run (get_author_papers dumps author_id limit) w =
  match run (sch_get_author_papers author_id (Z.min limit 1000)) w with
  | (Raise e, w') => (Raise e, w')
  | (Ok results, w') =>
      match run pg_list results with
      | (Raise e, _) => (Raise e, w')
      | (Ok all, results') =>
          (Ok (dumps (VDict
                 [("total", VInt (pg_len results'));
                  ("papers",
                   VList (VDict <$> (_paper_to_dict <$> list_slice_to limit all)))])),
           w')
      end
  end.
Proof.
  unfold get_author_papers. rewrite run_bind.
  destruct (run (sch_get_author_papers _ _) w) as [[results|e] w']; [|done].
  rewrite run_bind_on_obj. by destruct (run pg_list results) as [[all|e] r'].
Qed.

Lemma run_get_recommendations paper_id limit (w : W) :
  run (get_recommendations dumps paper_id limit) w =
  match run (sch_get_recommended_papers paper_id (Z.min limit 500)) w with
  | (Raise e, w') => (Raise e, w')
  | (Ok results, w') =>
      match run (ls_getslice limit) results with
      | (Raise e, _) => (Raise e, w')
      | (Ok page, _) =>
          (Ok (dumps (VDict
                 [("papers", VList (VDict <$> (_paper_to_dict <$> page)))])),
           w')
      end
  end.
Proof.
  unfold get_recommendations. rewrite run_bind.
  destruct (run (sch_get_recommended_papers _ _) w) as [[results|e] w']; [|done].
  rewrite run_bind_on_obj.
  by destruct (run (ls_getslice limit) results) as [[page|e] r'].
Qed.

Lemma run_get_paper paper_id (w : W) :
  run (get_paper dumps paper_id) w =
  match run (sch_get_paper paper_id) w with
  | (Raise e, w') => (Raise e, w')
  | (Ok paper, w') => (Ok (dumps (VDict (_paper_to_dict paper))), w')
  end.
Proof.
  unfold get_paper. rewrite run_bind.
  by destruct (run (sch_get_paper _) w) as [[paper|e] w'].
Qed.

Lemma run_get_author author_id (w : W) :
  run (get_author dumps author_id) w =
  match run (sch_get_author author_id) w with
  | (Raise e, w') => (Raise e, w')
  | (Ok author, w') => (Ok (dumps (VDict (_author_to_dict author))), w')
  end.
Proof.
  unfold get_author. rewrite run_bind.
  by destruct (run (sch_get_author _) w) as [[author|e] w'].
Qed.

(** The state a handler leaves the client in is the state its one call of
    the client left it in. *)
Lemma handler_states (w : W) :
  (forall q y f p m l,
     (run (search_papers dumps q y f p m l) w).2
     = (run (sch_search_paper (search_papers_args q y f p m l)) w).2) /\
  (forall id, (run (get_paper dumps id) w).2 = (run (sch_get_paper id) w).2) /\
  (forall id l,
     (run (get_paper_citations dumps id l) w).2
     = (run (sch_get_paper_citations id ["title"%string] (Z.min l 1000)) w).2) /\
  (forall id l,
     (run (get_paper_references dumps id l) w).2
     = (run (sch_get_paper_references id ["title"%string] (Z.min l 1000)) w).2) /\
  (forall q y f p m l,
     (run (search_snippets dumps q y f p m l) w).2
     = (run (sch_search_snippet
               (mk_search q y (split_fields f) p m (Z.min l 1000))) w).2) /\
  (forall q l,
     (run (search_authors dumps q l) w).2
     = (run (sch_search_author q (Z.min l 1000)) w).2) /\
  (forall id, (run (get_author dumps id) w).2 = (run (sch_get_author id) w).2) /\
  (forall id l,
     (run (get_author_papers dumps id l) w).2
     = (run (sch_get_author_papers id (Z.min l 1000)) w).2) /\
  (forall id l,
     (run (get_recommendations dumps id l) w).2
     = (run (sch_get_recommended_papers id (Z.min l 500)) w).2).
Proof.
  split_and!; intros;
    rewrite ?run_search_papers, ?run_get_paper, ?run_get_paper_citations,
      ?run_get_paper_references, ?run_search_snippets, ?run_search_authors,
      ?run_get_author, ?run_get_author_papers, ?run_get_recommendations;
    repeat case_match; simplify_eq/=; done.
Qed.

End HandlerFacts.

(** C23 (roundtrip): [fields_of_study.split(",") if fields_of_study
    else None]: the client is given no fields of study exactly when the
    argument is absent or empty; otherwise it is given the pieces of the
    string between its commas: joined with commas they are the string,
    there is one more piece than commas (an empty piece is kept, a string
    without a comma is one field) and no piece holds a comma. *)
Theorem split_fields_roundtrip (fields_of_study : option string) :
  match split_fields fields_of_study with
  | None => fields_of_study = None \/ fields_of_study = Some ""%string
  | Some l =>
      exists s, fields_of_study = Some s /\ s <> ""%string /\
                str_join ","%char l = s /\
                length l = S (str_count ","%char s) /\
                Forall (fun piece => str_count ","%char piece = 0%nat) l
  end.
Proof.
  destruct fields_of_study as [[|c s]|]; [by right | | by left].
  change (split_fields (Some (String c s)))
    with (Some (str_split "," (String c s))).
  exists (String c s).
  split_and!; [done | done | apply str_join_split | apply str_split_length
              | apply str_split_no_sep].
Qed.

(** C28 (functional): The dictionary of one snippet result holds the
    score first, then the paper when there is one, then the snippet when
    there is one; its keys are distinct. *)
Theorem snippet_item_shape (r : SnippetSearchResult.t) :
  snippet_item r =
  [("score", SnippetSearchResult.score r)]
  ++ option_list
       ((fun p => ("paper"%string,
                   VDict [("paperId", to_value (Paper.paperId p));
                          ("title", to_value (Paper.title p));
                          ("year", to_value (Paper.year p))]))
          <$> SnippetSearchResult.paper r)
  ++ option_list
       ((fun s => ("snippet"%string,
                   VDict [("text", Snippet.text s);
                          ("kind", Snippet.snippetKind s);
                          ("section", Snippet.section s)]))
          <$> SnippetSearchResult.snippet r)
  /\ dict_wf (snippet_item r).
Proof.
  unfold snippet_item.
  destruct (SnippetSearchResult.paper r), (SnippetSearchResult.snippet r);
    (split; [reflexivity | apply (bool_decide_unpack _); by vm_compute]).
Qed.

(** ** What every handler does with the client and with exceptions *)

Section HandlerTheorems.
Context {E W : Type} {R L : Type -> Type}.
Context {HC : Client E W R L}.
Context {HP : forall T, Paged E (R T) T} {HL : forall T, Listing E (L T) T}.
Context (dumps : value -> string).

(** C1 (safety): every handler calls the client exactly once, with the
    limit clamped to the maximum of the method, and leaves the client in
    the state that call left it in, whether the handler returns or
    raises. *)
Theorem handlers_one_call (w : W) :
  (forall q y f p m l,
     (run (search_papers dumps q y f p m l) w).2
     = (run (sch_search_paper (search_papers_args q y f p m l)) w).2) /\
  (forall id, (run (get_paper dumps id) w).2 = (run (sch_get_paper id) w).2) /\
  (forall id l,
     (run (get_paper_citations dumps id l) w).2
     = (run (sch_get_paper_citations id ["title"%string] (Z.min l 1000)) w).2) /\
  (forall id l,
     (run (get_paper_references dumps id l) w).2
     = (run (sch_get_paper_references id ["title"%string] (Z.min l 1000)) w).2) /\
  (forall q y f p m l,
     (run (search_snippets dumps q y f p m l) w).2
     = (run (sch_search_snippet
               (mk_search q y (split_fields f) p m (Z.min l 1000))) w).2) /\
  (forall q l,
     (run (search_authors dumps q l) w).2
     = (run (sch_search_author q (Z.min l 1000)) w).2) /\
  (forall id, (run (get_author dumps id) w).2 = (run (sch_get_author id) w).2) /\
  (forall id l,
     (run (get_author_papers dumps id l) w).2
     = (run (sch_get_author_papers id (Z.min l 1000)) w).2) /\
  (forall id l,
     (run (get_recommendations dumps id l) w).2
     = (run (sch_get_recommended_papers id (Z.min l 500)) w).2).
Proof. exact (handler_states dumps w). Qed.

(** C3 (error): [search_papers] raises exactly the exceptions of the
    client call and of the slice of the result object: it swallows none
    and adds none. *)
Theorem search_papers_raises q y f p m l (w w' : W) (e : E) :
  run (search_papers dumps q y f p m l) w = (Raise e, w') <->
  run (sch_search_paper (search_papers_args q y f p m l)) w = (Raise e, w') \/
  exists results r',
    run (sch_search_paper (search_papers_args q y f p m l)) w = (Ok results, w') /\
    run (pg_getslice l) results = (Raise e, r').
Proof.
  rewrite run_search_papers.
  destruct (run (sch_search_paper _) w) as [[results|e0] w0].
  - destruct (run (pg_getslice l) results) as [[page|e1] r'] eqn:Hs; split.
    + done.
    + intros [?|(r0 & r1 & [= <- <-] & Hr)]; [done|]. by rewrite Hs in Hr.
    + intros [= <- <-]. right. by exists results, r'.
    + intros [?|(r0 & r1 & [= <- <-] & Hr)]; [done|]. rewrite Hs in Hr. by simplify_eq.
  - split; [intros [= <- <-]; by left|].
    intros [?|(r0 & r1 & ? & _)]; by simplify_eq.
Qed.

(** C5 (bounds): when [get_paper_citations] returns, with a non-negative
    limit, the list of citations has at most [limit] entries, whatever the
    client returned; the list is the papers of the first [limit] items, the
    items without a paper skipped. *)
Theorem get_paper_citations_bound id l (w w' : W) (out : string) :
  0 <= l -> run (get_paper_citations dumps id l) w = (Ok out, w') ->
  exists total citations,
    out = dumps (VDict [("total", VInt total); ("citations", VList citations)])
    /\ Z.of_nat (length citations) <= l.
Proof.
  intros Hl. rewrite run_get_paper_citations.
  destruct (run (sch_get_paper_citations _ _ _) w) as [[results|e0] w0]; [|done].
  destruct (run pg_list results) as [[all|e1] r']; [|done].
  intros [= <- <-]. eexists _, _. split; [done|].
  etrans; [|by apply (list_slice_to_bound all l)].
  apply Nat2Z.inj_le, length_omap_le.
Qed.

(** C35 (functional): [search_snippets] returns one entry for every
    result the iteration of what the client returned yields, in order:
    the limit is sent to the client and is not applied to what the client
    returns. *)
Theorem search_snippets_all q y f p m l (w w' : W) results results' all :
  run (sch_search_snippet (mk_search q y (split_fields f) p m (Z.min l 1000))) w
    = (Ok results, w') ->
  run ls_iter results = (Ok all, results') ->
  run (search_snippets dumps q y f p m l) w
  = (Ok (dumps (VDict [("results",
                        VList ((fun r => VDict (snippet_item r)) <$> all))])),
     w').
Proof. intros Hc Hi. by rewrite run_search_snippets, Hc, Hi. Qed.

End HandlerTheorems.

(** C36 (bounds): When [get_recommendations] returns, with a non-negative limit, on
    a client whose recommendations are a Python list, it returns at most
    [limit] papers, and exactly the recommended papers when there are no
    more than [limit]. *)
Theorem get_recommendations_bound {E W R} {HC : Client E W R list}
    (dumps : value -> string) id l (w w' : W) (out : string) :
  0 <= l -> run (get_recommendations dumps id l) w = (Ok out, w') ->
  exists results papers,
    run (sch_get_recommended_papers id (Z.min l 500)) w = (Ok results, w') /\
    out = dumps (VDict [("papers", VList (VDict <$> papers))]) /\
    Z.of_nat (length papers) <= l /\
    (Z.of_nat (length results) <= l -> papers = _paper_to_dict <$> results).
Proof.
  intros Hl. rewrite run_get_recommendations.
  destruct (run (sch_get_recommended_papers _ _) w) as [[results|e0] w0] eqn:Hc;
    [|done].
  rewrite run_list_getslice. intros [= <- <-]. eexists _, _.
  split_and!; [done | done | |].
  - rewrite length_fmap. by apply list_slice_to_bound.
  - intros Hle. by rewrite list_slice_to_all.
Qed.

Lemma get_paper_citations_bound_witness :
  exists total citations,
    "total,citations"%string
    = dumps_keys (VDict [("total", VInt total); ("citations", VList citations)])
    /\ Z.of_nat (length citations) <= 20.
Proof.
  eapply (get_paper_citations_bound (E:=exn) (HC:=mock_client mock_two_citations)
            dumps_keys "paper1" 20 []); [lia | by vm_compute].
Defined.

Lemma get_recommendations_bound_witness :
  exists results papers,
    run (sch_get_recommended_papers (E:=exn) (Client:=mock_client mock_three_papers)
           "paper1" (Z.min 1 500)) []
      = (Ok results, [Call_get_recommended_papers "paper1" 1]) /\
    "papers"%string = dumps_keys (VDict [("papers", VList (VDict <$> papers))]) /\
    Z.of_nat (length papers) <= 1 /\
    (Z.of_nat (length results) <= 1 -> papers = _paper_to_dict <$> results).
Proof.
  eapply (get_recommendations_bound (HC:=mock_client (E:=exn) mock_three_papers)
            dumps_keys "paper1" 1 []); [lia | by vm_compute].
Defined.

Lemma search_snippets_all_witness :
  run (search_snippets (E:=exn) (HC:=mock_client mock_three_papers) dumps_keys
         "query" None None None None 1) []
  = (Ok (dumps_keys
           (VDict [("results",
                    VList ((fun r => VDict (snippet_item r))
                             <$> [SnippetSearchResult.mk VNone None None (VInt 1);
                                  SnippetSearchResult.mk VNone None None (VInt 2)]))])),
     [Call_search_snippet (mk_search "query" None None None None 1)]).
Proof.
  exact (search_snippets_all (E:=exn) (HC:=mock_client mock_three_papers)
           dumps_keys "query" None None None None 1 []
           [Call_search_snippet (mk_search "query" None None None None 1)]
           (rv_search_snippet mock_three_papers) _ _ eq_refl eq_refl).
Defined.

(** ** The handlers on the mocked client *)

Section MockFacts.
Context {E : Type} (dumps : value -> string) (m : MockSch).

Lemma run_mock_call {A} (c : Call) (rv : A) (calls : list Call) :
  run (mock_call (E:=E) c rv) calls = (Ok rv, calls ++ [c]).
Proof. reflexivity. Qed.

(** C32 (functional): on the mocked client, [search_papers] records one
    call of [search_paper] with the fields of study split at the commas and
    the limit clamped to 100, and returns the configured total with the
    dictionaries of the items of [items[:limit]]. *)
Theorem search_papers_mock q y f p mc l (calls : list Call) :
  run (search_papers (HC:=mock_client (E:=E) m) dumps q y f p mc l) calls =
  (Ok (dumps (VDict
         [("total", VInt (mp_total (rv_search_paper m)));
          ("papers",
           VList (VDict <$> (_paper_to_dict <$>
                    list_slice_to l (mp_items (rv_search_paper m)))))])),
   calls ++ [Call_search_paper
               (mk_search q y (split_fields f) p mc (Z.min l 100))]).
Proof. by rewrite run_search_papers. Qed.

(** Whatever limit a caller gives, the limit the mocked
    client records is at most the maximum of the method (100 for
    [search_paper], 500 for recommendations, 1000 for the others), and it
    is the caller's limit when that is within the maximum. *)
Theorem mock_limits_clamped (l : Z) q y f p mc id :
  (run (search_papers (HC:=mock_client (E:=E) m) dumps q y f p mc l) []).2
    = [Call_search_paper (mk_search q y (split_fields f) p mc (Z.min l 100))] /\
  (run (get_paper_citations (HC:=mock_client (E:=E) m) dumps id l) []).2
    = [Call_get_paper_citations id ["title"%string] (Z.min l 1000)] /\
  (run (get_paper_references (HC:=mock_client (E:=E) m) dumps id l) []).2
    = [Call_get_paper_references id ["title"%string] (Z.min l 1000)] /\
  (run (search_snippets (HC:=mock_client (E:=E) m) dumps q y f p mc l) []).2
    = [Call_search_snippet (mk_search q y (split_fields f) p mc (Z.min l 1000))] /\
  (run (search_authors (HC:=mock_client (E:=E) m) dumps q l) []).2 = [Call_search_author q (Z.min l 1000)] /\
  (run (get_author_papers (HC:=mock_client (E:=E) m) dumps id l) []).2
    = [Call_get_author_papers id (Z.min l 1000)] /\
  (run (get_recommendations (HC:=mock_client (E:=E) m) dumps id l) []).2
    = [Call_get_recommended_papers id (Z.min l 500)] /\
  Z.min l 100 <= 100 /\ Z.min l 1000 <= 1000 /\ Z.min l 500 <= 500 /\
  (l <= 100 -> Z.min l 100 = l).
Proof.
  rewrite run_search_papers, run_get_paper_citations, run_get_paper_references,
    run_search_snippets, run_search_authors, run_get_author_papers,
    run_get_recommendations.
  split_and!; try done; lia.
Qed.

(** C34 (functional): on the mocked client, the "total" that
    [get_paper_citations] reports is [len(results)], the number of items
    of the result object, and not its attribute [total]. *)
Theorem get_paper_citations_total_is_len id l (calls : list Call) :
  let rv := rv_get_paper_citations m in
  mp_iter rv = mp_items rv ->
  (run (get_paper_citations (HC:=mock_client (E:=E) m) dumps id l) calls).1
  = Ok (dumps (VDict
          [("total", VInt (Z.of_nat (length (mp_items rv))));
           ("citations",
            VList (omap (fun item => paper_ref <$> Citation.paper item)
                     (list_slice_to l (mp_items rv))))])).
Proof.
  intros rv Hfresh. subst rv. rewrite run_get_paper_citations. simpl.
  by rewrite Hfresh.
Qed.

End MockFacts.

(** A negative limit is not rejected: the client is asked
    for [-1] results and the slice [results[:-1]] drops the last item, so
    two of three papers are returned. *)
Theorem search_papers_negative_limit (dumps : value -> string) :
  run (search_papers (E:=exn) (HC:=mock_client mock_three_papers) dumps
         "q" None None None None (-1)) []
  = (Ok (dumps (VDict
           [("total", VInt 50);
            ("papers",
             VList [VDict (_paper_to_dict (_make_paper_with (Some "p1") (Some "One")));
                    VDict (_paper_to_dict (_make_paper_with (Some "p2") (Some "Two")))])])),
     [Call_search_paper (mk_search "q" None None None None (-1))]).
Proof. by rewrite run_search_papers. Qed.

Lemma get_paper_citations_total_is_len_witness :
  (run (get_paper_citations (E:=exn) (HC:=mock_client mock_two_citations)
          dumps_keys "paper1" 20) []).1
  = Ok "total,citations"%string.
Proof.
  by rewrite (get_paper_citations_total_is_len (E:=exn) dumps_keys
                mock_two_citations "paper1" 20 [] eq_refl).
Defined.
