(* ===== verification/Server.v ===== *)
(** * The tool table of [mcp_server.py] and calls by name

    [mcp = FastMCP("semanticscholar")] makes a server, every
    [@mcp.tool()] registers the function below it under its name with the
    signature it is declared with, and [main] runs the server.  This file
    models what of that is written in the sources, and the least of the
    framework that a call by name needs:

    - [param]: a parameter of a signature, its name and its default;
      [search_params], [id_params] and [id_limit_params] are the
      signatures as declared.
    - [bind] is the binding of the positional and keyword arguments of a
      call to a signature, as Python does it and as the tests call the
      handlers ([search_papers("query", limit=200)]): keyword errors first
      (unexpected keyword, multiple values), then too many positional
      arguments, then the missing ones, then the defaults.
    - [search_fn], [id_fn] and [id_limit_fn] apply a handler of [Tools.v]
      to the bound arguments.  The handlers are functions of typed
      arguments ([query: str], [limit: int], [year: Optional[str]]):
      [as_str], [as_int], [as_opt_str] and [as_opt_int] read a value as
      an argument of the annotated type.  A call with an argument that is
      no such value has the outcome [IllTyped]: what Python and the
      framework do with it (a [TypeError] somewhere in the body, a
      coercion, a refusal) is not in the sources and is not modelled.
    - [tool] is a registered function, [tools] the table in the order of
      the source, [mcp] the server.
    - [_api_key] is the lookup in the environment; the client is built
      from it once ([_sch]).
    - The framework is not under [src/]; the specification says of it
      that it maps function signatures to calls by name and that an error
      aborts the current request.  [call_tool] and [serve] are that much
      of it: a call by name looks the function up and calls it with the
      arguments of the request, and the loop answers the requests one
      after the other, an error being the answer to its request only.
      [main] is [mcp.run()], the loop of the server [mcp].  The transport
      and the schemas are not modelled. *)

From Stdlib Require Import ZArith String List.
From stdpp Require Import base tactics option list strings numbers gmap.
From S2P Require Import Prelude PyDict PyValue Helpers Dto Paged Fixtures Tools.

Open Scope Z_scope.

(** ** Signatures *)

Record param : Type := mk_param {
  p_name : string;
  p_default : option value;
}.

(** A value as an argument annotated [str], [int], [Optional[str]] and
    [Optional[int]]. *)
Definition as_str (v : value) : option string :=
  match v with VStr s => Some s | _ => None end.

Definition as_int (v : value) : option Z :=
  match v with VInt n => Some n | _ => None end.

Definition as_opt_str (v : value) : option (option string) :=
  match v with VStr s => Some (Some s) | VNone => Some None | _ => None end.

Definition as_opt_int (v : value) : option (option Z) :=
  match v with VInt n => Some (Some n) | VNone => Some None | _ => None end.

(** [query: str, year: Optional[str] = None, ..., limit: int = 10] *)
Definition search_params : list param :=
  [mk_param "query" None;
   mk_param "year" (Some VNone);
   mk_param "fields_of_study" (Some VNone);
   mk_param "publication_date_or_year" (Some VNone);
   mk_param "min_citation_count" (Some VNone);
   mk_param "limit" (Some (VInt default_limit_10))].

(** [paper_id: str] and [author_id: str] *)
Definition id_params (name : string) : list param := [mk_param name None].

(** [paper_id: str, limit: int = 20] and the like *)
Definition id_limit_params (name : string) (limit : Z) : list param :=
  [mk_param name None; mk_param "limit" (Some (VInt limit))].

(** ** The binding of the arguments of a call *)

Inductive bind_error : Type :=
| UnexpectedKeyword (k : string)
| MultipleValues (k : string)
| TooManyPositional
| MissingArguments (ks : list string).

#[export] Instance bind_error_eq_dec : EqDecision bind_error.
Proof. solve_decision. Defined.

(** The position of a name in a signature. *)
Fixpoint param_index (k : string) (ps : list param) : option nat :=
  match ps with
  | [] => None
  | p :: ps' => if String.eqb (p_name p) k then Some O else S <$> param_index k ps'
  end.

(** What is wrong with the keyword [k], when [npos] arguments are
    positional. *)
Definition check_keyword (ps : list param) (npos : nat) (k : string) :
    option bind_error :=
  match param_index k ps with
  | None => Some (UnexpectedKeyword k)
  | Some i => if (i <? npos)%nat then Some (MultipleValues k) else None
  end.

(** The first keyword that is wrong, in the order of the call. *)
Fixpoint check_keywords (ps : list param) (npos : nat) (ks : list string) :
    option bind_error :=
  match ks with
  | [] => None
  | k :: ks' =>
      match check_keyword ps npos k with
      | Some e => Some e
      | None => check_keywords ps npos ks'
      end
  end.

(** The argument of one parameter: positional, by keyword, or the
    default. *)
Definition arg_of (pos : list value) (kw : dict value) (i : nat) (p : param) :
    option value :=
  match pos !! i with
  | Some v => Some v
  | None =>
      match dict_get (p_name p) kw with
      | Some v => Some v
      | None => p_default p
      end
  end.

Definition missing (ps : list param) (args : list (option value)) : list string :=
  omap (fun pa => match pa.2 with None => Some (p_name pa.1) | Some _ => None end)
    (zip ps args).

Definition bind (ps : list param) (pos : list value) (kw : dict value) :
    res bind_error (list value) :=
  match check_keywords ps (length pos) (dict_keys kw) with
  | Some e => Raise e
  | None =>
      if (length ps <? length pos)%nat then Raise TooManyPositional
      else
        let args := imap (arg_of pos kw) ps in
        match missing ps args with
        | [] => Ok (omap id args)
        | ks => Raise (MissingArguments ks)
        end
  end.

(** The keyword arguments of a call in which the arguments that are
    [None] here are left out: [f(year="2020")] is
    [keywords [("year", Some (VStr "2020")); ("limit", None)]]. *)
Definition keywords (kvs : list (string * option value)) : dict value :=
  omap (fun kv => pair kv.1 <$> kv.2) kvs.

Definition search_keywords (year fields_of_study publication_date_or_year :
    option string) (min_citation_count limit : option Z) : dict value :=
  keywords [("year", VStr <$> year);
            ("fields_of_study", VStr <$> fields_of_study);
            ("publication_date_or_year", VStr <$> publication_date_or_year);
            ("min_citation_count", VInt <$> min_citation_count);
            ("limit", VInt <$> limit)].

Definition limit_keywords (limit : option Z) : dict value :=
  keywords [("limit", VInt <$> limit)].

(** ** The outcome of a call by name *)

Inductive call_error (E : Type) : Type :=
| Raised (e : E)
| UnknownTool (name : string)
| BadCall (b : bind_error)
| IllTyped.
Arguments Raised {E} e.
Arguments UnknownTool {E} name.
Arguments BadCall {E} b.
Arguments IllTyped {E}.

(** A computation that raises [E], as one that raises a [call_error]. *)
Definition raised {E S A} (m : M E S A) : M (call_error E) S A :=
  MkM (fun s => match run m s with
                | (Ok a, s') => (Ok a, s')
                | (Raise e, s') => (Raise (Raised e), s')
                end).

(** [os.environ.get("S2_API_KEY")] *)
Definition _api_key (environ : dict string) : option string :=
  dict_get "S2_API_KEY" environ.

(** A registered function: its name, its signature, and the function on
    the arguments in the order of the signature. *)
Record tool (E W : Type) : Type := mk_tool {
  tool_name : string;
  tool_params : list param;
  tool_fn : list value -> option (M E W string);
}.
Arguments mk_tool {E W} tool_name tool_params tool_fn.
Arguments tool_name {E W} t.
Arguments tool_params {E W} t.
Arguments tool_fn {E W} t vs.

Record FastMCP (E W : Type) : Type := mk_server {
  server_name : string;
  server_tools : list (tool E W);
}.
Arguments mk_server {E W} server_name server_tools.
Arguments server_name {E W} _.
Arguments server_tools {E W} _.

(** A request [tools/call]: the name of the tool and its arguments, by
    keyword. *)
Record request : Type := mk_request {
  rq_tool : string;
  rq_arguments : dict value;
}.

(** One call of a method of the client. *)
Inductive client_step `{Client E W R L} : relation W :=
| step_search_paper a w : client_step w (run (sch_search_paper a) w).2
| step_get_paper id w : client_step w (run (sch_get_paper id) w).2
| step_get_paper_citations id fields l w :
    client_step w (run (sch_get_paper_citations id fields l) w).2
| step_get_paper_references id fields l w :
    client_step w (run (sch_get_paper_references id fields l) w).2
| step_search_snippet a w : client_step w (run (sch_search_snippet a) w).2
| step_search_author q l w : client_step w (run (sch_search_author q l) w).2
| step_get_author id w : client_step w (run (sch_get_author id) w).2
| step_get_author_papers id l w :
    client_step w (run (sch_get_author_papers id l) w).2
| step_get_recommended_papers id l w :
    client_step w (run (sch_get_recommended_papers id l) w).2.

(** An answer to a call that reached the function: the call was not
    refused for its name or its arguments. *)
Definition accepted {E A} (a : res (call_error E) A) : bool :=
  match a with
  | Raise (UnknownTool _) | Raise (BadCall _) | Raise IllTyped => false
  | _ => true
  end.

(** What the module is loaded with: the class of the client, the
    function [json.dumps(_, indent=2)] and the environment of the
    process. *)
Class Host (E W : Type) (R L : Type -> Type) : Type := {
  SemanticScholar : option string -> Client E W R L;
  json_dumps : value -> string;
  environ : dict string;
}.

Section ToolServer.
Context {E W : Type} {R L : Type -> Type}.
Context {HP : forall T, Paged E (R T) T} {HL : forall T, Listing E (L T) T}.
Context {HH : Host E W R L}.

(** [_sch = SemanticScholar(api_key=_api_key)] *)
Definition _sch : Client E W R L := SemanticScholar (_api_key environ).

#[local] Existing Instance _sch.

(** A function of the six parameters of a search. *)
Definition search_fn
    (f : string -> option string -> option string -> option string ->
         option Z -> Z -> M E W string) (vs : list value) : option (M E W string) :=
  match vs with
  | [query; year; fos; pdy; mcc; limit] =>
      query ← as_str query; year ← as_opt_str year; fos ← as_opt_str fos;
      pdy ← as_opt_str pdy; mcc ← as_opt_int mcc; limit ← as_int limit;
      Some (f query year fos pdy mcc limit)
  | _ => None
  end.

Definition id_fn (f : string -> M E W string) (vs : list value) :
    option (M E W string) :=
  match vs with
  | [id] => id ← as_str id; Some (f id)
  | _ => None
  end.

Definition id_limit_fn (f : string -> Z -> M E W string) (vs : list value) :
    option (M E W string) :=
  match vs with
  | [id; limit] => id ← as_str id; limit ← as_int limit; Some (f id limit)
  | _ => None
  end.

(** The table that the nine [@mcp.tool()] build, in the order of the
    source. *)
Definition tools : list (tool E W) :=
  [mk_tool "search_papers" search_params (search_fn (search_papers json_dumps));
   mk_tool "get_paper" (id_params "paper_id") (id_fn (get_paper json_dumps));
   mk_tool "get_paper_citations" (id_limit_params "paper_id" default_limit_20)
     (id_limit_fn (get_paper_citations json_dumps));
   mk_tool "get_paper_references" (id_limit_params "paper_id" default_limit_20)
     (id_limit_fn (get_paper_references json_dumps));
   mk_tool "search_snippets" search_params (search_fn (search_snippets json_dumps));
   mk_tool "search_authors" (id_limit_params "query" default_limit_10)
     (id_limit_fn (search_authors json_dumps));
   mk_tool "get_author" (id_params "author_id") (id_fn (get_author json_dumps));
   mk_tool "get_author_papers" (id_limit_params "author_id" default_limit_20)
     (id_limit_fn (get_author_papers json_dumps));
   mk_tool "get_recommendations" (id_limit_params "paper_id" default_limit_10)
     (id_limit_fn (get_recommendations json_dumps))].

(** [mcp = FastMCP("semanticscholar")], after the registrations. *)
Definition mcp : FastMCP E W := mk_server "semanticscholar" tools.

Definition find_tool (name : string) (ts : list (tool E W)) : option (tool E W) :=
  find (fun t => String.eqb (tool_name t) name) ts.

(** The call of a registered function: the arguments are bound to the
    signature, then the function runs on them. *)
Definition call (t : tool E W) (pos : list value) (kw : dict value) :
    M (call_error E) W string :=
  match bind (tool_params t) pos kw with
  | Raise b => raise (BadCall b)
  | Ok vs =>
      match tool_fn t vs with
      | None => raise IllTyped
      | Some m => raised m
      end
  end.

Definition call_tool (s : FastMCP E W) (name : string) (pos : list value)
    (kw : dict value) : M (call_error E) W string :=
  match find_tool name (server_tools s) with
  | None => raise (UnknownTool name)
  | Some t => call t pos kw
  end.

(** The answer to one request, and the loop on a sequence of requests. *)
Definition answer (s : FastMCP E W) (rq : request) (w : W) :
    res (call_error E) string * W :=
  run (call_tool s (rq_tool rq) [] (rq_arguments rq)) w.

Fixpoint serve (s : FastMCP E W) (rqs : list request) (w : W) :
    list (res (call_error E) string) * W :=
  match rqs with
  | [] => ([], w)
  | rq :: rqs' =>
      let '(a, w1) := answer s rq w in
      let '(answers, w2) := serve s rqs' w1 in
      (a :: answers, w2)
  end.

(** [def main(): mcp.run()] *)
Definition main : list request -> W -> list (res (call_error E) string) * W :=
  serve mcp.

End ToolServer.

(** ** The server of the test suite

    The module loaded with the mocked client, whatever the environment
    holds. *)
Definition mock_host (m : MockSch) (environ : dict string) :
    Host exn (list Call) MockPaginated list := {|
  SemanticScholar := fun _ => mock_client m;
  json_dumps := dumps_keys;
  environ := environ;
|}.

(** Three requests: a tool that is not registered, a call without its
    required argument, and a search. *)
Definition three_requests : list request :=
  [mk_request "delete_paper" [("paper_id", VStr "p1")];
   mk_request "get_paper" [];
   mk_request "search_papers" [("limit", VInt 200); ("query", VStr "q")]].

(** ** Lemmas: binding *)

Lemma run_raised {E S A} (m : M E S A) (s : S) :
  run (raised m) s =
  match run m s with
  | (Ok a, s') => (Ok a, s')
  | (Raise e, s') => (Raise (Raised e), s')
  end.
Proof. reflexivity. Qed.

Lemma raised_state {E S A} (m : M E S A) (s : S) :
  (run (raised m) s).2 = (run m s).2.
Proof. rewrite run_raised. by destruct (run m s) as [[a|e] s']. Qed.

Lemma check_keywords_None ps npos ks :
  check_keywords ps npos ks = None <->
  Forall (fun k => check_keyword ps npos k = None) ks.
Proof.
  induction ks as [|k ks IH]; simpl; [by split|].
  rewrite list.Forall_cons, <- IH.
  destruct (check_keyword ps npos k); [split; [done|by intros [? _]]|by split; [|intros [_ ?]]].
Qed.

Lemma check_keywords_perm ps npos ks1 ks2 :
  ks1 ≡ₚ ks2 -> check_keywords ps npos ks1 = None ->
  check_keywords ps npos ks2 = None.
Proof. rewrite !check_keywords_None. by intros ->. Qed.

Lemma omap_id_Some {A} (vs : list A) : omap id (Some <$> vs) = vs.
Proof. induction vs as [|v vs IH]; [done|]. cbn. by f_equal. Qed.

Lemma missing_nil ps args :
  length args = length ps -> missing ps args = [] -> exists vs, args = Some <$> vs.
Proof.
  revert args. induction ps as [|p ps IH]; intros [|[v|] args] Hlen; try done.
  - by exists [].
  - unfold missing. simpl. intros Hm.
    destruct (IH args) as (vs & ->); [by simplify_eq/= | done |]. by exists (v :: vs).
Qed.

Lemma missing_Some ps vs : missing ps (Some <$> vs) = [].
Proof.
  unfold missing. revert vs. induction ps as [|p ps IH]; intros [|v vs]; simpl; auto.
Qed.

Lemma bind_Ok ps pos kw vs :
  bind ps pos kw = Ok vs <->
  check_keywords ps (length pos) (dict_keys kw) = None /\
  (length pos <= length ps)%nat /\
  imap (arg_of pos kw) ps = Some <$> vs.
Proof.
  unfold bind. cbv zeta.
  destruct (check_keywords _ _ _); [split; [done|by intros (? & _)]|].
  destruct (Nat.ltb_spec (length ps) (length pos));
    [split; [done|intros (_ & ? & _); lia]|].
  destruct (missing ps _) as [|k ks] eqn:Hm.
  - apply missing_nil in Hm as (vs' & Hargs); [|by rewrite length_imap].
    rewrite Hargs. rewrite (omap_id_Some vs'). split.
    + intros [= <-]. by split_and!; [|lia|].
    + by intros (_ & _ & ->%(inj (fmap Some))).
  - split; [done|]. intros (_ & _ & Hargs). by rewrite Hargs, missing_Some in Hm.
Qed.

Lemma bind_length ps pos kw vs : bind ps pos kw = Ok vs -> length vs = length ps.
Proof.
  intros (_ & _ & Hargs)%bind_Ok. apply (f_equal length) in Hargs.
  by rewrite length_imap, length_fmap in Hargs.
Qed.

(** The order of the keywords of a call does not matter. *)
Lemma arg_of_perm pos kw1 kw2 i p :
  dict_wf kw1 -> kw1 ≡ₚ kw2 -> arg_of pos kw1 i p = arg_of pos kw2 i p.
Proof.
  intros Hwf Hp. unfold arg_of. destruct (pos !! i); [done|].
  assert (dict_get (p_name p) kw1 = dict_get (p_name p) kw2) as ->; [|done].
  rewrite <- !dict_to_map_get. unfold dict_to_map. f_equal.
  by apply list_to_map_proper.
Qed.

Lemma bind_perm ps pos kw1 kw2 vs :
  dict_wf kw1 -> kw1 ≡ₚ kw2 -> bind ps pos kw1 = Ok vs -> bind ps pos kw2 = Ok vs.
Proof.
  intros Hwf Hp. rewrite !bind_Ok. intros (Hk & Hn & Hargs). split_and!; [|done|].
  - eapply check_keywords_perm; [|done]. unfold dict_keys. by rewrite Hp.
  - rewrite <- Hargs. apply imap_ext. intros i p _. symmetry. by apply arg_of_perm.
Qed.

Lemma keywords_sublist (kvs : list (string * option value)) :
  dict_keys (keywords kvs) `sublist_of` kvs.*1.
Proof.
  unfold keywords, dict_keys.
  induction kvs as [|[k [v|]] kvs IH]; cbn; [done | by constructor..].
Qed.

Lemma keywords_wf (kvs : list (string * option value)) :
  NoDup kvs.*1 -> dict_wf (keywords kvs).
Proof. intros Hnd. by eapply sublist_NoDup; [|apply keywords_sublist]. Qed.

(** ** Lemmas: the table *)

Lemma search_fn_Some {E W} f (vs : list value) (m : M E W string) :
  search_fn f vs = Some m -> exists q y fos p mc l, m = f q y fos p mc l.
Proof.
  destruct vs as [|v1 [|v2 [|v3 [|v4 [|v5 [|v6 [|v7 vs]]]]]]]; try done.
  cbn. intros Hm. simplify_option_eq. by eexists _, _, _, _, _, _.
Qed.

Lemma id_fn_Some {E W} f (vs : list value) (m : M E W string) :
  id_fn f vs = Some m -> exists id, m = f id.
Proof.
  destruct vs as [|v1 [|v2 vs]]; try done.
  cbn. intros Hm. simplify_option_eq. by eexists.
Qed.

Lemma id_limit_fn_Some {E W} f (vs : list value) (m : M E W string) :
  id_limit_fn f vs = Some m -> exists id l, m = f id l.
Proof.
  destruct vs as [|v1 [|v2 [|v3 vs]]]; try done.
  cbn. intros Hm. simplify_option_eq. by eexists _, _.
Qed.

Section ServerFacts.
Context {E W : Type} {R L : Type -> Type}.
Context {HP : forall T, Paged E (R T) T} {HL : forall T, Listing E (L T) T}.
Context {HH : Host E W R L}.

Lemma tool_names :
  tool_name <$> tools
  = ["search_papers"; "get_paper"; "get_paper_citations"; "get_paper_references";
     "search_snippets"; "search_authors"; "get_author"; "get_author_papers";
     "get_recommendations"]%string.
Proof. reflexivity. Qed.

Lemma tools_NoDup : NoDup (tool_name <$> tools).
Proof. rewrite tool_names. apply (bool_decide_unpack _). by vm_compute. Qed.

Lemma find_tool_Some name (ts : list (tool E W)) t :
  find_tool name ts = Some t -> t ∈ ts /\ tool_name t = name.
Proof.
  unfold find_tool. intros Hf. apply find_some in Hf as [Hin Heq].
  split; [by apply list_elem_of_In|by apply String.eqb_eq].
Qed.

Lemma find_tool_None name (ts : list (tool E W)) :
  find_tool name ts = None <-> name ∉ (tool_name <$> ts).
Proof.
  unfold find_tool. induction ts as [|t ts IH]; simpl.
  - split; [intros _; apply not_elem_of_nil|done].
  - rewrite not_elem_of_cons, <- IH.
    destruct (String.eqb_spec (tool_name t) name) as [->|Hne].
    + split; [done|by intros [? _]].
    + split; [done|by intros [_ ?]].
Qed.

(** ** Lemmas: a call *)

(** A handler is one call of the client. *)
Lemma tool_fn_step t vs m (w : W) :
  t ∈ tools -> tool_fn t vs = Some m -> client_step (H:=_sch) w (run m w).2.
Proof.
  pose proof (handler_states (HC:=_sch) json_dumps w)
    as (H1 & H2 & H3 & H4 & H5 & H6 & H7 & H8 & H9).
  unfold tools. intros Ht.
  repeat (apply elem_of_cons in Ht as [->|Ht]); [..|by apply elem_of_nil in Ht];
    cbn [tool_fn];
    first [intros (? & ? & ? & ? & ? & ? & ->)%search_fn_Some
          |intros (? & ? & ->)%id_limit_fn_Some
          |intros (? & ->)%id_fn_Some];
    rewrite ?H1, ?H2, ?H3, ?H4, ?H5, ?H6, ?H7, ?H8, ?H9; constructor.
Qed.

(** The outcomes of a call of a registered function: the call is refused
    and the client is not called, or the function runs on the arguments
    that were bound. *)
Lemma call_cases (t : tool E W) pos kw (w : W) :
  (exists e, run (call t pos kw) w = (Raise e, w) /\
             accepted (A:=string) (Raise e) = false) \/
  (exists vs m,
     bind (tool_params t) pos kw = Ok vs /\ tool_fn t vs = Some m /\
     run (call t pos kw) w = run (raised m) w).
Proof.
  unfold call. destruct (bind (tool_params t) pos kw) as [vs|b]; [|left; by eexists].
  destruct (tool_fn t vs) as [m|] eqn:Hm; [right; by exists vs, m|left; by eexists].
Qed.

(** A call by name whose keywords are those of [kw0], in any order. *)
Lemma call_tool_perm name pos kw0 kw (t : tool E W) vs (m : M E W string) :
  find_tool name tools = Some t -> dict_wf kw0 -> kw ≡ₚ kw0 ->
  bind (tool_params t) pos kw0 = Ok vs -> tool_fn t vs = Some m ->
  call_tool mcp name pos kw = raised m.
Proof.
  intros Hf Hwf Hp Hb Hm. unfold call_tool, call. cbn [server_tools mcp].
  by rewrite Hf, (bind_perm _ _ kw0 kw vs), Hm.
Qed.

Lemma answer_cases rq (w : W) :
  (accepted (answer mcp rq w).1 = false /\ (answer mcp rq w).2 = w) \/
  (accepted (answer mcp rq w).1 = true /\ client_step (H:=_sch) w (answer mcp rq w).2).
Proof.
  unfold answer, call_tool. cbn [server_tools mcp].
  destruct (find_tool (rq_tool rq) tools) as [t|] eqn:Hf; [|by left].
  apply find_tool_Some in Hf as [Ht _].
  destruct (call_cases t [] (rq_arguments rq) w)
    as [(e & -> & He)|(vs & m & _ & Hm & ->)]; [by left|right].
  rewrite raised_state. split; [|by eapply tool_fn_step].
  rewrite run_raised. by destruct (run m w) as [[a|e] w'].
Qed.

(** ** Lemmas: the loop *)

Lemma serve_cons (s : FastMCP E W) rq rqs (w : W) :
  serve s (rq :: rqs) w
  = ((answer s rq w).1 :: (serve s rqs (answer s rq w).2).1,
     (serve s rqs (answer s rq w).2).2).
Proof.
  change (serve s (rq :: rqs) w)
    with (let '(a, w1) := answer s rq w in
          let '(answers, w2) := serve s rqs w1 in (a :: answers, w2)).
  destruct (answer s rq w) as [a w1]. cbn [fst snd].
  by destruct (serve s rqs w1) as [answers w2].
Qed.

Lemma serve_app (s : FastMCP E W) rqs1 rqs2 (w : W) :
  serve s (rqs1 ++ rqs2) w
  = ((serve s rqs1 w).1 ++ (serve s rqs2 (serve s rqs1 w).2).1,
     (serve s rqs2 (serve s rqs1 w).2).2).
Proof.
  revert w. induction rqs1 as [|rq rqs1 IH]; intros w.
  - simpl. by destruct (serve s rqs2 w).
  - cbn [app]. by rewrite !serve_cons, IH.
Qed.

Lemma serve_length (s : FastMCP E W) rqs (w : W) : length (serve s rqs w).1 = length rqs.
Proof.
  revert w. induction rqs as [|rq rqs IH]; intros w; [done|].
  rewrite serve_cons. cbn. by rewrite IH.
Qed.

Lemma serve_steps rqs (w : W) :
  nsteps (client_step (H:=_sch)) (length (filter (fun a => accepted a = true)
                                             (serve mcp rqs w).1))
    w (serve mcp rqs w).2.
Proof.
  revert w. induction rqs as [|rq rqs IH]; intros w; [constructor|].
  rewrite serve_cons. cbn [fst snd].
  destruct (answer_cases rq w) as [[Ha Hw]|[Ha Hs]].
  - rewrite filter_cons_False by (by rewrite Ha). rewrite Hw. apply IH.
  - rewrite filter_cons_True by done. cbn [length]. eapply nsteps_l; [done|apply IH].
Qed.

End ServerFacts.

Lemma _sch_api_key {E W R L} `{Host E W R L} :
  _sch = SemanticScholar (dict_get "S2_API_KEY" environ).
Proof. reflexivity. Qed.

(** ** What a call by name does *)

Section ServerTheorems.
Context {E W : Type} {R L : Type -> Type}.
Context {HP : forall T, Paged E (R T) T} {HL : forall T, Listing E (L T) T}.
Context {HH : Host E W R L}.

#[local] Existing Instance _sch.

(** A call by keyword on the table: the tactic destructs the optional
    arguments and computes the binding of each case. *)
Ltac by_keyword H :=
  repeat match goal with o : option _ |- _ => destruct o end;
  repeat split;
  (eapply call_tool_perm; [reflexivity | | exact H | reflexivity | reflexivity];
   apply (bool_decide_unpack _); by vm_compute).

(** C15 (functional): the table of tools, for a call by keyword, as a
    request makes it: under each of the nine names the function of that
    name is registered, with the parameter names and the defaults of its
    signature.  In whatever order the keywords are given, an argument
    that is given reaches the function and one that is left out is the
    default: no year, no fields of study, no date, no citation count, and
    a limit of 10 for the two searches, the search of authors and the
    recommendations, of 20 for the citations, the references and the
    papers of an author. *)
Theorem call_tool_by_keyword (q id : string) (y f p : option string)
    (mc l : option Z) (kw : dict value) :
  (kw ≡ₚ ("query"%string, VStr q) :: search_keywords y f p mc l ->
   call_tool mcp "search_papers" [] kw
   = raised (search_papers json_dumps q y f p mc (default 10 l)) /\
   call_tool mcp "search_snippets" [] kw
   = raised (search_snippets json_dumps q y f p mc (default 10 l))) /\
  (kw ≡ₚ ("paper_id"%string, VStr id) :: limit_keywords l ->
   call_tool mcp "get_paper_citations" [] kw
   = raised (get_paper_citations json_dumps id (default 20 l)) /\
   call_tool mcp "get_paper_references" [] kw
   = raised (get_paper_references json_dumps id (default 20 l)) /\
   call_tool mcp "get_recommendations" [] kw
   = raised (get_recommendations json_dumps id (default 10 l))) /\
  (kw ≡ₚ ("author_id"%string, VStr id) :: limit_keywords l ->
   call_tool mcp "get_author_papers" [] kw
   = raised (get_author_papers json_dumps id (default 20 l))) /\
  (kw ≡ₚ ("query"%string, VStr q) :: limit_keywords l ->
   call_tool mcp "search_authors" [] kw
   = raised (search_authors json_dumps q (default 10 l))) /\
  call_tool mcp "get_paper" [] [("paper_id"%string, VStr id)]
  = raised (get_paper json_dumps id) /\
  call_tool mcp "get_author" [] [("author_id"%string, VStr id)]
  = raised (get_author json_dumps id).
Proof.
  split_and!; [intros Hkw; by_keyword Hkw.. | reflexivity | reflexivity].
Qed.

(** C14 (safety): the loop answers every request, in order, and calls the
    client once for every request it accepts and never for one it
    refuses: the state of the client after the loop is reached by as many
    calls of its methods as there are accepted answers. *)
Theorem serve_one_call_each rqs1 rqs2 (w : W) :
  let out := main (rqs1 ++ rqs2) w in
  let calls := length (filter (fun a => accepted a = true) out.1) in
  length out.1 = length (rqs1 ++ rqs2) /\
  (calls <= length (rqs1 ++ rqs2))%nat /\
  nsteps (client_step (H:=_sch)) calls w out.2 /\
  out.1 = (main rqs1 w).1 ++ (main rqs2 (main rqs1 w).2).1.
Proof.
  intros out calls. subst out calls. unfold main. split_and!.
  - apply serve_length.
  - etrans; [apply length_filter|]. by rewrite serve_length.
  - apply serve_steps.
  - by rewrite serve_app.
Qed.

End ServerTheorems.

Lemma call_tool_by_keyword_witness :
  call_tool (mcp (HH:=mock_host mock_three_papers [])) "search_papers" []
    [("limit"%string, VInt 200); ("query"%string, VStr "q")]
  = raised (search_papers (HC:=mock_client mock_three_papers) dumps_keys
              "q" None None None None (default 10 (Some 200))).
Proof.
  refine (proj1 (proj1 (call_tool_by_keyword (HH:=mock_host mock_three_papers [])
                          "q" "p" None None None None (Some 200)
                          [("limit"%string, VInt 200); ("query"%string, VStr "q")])
                   _)).
  apply perm_swap.
Defined.
