(* ===== verification/JsonTools.v ===== *)
(** * What the handlers return is JSON

    The handlers of [Tools.v] are instantiated with the encoder of
    [Json.v], and what they return is read back with [json.loads], as the
    test suite does.

    - A handler builds its answer from strings, integers and the
      dictionaries [_paper_to_dict], [_author_to_dict], [paper_ref] and
      [snippet_item].  The only values it passes through unchanged are the
      two dictionaries of a paper ([externalIds], [openAccessPdf]) and the
      score and the three attributes of a snippet: [paper_ok] and
      [snippet_result_ok] say that these are documents ([json_ok]).
    - [returns_json] is the contract of a tool: whenever the handler
      returns, the text is the encoding of a dictionary without repeated
      keys and [json.loads] gives that dictionary back.
    - A snippet search result built by [SnippetSearchResult.__init__] from
      a document is [snippet_result_ok]: what was decoded from JSON is
      encoded as JSON. *)

From Stdlib Require Import ZArith String Ascii List SpecFloat.
From stdpp Require Import base tactics option list strings numbers.
From S2P Require Import Prelude PyDict PyValue JsonText Json Helpers Dto Paged.
From S2P Require Import Fixtures Tools.

Open Scope Z_scope.

(** ** The values of the witnesses *)

(** A snippet search result as the service sends it, and the object the
    constructor builds from it when it is given a decoder of papers that
    returns the paper of the fixtures. *)
Definition snippet_doc : dict value :=
  [("score"%string, VFloat float_0_95);
   ("paper"%string, VDict [("paperId"%string, VStr "s1")]);
   ("snippet"%string, VDict [("text"%string, VStr "matching text");
                             ("snippetKind"%string, VStr "abstract")])].

Definition fixture_paper (v : value) : res exn Paper.t := Ok _make_paper.

Definition snippet_doc_result : SnippetSearchResult.t :=
  SnippetSearchResult.mk (VDict snippet_doc) (Some _make_paper)
    (Some (Snippet.of_dict [("text"%string, VStr "matching text");
                            ("snippetKind"%string, VStr "abstract")]))
    (VFloat float_0_95).

Section JsonTools.
Context `{FloatFormat}.

(** ** The values a handler passes through *)

Definition dict_opt_ok (o : option (dict value)) : bool :=
  match o with
  | Some d => json_ok (VDict d)
  | None => true
  end.

Definition paper_ok (p : Paper.t) : bool :=
  dict_opt_ok (Paper.externalIds p) && dict_opt_ok (Paper.openAccessPdf p).

Definition snippet_ok (s : Snippet.t) : bool :=
  json_ok (Snippet.text s) && json_ok (Snippet.snippetKind s) &&
  json_ok (Snippet.section s).

Definition snippet_result_ok (r : SnippetSearchResult.t) : bool :=
  json_ok (SnippetSearchResult.score r) &&
  match SnippetSearchResult.snippet r with
  | Some s => snippet_ok s
  | None => true
  end.

(** A result object built by the constructor from a document. *)
Definition from_document (mkPaper : value -> res exn Paper.t)
    (r : SnippetSearchResult.t) : Prop :=
  exists d, json_ok (VDict d) = true /\
            SnippetSearchResult.__init__ mkPaper (VDict d) = Ok r.

(** The papers of a page or of a list. *)
Definition papers_ok (l : list Paper.t) : Prop :=
  Forall (fun p => paper_ok p = true) l.

(** ** The contract of a tool *)

Section Contract.
Context {E W : Type}.

(** Whatever [call] returns from the state [s] satisfies [P]. *)
Definition delivers {S A} (call : M E S A) (s : S) (P : A -> Prop) : Prop :=
  forall a s', run call s = (Ok a, s') -> P a.

(** Whenever [m] returns, it returns the encoding of a dictionary that
    [json.loads] gives back. *)
Definition returns_json (m : M E W string) (w : W) : Prop :=
  match run m w with
  | (Ok out, _) =>
      exists d, out = dumps (VDict d) /\ dict_wf d /\ loads out = Ok (VDict d)
  | (Raise _, _) => True
  end.

(** What the caller reads: the outcome of the handler, decoded. *)
Definition decoded (m : M E W string) (w : W) : res E (res jerr value) :=
  loads <$> (run m w).1.

End Contract.

(** ** Lemmas: the answers are documents *)

Lemma json_ok_fields fields :
  NoDup fields.*1 ->
  Forall (fun kv => forall v, kv.2 = Some v -> json_ok v = true) fields ->
  json_ok (VDict (dict_of_fields fields)) = true.
Proof.
  intros Hnd Hall. apply json_ok_VDict. split; [by apply dict_of_fields_wf|].
  clear Hnd. induction Hall as [|[k [v|]] fields Hv _ IH]; simpl; [done| |done].
  constructor; [by apply Hv | done].
Qed.

Lemma if_truthy_json_ok {A} `{Truthy A} (x : option A) (f : A -> value) :
  (forall a, x = Some a -> json_ok (f a) = true) ->
  forall v, if_truthy x f = Some v -> json_ok v = true.
Proof. intros Hf v (a & Ha & _ & <-)%if_truthy_Some. by apply Hf. Qed.

Lemma fmap_VInt_json_ok (x : option Z) :
  forall v, VInt <$> x = Some v -> json_ok v = true.
Proof. intros v. destruct x; intros [= <-]; done. Qed.

Lemma json_ok_option_string (o : option string) : json_ok (to_value o) = true.
Proof. by destruct o. Qed.

Lemma json_ok_option_Z (o : option Z) : json_ok (to_value o) = true.
Proof. by destruct o. Qed.

Lemma json_ok_strings (l : list string) : json_ok (to_value l) = true.
Proof. apply json_ok_VList, Forall_fmap, list.Forall_forall. done. Qed.

(** A dictionary written with explicit keys: the keys differ and the
    values are documents. *)
Lemma json_ok_literal (kvs : dict value) :
  bool_decide (NoDup kvs.*1) = true ->
  Forall (fun kv => json_ok kv.2 = true) kvs -> json_ok (VDict kvs) = true.
Proof. intros Hnd%bool_decide_eq_true Hall. by apply json_ok_VDict. Qed.

Lemma author_brief_json_ok (a : Author.t) : json_ok (author_brief a) = true.
Proof.
  apply json_ok_literal; [done|].
  repeat constructor; apply json_ok_option_string.
Qed.

Lemma paper_ref_json_ok (p : Paper.t) : json_ok (paper_ref p) = true.
Proof.
  apply json_ok_literal; [done|].
  repeat constructor; apply json_ok_option_string.
Qed.

Lemma dict_opt_ok_Some o d : dict_opt_ok o = true -> o = Some d -> json_ok (VDict d) = true.
Proof. by intros Ho ->. Qed.

Lemma _paper_to_dict_json_ok (paper : Paper.t) :
  paper_ok paper = true -> json_ok (VDict (_paper_to_dict paper)) = true.
Proof.
  intros [Hext Hpdf]%andb_true_iff. rewrite _paper_to_dict_table.
  apply json_ok_fields; [apply paper_keys_NoDup|].
  repeat (apply list.Forall_cons; split); try apply Forall_nil; simpl;
    try (apply if_truthy_json_ok; intros a Ha); try apply fmap_VInt_json_ok;
    try done; eauto using dict_opt_ok_Some.
  - by destruct (_truncate _ _).
  - apply json_ok_VList, Forall_fmap, list.Forall_forall. intros ??.
    apply author_brief_json_ok.
  - by destruct (Tldr.text a).
Qed.

Lemma _author_to_dict_json_ok (author : Author.t) :
  json_ok (VDict (_author_to_dict author)) = true.
Proof.
  rewrite _author_to_dict_table.
  apply json_ok_fields; [apply author_keys_NoDup|].
  repeat (apply list.Forall_cons; split); try apply Forall_nil; simpl;
    try (apply if_truthy_json_ok; intros a Ha); try apply fmap_VInt_json_ok;
    try done.
  apply json_ok_strings.
Qed.

Lemma snippet_item_json_ok (r : SnippetSearchResult.t) :
  snippet_result_ok r = true -> json_ok (VDict (snippet_item r)) = true.
Proof.
  destruct r as [data [p|] [[? text kind section ? ?]|] score];
    unfold snippet_result_ok, snippet_ok; simpl;
    rewrite ?andb_true_iff; intros Hok; destruct_and?;
    (apply json_ok_literal; [done|]); repeat constructor; simpl; try done;
    (apply json_ok_literal; [done|]); repeat constructor; simpl;
    auto using json_ok_option_string, json_ok_option_Z.
Qed.

Lemma json_ok_omap {A} (f : A -> option value) (l : list A) :
  (forall a v, f a = Some v -> json_ok v = true) ->
  json_ok (VList (omap f l)) = true.
Proof.
  intros Hf. apply json_ok_VList, list.Forall_forall.
  intros v (a & _ & Ha)%list_elem_of_omap. by eapply Hf.
Qed.

Lemma json_ok_fmap_dicts {A} (f : A -> dict value) (l : list A) :
  Forall (fun a => json_ok (VDict (f a)) = true) l ->
  json_ok (VList (VDict <$> (f <$> l))) = true.
Proof.
  intros Hall. apply json_ok_VList. rewrite <- list_fmap_compose.
  by apply Forall_fmap.
Qed.

(** The answer of a handler, a dictionary written with explicit keys, is
    given back by [json.loads]. *)
Lemma loads_answer (kvs : dict value) :
  bool_decide (NoDup kvs.*1) = true ->
  Forall (fun kv => json_ok kv.2 = true) kvs ->
  exists d, dumps (VDict kvs) = dumps (VDict d) /\ dict_wf d /\
            loads (dumps (VDict kvs)) = Ok (VDict d).
Proof.
  intros Hnd Hall. exists kvs. split_and!; [done|by apply bool_decide_eq_true in Hnd|].
  by apply loads_dumps_ok, json_ok_literal.
Qed.

Lemma json_ok_dict_get k v (d : dict value) :
  json_ok (VDict d) = true -> dict_get k d = Some v -> json_ok v = true.
Proof.
  intros [_ Hall]%json_ok_VDict Hget. rewrite list.Forall_forall in Hall.
  by apply (Hall (k, v)), dict_get_Some_in.
Qed.

Lemma json_ok_default_get k (d : dict value) :
  json_ok (VDict d) = true -> json_ok (default VNone (dict_get k d)) = true.
Proof.
  intros Hd. destruct (dict_get k d) as [v|] eqn:Hget; [|done].
  by eapply json_ok_dict_get.
Qed.

Lemma snippet_of_dict_ok (d : dict value) :
  json_ok (VDict d) = true -> snippet_ok (Snippet.of_dict d) = true.
Proof.
  intros Hd. unfold snippet_ok. simpl.
  by rewrite !json_ok_default_get.
Qed.

Lemma snippet_init_ok (v : value) (s : Snippet.t) :
  json_ok v = true -> Snippet.__init__ v = Ok s -> snippet_ok s = true.
Proof.
  intros Hv Hs. destruct v as [| | | | | |d];
    try (by apply snippet_init_not_dict in Hs as ->).
  rewrite snippet_init_of_dict in Hs. injection Hs as <-.
  by apply snippet_of_dict_ok.
Qed.

(** A result object built from a document holds documents. *)
Lemma search_result_init_ok mkPaper (d : dict value) (r : SnippetSearchResult.t) :
  json_ok (VDict d) = true ->
  SnippetSearchResult.__init__ mkPaper (VDict d) = Ok r ->
  snippet_result_ok r = true.
Proof.
  intros Hd. rewrite search_result_init_of_dict.
  unfold SnippetSearchResult.of_dict.
  destruct (SnippetSearchResult.decode_opt mkPaper _) as [p|e]; [|done]. simpl.
  destruct (SnippetSearchResult.decode_opt Snippet.__init__ _) as [s|e] eqn:Hs;
    [|done]. simpl. intros [= <-]. unfold snippet_result_ok. simpl.
  rewrite json_ok_default_get by done. simpl.
  destruct s as [s|]; [|done]. unfold SnippetSearchResult.decode_opt in Hs.
  destruct (dict_get "snippet" d) as [v|] eqn:Hv; [|done].
  case_decide; [done|]. destruct (Snippet.__init__ v) as [s'|e] eqn:Hs'; [|done].
  injection Hs as ->. eapply snippet_init_ok; [|exact Hs'].
  by eapply json_ok_dict_get.
Qed.

(** ** Lemmas: each handler returns JSON *)

Section Handlers.
Context {E W : Type} {R L : Type -> Type}.
Context {HC : Client E W R L}.
Context {HP : forall T, Paged E (R T) T} {HL : forall T, Listing E (L T) T}.

Lemma get_paper_citations_returns_json paper_id limit (w : W) :
  returns_json (get_paper_citations dumps paper_id limit) w.
Proof.
  unfold returns_json. rewrite run_get_paper_citations.
  destruct (run (sch_get_paper_citations _ _ _) w) as [[results|e] w']; [|done].
  destruct (run pg_list results) as [[all|e] r']; [|done].
  apply loads_answer; [done|]. repeat constructor. simpl.
  apply json_ok_omap. intros a v (p & _ & ->)%fmap_Some. apply paper_ref_json_ok.
Qed.

Lemma get_paper_references_returns_json paper_id limit (w : W) :
  returns_json (get_paper_references dumps paper_id limit) w.
Proof.
  unfold returns_json. rewrite run_get_paper_references.
  destruct (run (sch_get_paper_references _ _ _) w) as [[results|e] w']; [|done].
  destruct (run pg_list results) as [[all|e] r']; [|done].
  apply loads_answer; [done|]. repeat constructor. simpl.
  apply json_ok_omap. intros a v (p & _ & ->)%fmap_Some. apply paper_ref_json_ok.
Qed.

Lemma search_authors_returns_json query limit (w : W) :
  returns_json (search_authors dumps query limit) w.
Proof.
  unfold returns_json. rewrite run_search_authors.
  destruct (run (sch_search_author _ _) w) as [[results|e] w']; [|done].
  destruct (run pg_list results) as [[all|e] r']; [|done].
  apply loads_answer; [done|]. repeat constructor. simpl.
  apply json_ok_fmap_dicts, list.Forall_forall. intros a _.
  apply _author_to_dict_json_ok.
Qed.

Lemma json_ok_papers (l : list Paper.t) :
  papers_ok l -> json_ok (VList (VDict <$> (_paper_to_dict <$> l))) = true.
Proof.
  intros Hl. apply json_ok_fmap_dicts.
  eapply list.Forall_impl; [exact Hl|]. apply _paper_to_dict_json_ok.
Qed.

Lemma papers_ok_slice stop (l : list Paper.t) :
  papers_ok l -> papers_ok (list_slice_to stop l).
Proof. apply Forall_take. Qed.

Lemma get_author_returns_json author_id (w : W) :
  returns_json (get_author dumps author_id) w.
Proof.
  unfold returns_json. rewrite run_get_author.
  destruct (run (sch_get_author _) w) as [[author|e] w']; [|done].
  pose proof (_author_to_dict_json_ok author) as Hok.
  eexists. split_and!; [done|by apply json_ok_VDict in Hok as [? _]|].
  by apply loads_dumps_ok.
Qed.

Lemma get_paper_returns_json paper_id (w : W) :
  delivers (sch_get_paper paper_id) w (fun p => paper_ok p = true) ->
  returns_json (get_paper dumps paper_id) w.
Proof.
  intros Hd. unfold returns_json. rewrite run_get_paper.
  destruct (run (sch_get_paper _) w) as [[paper|e] w'] eqn:Hrun; [|done].
  pose proof (_paper_to_dict_json_ok paper (Hd _ _ Hrun)) as Hok.
  eexists. split_and!; [done|by apply json_ok_VDict in Hok as [? _]|].
  by apply loads_dumps_ok.
Qed.

Lemma search_papers_returns_json query year fos pdy mcc limit (w : W) :
  delivers (sch_search_paper (search_papers_args query year fos pdy mcc limit)) w
    (fun results => delivers (pg_getslice limit) results papers_ok) ->
  returns_json (search_papers dumps query year fos pdy mcc limit) w.
Proof.
  intros Hd. unfold returns_json. rewrite run_search_papers.
  destruct (run (sch_search_paper _) w) as [[results|e] w'] eqn:Hrun; [|done].
  destruct (run (pg_getslice limit) results) as [[page|e] r'] eqn:Hpage; [|done].
  apply loads_answer; [done|]. repeat constructor. simpl.
  by eapply json_ok_papers, Hd.
Qed.

Lemma get_author_papers_returns_json author_id limit (w : W) :
  delivers (sch_get_author_papers author_id (Z.min limit 1000)) w
    (fun results => delivers pg_list results papers_ok) ->
  returns_json (get_author_papers dumps author_id limit) w.
Proof.
  intros Hd. unfold returns_json. rewrite run_get_author_papers.
  destruct (run (sch_get_author_papers _ _) w) as [[results|e] w'] eqn:Hrun;
    [|done].
  destruct (run pg_list results) as [[all|e] r'] eqn:Hall; [|done].
  apply loads_answer; [done|]. repeat constructor. simpl.
  by eapply json_ok_papers, papers_ok_slice, Hd.
Qed.

Lemma get_recommendations_returns_json paper_id limit (w : W) :
  delivers (sch_get_recommended_papers paper_id (Z.min limit 500)) w
    (fun results => delivers (ls_getslice limit) results papers_ok) ->
  returns_json (get_recommendations dumps paper_id limit) w.
Proof.
  intros Hd. unfold returns_json. rewrite run_get_recommendations.
  destruct (run (sch_get_recommended_papers _ _) w) as [[results|e] w'] eqn:Hrun;
    [|done].
  destruct (run (ls_getslice limit) results) as [[page|e] r'] eqn:Hpage; [|done].
  apply loads_answer; [done|]. repeat constructor. simpl.
  by eapply json_ok_papers, Hd.
Qed.

Lemma search_snippets_returns_json query year fos pdy mcc limit (w : W) :
  delivers (sch_search_snippet
              (mk_search query year (split_fields fos) pdy mcc (Z.min limit 1000))) w
    (fun results =>
       delivers ls_iter results (Forall (fun r => snippet_result_ok r = true))) ->
  returns_json (search_snippets dumps query year fos pdy mcc limit) w.
Proof.
  intros Hd. unfold returns_json. rewrite run_search_snippets.
  destruct (run (sch_search_snippet _) w) as [[results|e] w'] eqn:Hrun; [|done].
  destruct (run ls_iter results) as [[all|e] r'] eqn:Hall; [|done].
  apply loads_answer; [done|]. repeat constructor. simpl.
  apply json_ok_VList, Forall_fmap.
  eapply list.Forall_impl; [by eapply Hd|]. apply snippet_item_json_ok.
Qed.

(** ** The contract, handler by handler *)

(** C13 (type): four handlers return JSON whatever the client delivers:
    the citations and the references of a paper, the authors found and
    one author.  Whenever one of them returns, the text is the encoding
    of a dictionary without repeated keys, and [json.loads] of the text
    is that dictionary. *)
Theorem handlers_return_json paper_id author_id query limit (w : W) :
  returns_json (get_paper_citations dumps paper_id limit) w /\
  returns_json (get_paper_references dumps paper_id limit) w /\
  returns_json (search_authors dumps query limit) w /\
  returns_json (get_author dumps author_id) w.
Proof.
  split_and!; auto using get_paper_citations_returns_json,
    get_paper_references_returns_json, search_authors_returns_json,
    get_author_returns_json.
Qed.

(** C24 (type): the four handlers that write whole papers return JSON
    when the two dictionaries that each delivered paper carries
    ([externalIds], [openAccessPdf]) are documents. *)
Theorem paper_tools_return_json query year fos pdy mcc paper_id author_id limit
    (w : W) :
  (delivers (sch_search_paper (search_papers_args query year fos pdy mcc limit)) w
     (fun results => delivers (pg_getslice limit) results papers_ok) ->
   returns_json (search_papers dumps query year fos pdy mcc limit) w) /\
  (delivers (sch_get_paper paper_id) w (fun p => paper_ok p = true) ->
   returns_json (get_paper dumps paper_id) w) /\
  (delivers (sch_get_author_papers author_id (Z.min limit 1000)) w
     (fun results => delivers pg_list results papers_ok) ->
   returns_json (get_author_papers dumps author_id limit) w) /\
  (delivers (sch_get_recommended_papers paper_id (Z.min limit 500)) w
     (fun results => delivers (ls_getslice limit) results papers_ok) ->
   returns_json (get_recommendations dumps paper_id limit) w).
Proof.
  split_and!; auto using search_papers_returns_json, get_paper_returns_json,
    get_author_papers_returns_json, get_recommendations_returns_json.
Qed.

(** C27 (refinement): what was decoded from JSON is encoded as JSON: when
    every result that the iteration of what the client delivers yields
    was built by [SnippetSearchResult.__init__] from a document, whatever
    the decoder of papers, [search_snippets] returns JSON. *)
Theorem search_snippets_from_json mkPaper query year fos pdy mcc limit (w : W) :
  delivers (sch_search_snippet
              (mk_search query year (split_fields fos) pdy mcc (Z.min limit 1000))) w
    (fun results => delivers ls_iter results (Forall (from_document mkPaper))) ->
  returns_json (search_snippets dumps query year fos pdy mcc limit) w.
Proof.
  intros Hd. apply search_snippets_returns_json. intros results w' Hrun all r' Hall.
  eapply list.Forall_impl; [by eapply Hd|].
  intros r (d & Hok & Hr). by eapply search_result_init_ok.
Qed.

End Handlers.

End JsonTools.

Lemma paper_tools_return_json_witness :
  returns_json (H:=test_format)
    (get_paper (HC:=mock_client (E:=exn) (set_rv_get_paper _make_paper empty_mock))
       (dumps (H:=test_format)) "abc123") [].
Proof.
  refine (proj1 (proj2 (paper_tools_return_json (H:=test_format)
            (HC:=mock_client (set_rv_get_paper _make_paper empty_mock))
            "q" None None None None "abc123" "a1" 10 [])) _).
  intros p w' [= <- _]. by vm_compute.
Defined.

Lemma search_snippets_from_json_witness :
  returns_json (H:=test_format)
    (search_snippets
       (HC:=mock_client (E:=exn) (set_rv_search_snippet [snippet_doc_result] empty_mock))
       (dumps (H:=test_format)) "query" None None None None 10) [].
Proof.
  apply (search_snippets_from_json (H:=test_format) fixture_paper).
  intros results w' [= <- _] all r' [= <- _]. repeat constructor.
  exists snippet_doc. split; by vm_compute.
Defined.
