(* ===== verification/JsonServer.v ===== *)
(** * The answers of the server are JSON

    The server of [Server.v] loaded with the encoder of [Json.v]
    ([json_host]), in front of a client that delivers documents
    ([delivers_documents]): every answer of the loop that is not an error
    is the encoding of a dictionary, which [json.loads] gives back
    ([json_answer]).  This is the composition of the table of tools, the
    binding of the arguments, the nine handlers, the helpers that build
    their dictionaries and the encoder. *)

From Stdlib Require Import ZArith String Ascii List SpecFloat.
From stdpp Require Import base tactics option list strings numbers.
From S2P Require Import Prelude PyDict PyValue JsonText Json Helpers Dto Paged.
From S2P Require Import Fixtures Tools Server JsonTools.

Open Scope Z_scope.

Section Answers.
Context `{FloatFormat}.
Context {E W : Type} {R L : Type -> Type}.
Context {HP : forall T, Paged E (R T) T} {HL : forall T, Listing E (L T) T}.

(** The module loaded with [json.dumps(_, indent=2)]. *)
Definition json_host (S : option string -> Client E W R L) (env : dict string) :
    Host E W R L := {|
  SemanticScholar := S;
  json_dumps := dumps;
  environ := env;
|}.

(** An answer that is a text is the encoding of a dictionary without
    repeated keys, and [json.loads] gives the dictionary back. *)
Definition json_answer {X} (a : res X string) : Prop :=
  match a with
  | Ok out => exists d, out = dumps (VDict d) /\ dict_wf d /\ loads out = Ok (VDict d)
  | Raise _ => True
  end.

(** Whatever the client delivers holds documents where the handlers pass
    values through: the two dictionaries of a paper, and the score and the
    attributes of a snippet. *)
Definition delivers_documents (HC : Client E W R L) : Prop :=
  (forall a w, delivers (sch_search_paper a) w
     (fun results => forall stop, delivers (pg_getslice stop) results papers_ok)) /\
  (forall id w, delivers (sch_get_paper id) w (fun p => paper_ok p = true)) /\
  (forall id l w, delivers (sch_get_author_papers id l) w
     (fun results => delivers pg_list results papers_ok)) /\
  (forall id l w, delivers (sch_get_recommended_papers id l) w
     (fun results => forall stop, delivers (ls_getslice stop) results papers_ok)) /\
  (forall a w, delivers (sch_search_snippet a) w
     (fun results =>
        delivers ls_iter results (Forall (fun r => snippet_result_ok r = true)))).

End Answers.

(** The client of the witnesses: three papers, two snippet results, two
    recommendations. *)
Definition test_host : Host exn (list Call) MockPaginated list :=
  json_host (H:=test_format) (fun _ => mock_client mock_three_papers) [].

(** ** Lemmas *)

Section Facts.
Context `{FloatFormat}.
Context {E W : Type} {R L : Type -> Type}.
Context {HP : forall T, Paged E (R T) T} {HL : forall T, Listing E (L T) T}.
Context (S : option string -> Client E W R L) (env : dict string).
Context (Hdocs : delivers_documents (S (_api_key env))).

Lemma returns_json_answer (m : M E W string) (w : W) :
  returns_json m w -> json_answer (run (raised m) w).1.
Proof.
  unfold returns_json. rewrite run_raised. by destruct (run m w) as [[out|e] w'].
Qed.

(** Every registered function returns JSON. *)
Lemma tool_fn_returns_json t vs m (w : W) :
  t ∈ tools (HH:=json_host S env) -> tool_fn t vs = Some m -> returns_json m w.
Proof.
  destruct Hdocs as (D1 & D2 & D3 & D4 & D5).
  unfold tools. intros Ht.
  repeat (apply elem_of_cons in Ht as [->|Ht]); [..|by apply elem_of_nil in Ht];
    cbn [tool_fn];
    first [intros (? & ? & ? & ? & ? & ? & ->)%search_fn_Some
          |intros (? & ? & ->)%id_limit_fn_Some
          |intros (? & ->)%id_fn_Some].
  - apply search_papers_returns_json. intros results w' Hr. by eapply D1.
  - apply get_paper_returns_json, D2.
  - apply get_paper_citations_returns_json.
  - apply get_paper_references_returns_json.
  - apply search_snippets_returns_json, D5.
  - apply search_authors_returns_json.
  - apply get_author_returns_json.
  - apply get_author_papers_returns_json, D3.
  - apply get_recommendations_returns_json. intros results w' Hr. by eapply D4.
Qed.

Lemma answer_json rq (w : W) :
  json_answer (answer (mcp (HH:=json_host S env)) rq w).1.
Proof.
  unfold answer, call_tool. cbn [server_tools mcp].
  destruct (find_tool (rq_tool rq) tools) as [t|] eqn:Hf; [|done].
  apply find_tool_Some in Hf as [Ht _].
  destruct (call_cases t [] (rq_arguments rq) w)
    as [(e & -> & _)|(vs & m & _ & Hm & ->)]; [done|].
  by eapply returns_json_answer, tool_fn_returns_json.
Qed.

Lemma serve_json rqs (w : W) :
  Forall json_answer (serve (mcp (HH:=json_host S env)) rqs w).1.
Proof.
  revert w. induction rqs as [|rq rqs IH]; intros w; [constructor|].
  rewrite serve_cons. constructor; [apply answer_json|apply IH].
Qed.

End Facts.

Lemma mock_delivers_documents `{FloatFormat} (m : MockSch) :
  papers_ok (mp_items (rv_search_paper m)) ->
  paper_ok (rv_get_paper m) = true ->
  (mp_iter (rv_get_author_papers m) = mp_items (rv_get_author_papers m) \/
   mp_iter (rv_get_author_papers m) = []) ->
  papers_ok (mp_items (rv_get_author_papers m)) ->
  papers_ok (rv_get_recommended_papers m) ->
  Forall (fun r => snippet_result_ok r = true) (rv_search_snippet m) ->
  delivers_documents (mock_client (E:=exn) m).
Proof.
  intros H1 H2 H3i H3 H4 H5. split_and!.
  - intros a w results w' [= <- _] stop page r' [= <- _]. by apply papers_ok_slice.
  - by intros id w p w' [= <- _].
  - intros id l w results w' [= <- _] page r' [= <- _].
    destruct H3i as [-> | ->]; [done|constructor].
  - intros id l w results w' [= <- _] stop page r' [= <- _].
    by apply papers_ok_slice.
  - by intros a w results w' [= <- _] all r' [= <- _].
Qed.

(** ** The composition *)

(** C16 (refinement): the server returns JSON: loaded with the encoder
    and in front of a client that delivers documents, the loop answers
    every request with an error or with the encoding of a dictionary
    without repeated keys, which [json.loads] gives back; this for every
    tool, whatever the arguments of the request. *)
Theorem serve_answers_json `{FloatFormat} {E W : Type} {R L : Type -> Type}
    {HP : forall T, Paged E (R T) T} {HL : forall T, Listing E (L T) T}
    (S : option string -> Client E W R L) (env : dict string)
    (rqs : list request) (w : W) :
  delivers_documents (S (_api_key env)) ->
  let out := main (HH:=json_host S env) rqs w in
  length out.1 = length rqs /\ Forall json_answer out.1.
Proof.
  intros Hd. split; [apply serve_length|by apply serve_json].
Qed.

Lemma serve_answers_json_witness :
  Forall (json_answer (H:=test_format)) (main (HH:=test_host) three_requests []).1.
Proof.
  refine (proj2 (serve_answers_json (H:=test_format)
                   (fun _ => mock_client mock_three_papers) [] three_requests [] _)).
  apply mock_delivers_documents; [| |by left|..]; by repeat constructor.
Defined.

(** On the mocked client of the test suite, for the three requests: the
    first two are refused and the third is one recorded call, with the
    limit clamped; its answer, decoded, holds the total and the three
    papers. *)
Example serve_three_requests :
  let out := main (HH:=test_host) three_requests [] in
  (fmap (M:=res (call_error exn)) (loads (H:=test_format)) <$> out.1)
  = [Raise (UnknownTool "delete_paper");
     Raise (BadCall (MissingArguments ["paper_id"%string]));
     Ok (Ok (VDict
       [("total"%string, VInt 50);
        ("papers"%string,
         VList (VDict <$> (_paper_to_dict
                             <$> mp_items (rv_search_paper mock_three_papers))))]))] /\
  out.2 = [Call_search_paper (mk_search "q" None None None None 100)].
Proof. split; by vm_compute. Qed.
