(* ===== verification/PagedTools.v ===== *)
(** * The handlers on the paged result of the specification

    The handlers of [Tools.v] are written against the interface [Paged];
    here the result objects are the [PagedResult] of the specification
    ([PagedResult.v]), with fuel [fuel] for every [get].  Exceptions are
    [PagedResult.perr].

    - [paper_item] and [citation_item] are item constructors for the
      examples: the constructors of the client library are not under
      [src/].
    - [PagedSch] and [paged_client] are the patched client of the test
      suite when the [return_value] of a listing method is a paged result
      instead of the mock of [_make_paginated].
    - The theorems say what a handler returns when the result object
      stands for a listing, and that the mock of the test suite is a
      double of such a result object ([doubles]): the handlers return on
      the one what they return on the other. *)

From Stdlib Require Import ZArith String List.
From stdpp Require Import base tactics option list strings numbers.
From S2P Require Import Prelude PyDict PyValue Helpers Dto Paged PagedResult.
From S2P Require Import Fixtures Tools.

Open Scope Z_scope.

(** A paper from its identifier. *)
Definition paper_item (v : value) : res exn Paper.t :=
  match v with
  | VStr id => Ok (_make_paper_with (Some id) (Some "Test Paper"%string))
  | _ => Raise DecodingError
  end.

(** A citation from the identifier of the citing paper; [None] is a
    citation without a paper. *)
Definition citation_item (v : value) : res exn Citation.t :=
  match v with
  | VNone => Ok (Citation.mk None)
  | _ => p ← paper_item v; Ok (Citation.mk (Some p))
  end.

(** The [return_value]s of the listing methods, as paged results; the
    other methods are those of [MockSch]. *)
Record PagedSch : Type := mk_paged_sch {
  prv_search_paper : PagedResult.t Paper.t;
  prv_get_paper_citations : PagedResult.t Citation.t;
  prv_get_paper_references : PagedResult.t Reference.t;
  prv_search_author : PagedResult.t Author.t;
  prv_get_author_papers : PagedResult.t Paper.t;
  prv_others : MockSch;
}.

Definition paged_client (m : PagedSch) :
    Client PagedResult.perr (list Call) PagedResult.t list := {|
  sch_search_paper args := mock_call (Call_search_paper args) (prv_search_paper m);
  sch_get_paper id := mock_call (Call_get_paper id) (rv_get_paper (prv_others m));
  sch_get_paper_citations id fields limit :=
    mock_call (Call_get_paper_citations id fields limit) (prv_get_paper_citations m);
  sch_get_paper_references id fields limit :=
    mock_call (Call_get_paper_references id fields limit)
      (prv_get_paper_references m);
  sch_search_snippet args :=
    mock_call (Call_search_snippet args) (rv_search_snippet (prv_others m));
  sch_search_author q limit :=
    mock_call (Call_search_author q limit) (prv_search_author m);
  sch_get_author id := mock_call (Call_get_author id) (rv_get_author (prv_others m));
  sch_get_author_papers id limit :=
    mock_call (Call_get_author_papers id limit) (prv_get_author_papers m);
  sch_get_recommended_papers id limit :=
    mock_call (Call_get_recommended_papers id limit)
      (rv_get_recommended_papers (prv_others m));
|}.

(** An exhausted result object: its only page is loaded. *)
Definition loaded_result {T} (items : list T) (ctor : value -> res exn T) :
    PagedResult.t T :=
  PagedResult.mk (Z.of_nat (length items)) items None
    (fun _ => Raise RemoteFetchError) ctor [None].

(** Three papers, of which the first page holds one. *)
Definition three_papers_source : option PagedResult.Cursor -> res exn value :=
  table_fetcher (first_page 3 [VStr "p1"] (Some "c1"%string))
    [("c1"%string, page [VStr "p2"; VStr "p3"] None)].

Definition three_papers_result : PagedResult.t Paper.t :=
  PagedResult.mk 3 [_make_paper_with (Some "p1"%string) (Some "Test Paper"%string)]
    (Some "c1"%string) three_papers_source paper_item [None].

Definition three_papers : list Paper.t :=
  [_make_paper_with (Some "p1"%string) (Some "Test Paper"%string);
   _make_paper_with (Some "p2"%string) (Some "Test Paper"%string);
   _make_paper_with (Some "p3"%string) (Some "Test Paper"%string)].

(** Two citations in two pages, the first without a paper. *)
Definition two_citations_source : option PagedResult.Cursor -> res exn value :=
  table_fetcher (first_page 2 [VNone] (Some "c1"%string))
    [("c1"%string, page [VStr "valid"] None)].

Definition two_citations_result : PagedResult.t Citation.t :=
  PagedResult.mk 2 [Citation.mk None] (Some "c1"%string) two_citations_source
    citation_item [None].

Definition two_citations : list Citation.t :=
  [Citation.mk None;
   Citation.mk (Some (_make_paper_with (Some "valid"%string)
                        (Some "Test Paper"%string)))].

(** The patched client whose listings are these paged results. *)
Definition paged_mock : PagedSch :=
  mk_paged_sch three_papers_result two_citations_result
    (loaded_result [] (fun _ => Raise DecodingError))
    (loaded_result [] (fun _ => Raise DecodingError))
    three_papers_result empty_mock.

(** The mock [k] of the test suite is a double of the result object [r]:
    [r] stands for the items of the mock, its total is their number and
    so is the total the mock was given, and the iterator of the mock is
    fresh. *)
Definition doubles {T} (fuel : nat) (r : PagedResult.t T) (k : MockPaginated T) :
    Prop :=
  PagedResult.represents r (mp_items k) fuel /\
  PagedResult.total r = Z.of_nat (length (mp_items k)) /\
  mp_total k = Z.of_nat (length (mp_items k)) /\
  mp_iter k = mp_items k.

(** The patched client [m] of the test suite is a double of the client
    [p]. *)
Definition doubles_client (fuel : nat) (p : PagedSch) (m : MockSch) : Prop :=
  doubles fuel (prv_search_paper p) (rv_search_paper m) /\
  doubles fuel (prv_get_paper_citations p) (rv_get_paper_citations m) /\
  doubles fuel (prv_get_paper_references p) (rv_get_paper_references m) /\
  doubles fuel (prv_search_author p) (rv_search_author m) /\
  doubles fuel (prv_get_author_papers p) (rv_get_author_papers m) /\
  rv_get_paper (prv_others p) = rv_get_paper m /\
  rv_search_snippet (prv_others p) = rv_search_snippet m /\
  rv_get_author (prv_others p) = rv_get_author m /\
  rv_get_recommended_papers (prv_others p) = rv_get_recommended_papers m.

(** The mock of the fixtures that [paged_mock] is the paged version of. *)
Definition paged_mock_double : MockSch :=
  set_rv_search_paper (_make_paginated three_papers None)
    (set_rv_get_paper_citations (_make_paginated two_citations None)
       (set_rv_get_author_papers (_make_paginated three_papers None) empty_mock)).

(** What [search_papers] and [get_paper_citations] serialise, from the
    total and the items they selected. *)
Definition papers_output (dumps : value -> string) (n : Z) (papers : list Paper.t) :
    string :=
  dumps (VDict [("total", VInt n);
                ("papers", VList (VDict <$> (_paper_to_dict <$> papers)))]).

Definition citations_output (dumps : value -> string) (n : Z)
    (items : list Citation.t) : string :=
  dumps (VDict [("total", VInt n);
                ("citations",
                 VList (omap (fun item => paper_ref <$> Citation.paper item) items))]).

(** ** The examples stand for their listings *)

Lemma three_papers_represents :
  PagedResult.represents three_papers_result three_papers 1.
Proof.
  exists [drop 1 three_papers]. split_and!; [|done|done].
  eapply PagedResult.pages_next; [reflexivity..|]. apply PagedResult.pages_end.
Qed.

Lemma two_citations_represents :
  PagedResult.represents two_citations_result two_citations 1.
Proof.
  exists [drop 1 two_citations]. split_and!; [|done|done].
  eapply PagedResult.pages_next; [reflexivity..|]. apply PagedResult.pages_end.
Qed.

Lemma loaded_result_represents {T} (items : list T) ctor fuel :
  PagedResult.represents (loaded_result items ctor) items fuel.
Proof.
  exists []. split_and!; [apply PagedResult.pages_end | apply app_nil_r | simpl; lia].
Qed.

(** ** A result object and its double *)

Lemma doubles_getslice {T} fuel stop (r : PagedResult.t T) (k : MockPaginated T) :
  doubles fuel r k ->
  exists r',
    run (pg_getslice (Paged:=paged_result_paged fuel T) stop) r
    = (Ok (list_slice_to stop (mp_items k)), r') /\
    pg_total (Paged:=paged_result_paged fuel T) r' = mp_total k.
Proof.
  intros (Hr & Ht & Hk & _).
  destruct (represents_paged_slice_to fuel stop r _ Hr Ht) as (r' & Hrun & _ & He).
  exists r'. split; [done|]. apply extends_pg_len in He as [_ Ht'].
  cbn [pg_total paged_result_paged]. congruence.
Qed.

Lemma doubles_list {T} fuel (r : PagedResult.t T) (k : MockPaginated T) :
  doubles fuel r k ->
  exists r',
    run (pg_list (Paged:=paged_result_paged fuel T)) r = (Ok (mp_iter k), r') /\
    pg_total (Paged:=paged_result_paged fuel T) r' = mp_total k /\
    pg_len (Paged:=paged_result_paged fuel T) r' = Z.of_nat (length (mp_items k)).
Proof.
  intros (Hr & Ht & Hk & Hi).
  destruct (represents_iterate_all fuel r _ Hr Ht) as (r' & Hrun & _ & He & Hl).
  exists r'. rewrite Hi. split; [done|]. apply extends_pg_len in He as [_ Ht'].
  cbn [pg_total pg_len paged_result_paged]. unfold PagedResult.length_loaded.
  rewrite Hl. split; congruence.
Qed.

Lemma loaded_result_doubles {T} (items : list T) ctor fuel :
  doubles fuel (loaded_result items ctor) (_make_paginated items None).
Proof. split_and!; [apply loaded_result_represents|done..]. Qed.

Lemma paged_mock_doubles : doubles_client 1 paged_mock paged_mock_double.
Proof.
  split_and!; try done;
    first [by split_and!; [apply three_papers_represents|..]
          |by split_and!; [apply two_citations_represents|..]
          |apply (loaded_result_doubles [])].
Qed.

(** ** The handlers on a paged result *)

Section PagedHandlers.
Context {W : Type} {L : Type -> Type}.
Context {HC : Client PagedResult.perr W PagedResult.t L}.
Context {HL : forall T, Listing PagedResult.perr (L T) T}.
Context (fuel : nat) (dumps : value -> string).

(** C17 (functional): when the result object of [search_paper] stands
    for a listing, [search_papers] returns the total and the dictionaries
    of the papers of [listing[:limit]], whatever the limit, fetching the
    pages it needs. *)
Theorem search_papers_paged q y f p mc l (w w' : W)
    (r : PagedResult.t Paper.t) (all : list Paper.t) :
  run (sch_search_paper (search_papers_args q y f p mc l)) w = (Ok r, w') ->
  PagedResult.represents r all fuel ->
  PagedResult.total r = Z.of_nat (length all) ->
  run (search_papers (HP:=paged_result_paged fuel) dumps q y f p mc l) w
  = (Ok (papers_output dumps (Z.of_nat (length all)) (list_slice_to l all)), w').
Proof.
  intros Hcall Hr Ht. rewrite run_search_papers, Hcall.
  cbn [pg_getslice pg_total paged_result_paged].
  destruct (represents_paged_slice_to fuel l r all Hr Ht) as (r' & -> & _ & He).
  apply extends_pg_len in He as [_ ->]. by rewrite Ht.
Qed.

(** C30 (functional): when the result object of [get_paper_citations]
    stands for a listing, the handler loads the whole listing, whatever
    the limit, reports its length as the total and returns the papers of
    the first [limit] citations, those without a paper skipped. *)
Theorem get_paper_citations_paged id l (w w' : W)
    (r : PagedResult.t Citation.t) (all : list Citation.t) :
  run (sch_get_paper_citations id ["title"%string] (Z.min l 1000)) w = (Ok r, w') ->
  PagedResult.represents r all fuel ->
  PagedResult.total r = Z.of_nat (length all) ->
  run (get_paper_citations (HP:=paged_result_paged fuel) dumps id l) w
  = (Ok (citations_output dumps (Z.of_nat (length all)) (list_slice_to l all)), w') /\
  exists r', run (pg_list (Paged:=paged_result_paged fuel Citation.t)) r = (Ok all, r') /\
             PagedResult.loaded_items r' = all.
Proof.
  intros Hcall Hr Ht. rewrite run_get_paper_citations, Hcall.
  cbn [pg_list pg_len paged_result_paged].
  destruct (represents_iterate_all fuel r all Hr Ht) as (r' & -> & _ & _ & Hl).
  unfold PagedResult.length_loaded. rewrite Hl. split; [done|by exists r'].
Qed.

End PagedHandlers.

(** C18 (equivalence): the mock of the test suite is a faithful double:
    when the result objects of a client stand for the items of the mocks
    of the patched client, with the totals the number of items, every
    handler returns on the one what it returns on the other, and the two
    clients record the same call; this for every argument, a limit beyond
    the total and a negative one included. *)
Theorem handlers_paged_as_mock (fuel : nat) (dumps : value -> string)
    (p : PagedSch) (m : MockSch) (calls : list Call) :
  doubles_client fuel p m ->
  let on_paged h := run (h (paged_client p) (paged_result_paged fuel)) calls in
  let on_mock h := run (h (mock_client m) (@mock_paged PagedResult.perr)) calls in
  (forall q y f pd mc l,
     on_paged (fun HC HP => search_papers dumps q y f pd mc l)
     = on_mock (fun HC HP => search_papers dumps q y f pd mc l)) /\
  (forall id l,
     on_paged (fun HC HP => get_paper_citations dumps id l)
     = on_mock (fun HC HP => get_paper_citations dumps id l)) /\
  (forall id l,
     on_paged (fun HC HP => get_paper_references dumps id l)
     = on_mock (fun HC HP => get_paper_references dumps id l)) /\
  (forall q l,
     on_paged (fun HC HP => search_authors dumps q l)
     = on_mock (fun HC HP => search_authors dumps q l)) /\
  (forall id l,
     on_paged (fun HC HP => get_author_papers dumps id l)
     = on_mock (fun HC HP => get_author_papers dumps id l)) /\
  (forall id,
     on_paged (fun HC HP => get_paper dumps id)
     = on_mock (fun HC HP => get_paper dumps id)) /\
  (forall id,
     on_paged (fun HC HP => get_author dumps id)
     = on_mock (fun HC HP => get_author dumps id)) /\
  (forall q y f pd mc l,
     on_paged (fun HC HP => search_snippets dumps q y f pd mc l)
     = on_mock (fun HC HP => search_snippets dumps q y f pd mc l)) /\
  (forall id l,
     on_paged (fun HC HP => get_recommendations dumps id l)
     = on_mock (fun HC HP => get_recommendations dumps id l)).
Proof.
  intros (D1 & D2 & D3 & D4 & D5 & E1 & E2 & E3 & E4) on_paged on_mock.
  subst on_paged on_mock.
  split_and!; intros; cbv beta;
    rewrite ?run_search_papers, ?run_get_paper_citations, ?run_get_paper_references,
      ?run_search_authors, ?run_get_author_papers, ?run_get_paper, ?run_get_author,
      ?run_search_snippets, ?run_get_recommendations;
    cbn [sch_search_paper sch_get_paper_citations sch_get_paper_references
         sch_search_author sch_get_author_papers sch_get_paper sch_get_author
         sch_search_snippet sch_get_recommended_papers paged_client mock_client];
    rewrite !run_mock_call, ?run_mock_pg_getslice, ?run_mock_pg_list,
      ?E1, ?E2, ?E3, ?E4; try done.
  - by destruct (doubles_getslice fuel l _ _ D1) as (r' & -> & ->).
  - by destruct (doubles_list fuel _ _ D2) as (r' & -> & _ & ->).
  - by destruct (doubles_list fuel _ _ D3) as (r' & -> & _ & ->).
  - by destruct (doubles_list fuel _ _ D4) as (r' & -> & -> & _).
  - by destruct (doubles_list fuel _ _ D5) as (r' & -> & _ & ->).
Qed.

Lemma search_papers_paged_witness :
  run (search_papers (HC:=paged_client paged_mock) (HP:=paged_result_paged 1)
         dumps_keys "q" None None None None default_limit_10) []
  = (Ok (papers_output dumps_keys (Z.of_nat (length three_papers))
           (list_slice_to default_limit_10 three_papers)),
     [Call_search_paper (search_papers_args "q" None None None None default_limit_10)]).
Proof.
  exact (search_papers_paged (HC:=paged_client paged_mock) 1 dumps_keys "q" None
           None None None default_limit_10 [] _ three_papers_result three_papers
           eq_refl three_papers_represents eq_refl).
Defined.

Lemma get_paper_citations_paged_witness :
  run (get_paper_citations (HC:=paged_client paged_mock) (HP:=paged_result_paged 1)
         dumps_keys "paper1" 1) []
  = (Ok (citations_output dumps_keys (Z.of_nat (length two_citations))
           (list_slice_to 1 two_citations)),
     [Call_get_paper_citations "paper1" ["title"%string] (Z.min 1 1000)]).
Proof.
  exact (proj1 (get_paper_citations_paged (HC:=paged_client paged_mock) 1 dumps_keys
                  "paper1" 1 [] _ two_citations_result two_citations eq_refl
                  two_citations_represents eq_refl)).
Defined.

Lemma handlers_paged_as_mock_witness :
  run (search_papers (HC:=paged_client paged_mock) (HP:=paged_result_paged 1)
         dumps_keys "q" None None None None default_limit_10) []
  = run (search_papers (HC:=mock_client paged_mock_double)
           (HP:=@mock_paged PagedResult.perr) dumps_keys
           "q" None None None None default_limit_10) [].
Proof.
  exact (proj1 (handlers_paged_as_mock 1 dumps_keys paged_mock paged_mock_double []
                  paged_mock_doubles) "q" None None None None default_limit_10).
Defined.
