(* ===== verification/Tests.v ===== *)
(** * The test suite, case by case

    Each test function of [tests/test_mcp_server.py] is an [Example]: the
    call the test makes, on the fixtures and the mocked client the test
    installs, evaluated by the model.  A test that decodes the handler's
    output with [json.loads] and inspects it is stated on [json_result],
    the value that [json.loads] gives for the text the handler returned;
    a test that asserts on [mock_sch.method.call_args] is stated on the
    record of calls.  The floats of the suite are printed and read by the
    format [test_format]. *)

From Stdlib Require Import ZArith String Ascii List SpecFloat.
From stdpp Require Import base tactics option list strings numbers.
From S2P Require Import Prelude PyDict PyValue JsonText Json Helpers Dto Paged.
From S2P Require Import Fixtures Tools.

Open Scope Z_scope.

(** The handlers on the mocked client [m], from an empty record of calls. *)
Definition on_mock {A} (m : MockSch)
    (h : forall (HC : Client exn (list Call) MockPaginated list),
       M exn (list Call) A) :
    res exn A * list Call :=
  run (h (mock_client m)) [].

(** [result = json.loads(handler(...))]: the decoded answer, when the
    handler returns and its text is JSON. *)
Definition json_result (out : res exn string * list Call) : option value :=
  match out.1 with
  | Ok s => res_to_option (loads (H:=test_format) s)
  | Raise _ => None
  end.

(** [score=0.95] and [score=0.5] as binary64 numbers. *)
Definition score_0_95 : value := VFloat float_0_95.
Definition score_0_5 : value := VFloat float_0_5.

(** The snippet result of [TestSearchSnippets.test_returns_snippets]. *)
Definition snippet_result_s1 : SnippetSearchResult.t :=
  SnippetSearchResult.mk VNone
    (Some (_make_paper_with (Some "s1") (Some "Snippet Paper")))
    (Some (Snippet.mk VNone (VStr "matching text") (VStr "abstract")
             (VStr "Abstract") VNone VNone))
    score_0_95.

(** ** TestTruncate *)

Example TestTruncate_test_short_text :
  _truncate (Some "short"%string) ABSTRACT_MAX = Some "short"%string.
Proof. reflexivity. Qed.

Example TestTruncate_test_long_text :
  exists result,
    _truncate (Some (str_repeat "x" (Z.to_nat (ABSTRACT_MAX + 50)))) ABSTRACT_MAX
      = Some result /\
    py_len result = ABSTRACT_MAX + 3 /\
    str_endswith "..." result = true.
Proof. eexists. split_and!; by vm_compute. Qed.

Example TestTruncate_test_none : _truncate None ABSTRACT_MAX = None.
Proof. reflexivity. Qed.

Example TestTruncate_test_empty :
  _truncate (Some ""%string) ABSTRACT_MAX = Some ""%string.
Proof. reflexivity. Qed.

(** ** TestPaperToDict *)

Example TestPaperToDict_test_full_paper :
  _paper_to_dict _make_paper =
  [("paperId", VStr "abc123"); ("title", VStr "Test Paper");
   ("abstract", VStr "This is a test abstract."); ("year", VInt 2023);
   ("citationCount", VInt 42); ("url", VStr "https://example.com/paper");
   ("authors", VList [VDict [("authorId", VStr "auth1");
                             ("name", VStr "Author One")]]);
   ("externalIds", VDict [("DOI", VStr "10.1234/test")]);
   ("venue", VStr "TestConf"); ("publicationDate", VStr "2023-01-15");
   ("openAccessPdf", VDict [("url", VStr "https://example.com/pdf")]);
   ("tldr", VStr "A short summary.")].
Proof. by vm_compute. Qed.

Example TestPaperToDict_test_null_fields_omitted :
  let d := _paper_to_dict _make_paper_nulls in
  Forall (fun key => dict_in key d = false)
    ["abstract"; "authors"; "venue"; "publicationDate"; "openAccessPdf"; "tldr"]%string.
Proof. by vm_compute; repeat constructor. Qed.

Example TestPaperToDict_test_abstract_truncated :
  exists abstract,
    dict_get "abstract"
      (_paper_to_dict
         (_make_paper_abstract
            (Some (str_repeat "x" (Z.to_nat (ABSTRACT_MAX + 100))))))
      = Some (VStr abstract) /\
    py_len abstract = ABSTRACT_MAX + 3 /\
    str_endswith "..." abstract = true.
Proof. eexists. split_and!; by vm_compute. Qed.

(** ** TestAuthorToDict *)

Example TestAuthorToDict_test_full_author :
  _author_to_dict _make_author =
  [("authorId", VStr "auth1"); ("name", VStr "Author One");
   ("url", VStr "https://example.com/author"); ("paperCount", VInt 50);
   ("citationCount", VInt 1000); ("hIndex", VInt 20);
   ("affiliations", VList [VStr "Test University"])].
Proof. by vm_compute. Qed.

Example TestAuthorToDict_test_null_fields_omitted :
  let d := _author_to_dict _make_author_nulls in
  Forall (fun key => dict_in key d = false)
    ["url"; "paperCount"; "citationCount"; "hIndex"; "affiliations"]%string.
Proof. by vm_compute; repeat constructor. Qed.

#[local] Existing Instance test_format.

(** ** TestSearchPapers *)

Example TestSearchPapers_test_basic_search :
  let out :=
    on_mock (set_rv_search_paper (_make_paginated [_make_paper] (Some 1)) empty_mock)
      (fun _ => search_papers dumps "test query" None None None None
                  default_limit_10) in
  json_result out
  = Some (VDict [("total", VInt 1);
                 ("papers", VList [VDict (_paper_to_dict _make_paper)])]) /\
  out.2 = [Call_search_paper (mk_search "test query" None None None None 10)].
Proof. by vm_compute. Qed.

Example TestSearchPapers_test_fields_of_study_split :
  (on_mock (set_rv_search_paper (_make_paginated [] None) empty_mock)
     (fun _ => search_papers dumps "query" None
                 (Some "Computer Science,Mathematics"%string) None None
                 default_limit_10)).2
  = [Call_search_paper
       (mk_search "query" None (Some ["Computer Science"; "Mathematics"]%string)
          None None 10)].
Proof. reflexivity. Qed.

Example TestSearchPapers_test_limit_clamped_to_100 :
  (on_mock (set_rv_search_paper (_make_paginated [] None) empty_mock)
     (fun _ => search_papers dumps "query" None None None None 200)).2
  = [Call_search_paper (mk_search "query" None None None None 100)].
Proof. reflexivity. Qed.

(** ** TestGetPaper *)

Example TestGetPaper_test_get_paper :
  let paper := _make_paper_with (Some "xyz") (Some "Test Paper") in
  let out :=
    on_mock (set_rv_get_paper paper empty_mock) (fun _ => get_paper dumps "xyz") in
  json_result out = Some (VDict (_paper_to_dict paper)) /\
  out.2 = [Call_get_paper "xyz"] /\
  dict_get "paperId" (_paper_to_dict paper) = Some (VStr "xyz").
Proof. by vm_compute. Qed.

(** ** TestGetPaperCitations *)

Example TestGetPaperCitations_test_returns_citations :
  json_result
    (on_mock
       (set_rv_get_paper_citations
          (_make_paginated
             [Citation.mk (Some (_make_paper_with (Some "cite1") (Some "Citing Paper")))]
             None)
          empty_mock)
       (fun _ => get_paper_citations dumps "paper1" default_limit_20))
  = Some (VDict [("total", VInt 1);
                      ("citations",
                       VList [VDict [("paperId", VStr "cite1");
                                     ("title", VStr "Citing Paper")]])]).
Proof. by vm_compute. Qed.

Example TestGetPaperCitations_test_null_paper_skipped :
  json_result
    (on_mock mock_two_citations
       (fun _ => get_paper_citations dumps "paper1" default_limit_20))
  = Some (VDict [("total", VInt 2);
                      ("citations",
                       VList [VDict [("paperId", VStr "valid");
                                     ("title", VStr "Test Paper")]])]).
Proof. by vm_compute. Qed.

Example TestGetPaperCitations_test_limit_clamped_to_1000 :
  (on_mock (set_rv_get_paper_citations (_make_paginated [] None) empty_mock)
     (fun _ => get_paper_citations dumps "paper1" 2000)).2
  = [Call_get_paper_citations "paper1" ["title"%string] 1000].
Proof. reflexivity. Qed.

(** ** TestGetPaperReferences *)

Example TestGetPaperReferences_test_returns_references :
  json_result
    (on_mock
       (set_rv_get_paper_references
          (_make_paginated
             [Reference.mk (Some (_make_paper_with (Some "ref1") (Some "Ref Paper")))]
             None)
          empty_mock)
       (fun _ => get_paper_references dumps "paper1" default_limit_20))
  = Some (VDict [("total", VInt 1);
                      ("references",
                       VList [VDict [("paperId", VStr "ref1");
                                     ("title", VStr "Ref Paper")]])]).
Proof. by vm_compute. Qed.

Example TestGetPaperReferences_test_null_paper_skipped :
  json_result
    (on_mock
       (set_rv_get_paper_references (_make_paginated [Reference.mk None] None)
          empty_mock)
       (fun _ => get_paper_references dumps "paper1" default_limit_20))
  = Some (VDict [("total", VInt 1); ("references", VList [])]).
Proof. by vm_compute. Qed.

(** ** TestSearchSnippets *)

Example TestSearchSnippets_test_returns_snippets :
  json_result
    (on_mock (set_rv_search_snippet [snippet_result_s1] empty_mock)
       (fun _ => search_snippets dumps "query" None None None None default_limit_10))
  = Some (VDict
          [("results",
            VList [VDict [("score", score_0_95);
                          ("paper", VDict [("paperId", VStr "s1");
                                           ("title", VStr "Snippet Paper");
                                           ("year", VInt 2023)]);
                          ("snippet", VDict [("text", VStr "matching text");
                                             ("kind", VStr "abstract");
                                             ("section", VStr "Abstract")])]])]).
Proof. by vm_compute. Qed.

Example TestSearchSnippets_test_null_paper_and_snippet :
  json_result
    (on_mock
       (set_rv_search_snippet [SnippetSearchResult.mk VNone None None score_0_5]
          empty_mock)
       (fun _ => search_snippets dumps "query" None None None None default_limit_10))
  = Some (VDict [("results", VList [VDict [("score", score_0_5)]])]).
Proof. by vm_compute. Qed.

Example TestSearchSnippets_test_fields_of_study_split :
  (on_mock (set_rv_search_snippet [] empty_mock)
     (fun _ => search_snippets dumps "query" None (Some "Physics,Biology"%string)
                 None None default_limit_10)).2
  = [Call_search_snippet
       (mk_search "query" None (Some ["Physics"; "Biology"]%string) None None 10)].
Proof. reflexivity. Qed.

Example TestSearchSnippets_test_limit_clamped_to_1000 :
  (on_mock (set_rv_search_snippet [] empty_mock)
     (fun _ => search_snippets dumps "query" None None None None 2000)).2
  = [Call_search_snippet (mk_search "query" None None None None 1000)].
Proof. reflexivity. Qed.

(** ** TestSearchAuthors, TestGetAuthor, TestGetAuthorPapers *)

Example TestSearchAuthors_test_returns_authors :
  json_result
    (on_mock (set_rv_search_author (_make_paginated [_make_author] (Some 1)) empty_mock)
       (fun _ => search_authors dumps "Author One" default_limit_10))
  = Some (VDict [("total", VInt 1);
                      ("authors", VList [VDict (_author_to_dict _make_author)])]).
Proof. by vm_compute. Qed.

Example TestGetAuthor_test_get_author :
  let author := _make_author_with (Some "a1") in
  json_result
    (on_mock (set_rv_get_author author empty_mock) (fun _ => get_author dumps "a1"))
  = Some (VDict (_author_to_dict author)) /\
  dict_get "authorId" (_author_to_dict author) = Some (VStr "a1").
Proof. by vm_compute. Qed.

Example TestGetAuthorPapers_test_returns_papers :
  json_result
    (on_mock (set_rv_get_author_papers (_make_paginated [_make_paper] None) empty_mock)
       (fun _ => get_author_papers dumps "a1" default_limit_20))
  = Some (VDict [("total", VInt 1);
                      ("papers", VList [VDict (_paper_to_dict _make_paper)])]).
Proof. by vm_compute. Qed.

Example TestGetAuthorPapers_test_limit_clamped_to_1000 :
  (on_mock (set_rv_get_author_papers (_make_paginated [] None) empty_mock)
     (fun _ => get_author_papers dumps "a1" 2000)).2
  = [Call_get_author_papers "a1" 1000].
Proof. reflexivity. Qed.

(** ** TestGetRecommendations *)

Example TestGetRecommendations_test_returns_recommendations :
  json_result
    (on_mock (set_rv_get_recommended_papers [_make_paper] empty_mock)
       (fun _ => get_recommendations dumps "paper1" default_limit_10))
  = Some (VDict [("papers", VList [VDict (_paper_to_dict _make_paper)])]).
Proof. by vm_compute. Qed.

Example TestGetRecommendations_test_limit_clamped_to_500 :
  (on_mock (set_rv_get_recommended_papers [] empty_mock)
     (fun _ => get_recommendations dumps "paper1" 1000)).2
  = [Call_get_recommended_papers "paper1" 500].
Proof. reflexivity. Qed.

